(** * Site-Barbearia: the appointment logic of [javascript/app.js]

    A shallow embedding of the booking script and of the platform
    functions it calls ([JSON.parse], [JSON.stringify], [localStorage],
    [Date], [Array.prototype.sort]), followed by the properties proved
    about it.

    Conventions of the embedding.
    - A JavaScript string is the list of its UTF-16 code units.
    - A value read back from [localStorage] is a JSON value; a property
      that is missing reads as [None] (JavaScript's [undefined]).
    - A call that may throw returns a [Resultado]; a handler that mutates
      the page or the storage is a function [Estado -> Resultado * Estado],
      the state being kept when the handler throws.
    - HTML written by the script is kept as structured data (cells, rows,
      options) instead of markup text.

    Left out: the reset of the form and the quota of the storage. *)

From Stdlib Require Import ZArith NArith List String Ascii Bool Lia.
From Stdlib Require Import Permutation Sorted.
Import ListNotations.

Set Warnings "-register-all".
Local Open Scope N_scope.

(* ================================================================== *)
(** * JavaScript strings *)
(* ================================================================== *)

(** A code unit of a JavaScript string (UTF-16), and a string. *)
Definition unidade := N.
Definition jsstring := list unidade.

(** A literal of the source whose characters are all ASCII. *)
Definition js (s : string) : jsstring :=
  map N_of_ascii (list_ascii_of_string s).

(** Equality of strings, code unit by code unit (what [===] does on two
    strings). *)
Fixpoint jsstring_eqb (s t : jsstring) : bool :=
  match s, t with
  | [], [] => true
  | c :: s', d :: t' => (c =? d) && jsstring_eqb s' t'
  | _, _ => false
  end.

(** The code units the script and the JSON and date formats name. *)
Abbreviation c_tab := 9%N (only parsing).
Abbreviation c_lf := 10%N (only parsing).
Abbreviation c_cr := 13%N (only parsing).
Abbreviation c_espaco := 32%N (only parsing).
Abbreviation c_aspas := 34%N (only parsing).
Abbreviation c_barra_invertida := 92%N (only parsing).
Abbreviation c_barra := 47%N (only parsing).
Abbreviation c_abre_colchete := 91%N (only parsing).
Abbreviation c_fecha_colchete := 93%N (only parsing).
Abbreviation c_abre_chave := 123%N (only parsing).
Abbreviation c_fecha_chave := 125%N (only parsing).
Abbreviation c_dois_pontos := 58%N (only parsing).
Abbreviation c_virgula := 44%N (only parsing).
Abbreviation c_menos := 45%N (only parsing).
Abbreviation c_mais := 43%N (only parsing).
Abbreviation c_ponto := 46%N (only parsing).
Abbreviation c_zero := 48%N (only parsing).
Abbreviation c_nove := 57%N (only parsing).
Abbreviation c_b := 98%N (only parsing).
Abbreviation c_e := 101%N (only parsing).
Abbreviation c_E := 69%N (only parsing).
Abbreviation c_f := 102%N (only parsing).
Abbreviation c_n := 110%N (only parsing).
Abbreviation c_r := 114%N (only parsing).
Abbreviation c_t := 116%N (only parsing).
Abbreviation c_u := 117%N (only parsing).
Abbreviation c_T := 84%N (only parsing).

Definition ehDigito (c : unidade) : bool := (c_zero <=? c) && (c <=? c_nove).

(** The longest prefix made of decimal digits, and what follows it. *)
Fixpoint digitos (s : jsstring) : jsstring * jsstring :=
  match s with
  | c :: r =>
      if ehDigito c then let (ds, r') := digitos r in (c :: ds, r')
      else ([], s)
  | [] => ([], [])
  end.

(** The number a digit sequence denotes, most significant digit first. *)
Definition valorDosDigitos (ds : jsstring) : N :=
  fold_left (fun acc c => 10 * acc + (c - c_zero)) ds 0.

(* ================================================================== *)
(** * Values and results *)
(* ================================================================== *)

(** The values [JSON.parse] can produce. A number is kept as the literal
    it was read from: the script never computes with a stored number. *)
Inductive JSVal : Type :=
| JNull
| JBool (b : bool)
| JNum (literal : jsstring)
| JStr (s : jsstring)
| JArr (itens : list JSVal)
| JObj (props : list (jsstring * JSVal)).

Inductive Erro : Type :=
| SyntaxError
| TypeError.

(** The outcome of a call: a returned value or a thrown error. *)
Inductive Resultado (A : Type) : Type :=
| Retorna (a : A)
| Lanca (e : Erro).
Arguments Retorna {A} a.
Arguments Lanca {A} e.

Definition ligar {A B} (r : Resultado A) (k : A -> Resultado B) : Resultado B :=
  match r with
  | Retorna a => k a
  | Lanca e => Lanca e
  end.

Notation "x <- r ;; k" := (ligar r (fun x => k))
  (at level 61, r at next level, right associativity).

(** [v === s] for a value that may be [undefined] and a string [s]. *)
Definition igualEstritoTexto (v : option JSVal) (s : jsstring) : bool :=
  match v with
  | Some (JStr t) => jsstring_eqb t s
  | _ => false
  end.

(* ================================================================== *)
(** * JSON.parse *)
(* ================================================================== *)

Definition ehEspacoJSON (c : unidade) : bool :=
  (c =? c_tab) || (c =? c_lf) || (c =? c_cr) || (c =? c_espaco).

Fixpoint pularEspacos (s : jsstring) : jsstring :=
  match s with
  | c :: r => if ehEspacoJSON c then pularEspacos r else s
  | [] => []
  end.

(** The value of a hexadecimal digit. *)
Definition valorHex (c : unidade) : option N :=
  if (48 <=? c) && (c <=? 57) then Some (c - 48)
  else if (97 <=? c) && (c <=? 102) then Some (c - 87)
  else if (65 <=? c) && (c <=? 70) then Some (c - 55)
  else None.

Definition hex4 (h1 h2 h3 h4 : unidade) : option unidade :=
  match valorHex h1, valorHex h2, valorHex h3, valorHex h4 with
  | Some a, Some b, Some c, Some d => Some (4096 * a + 256 * b + 16 * c + d)
  | _, _, _, _ => None
  end.

(** The character a two-character escape stands for. *)
Definition escapeSimples (e : unidade) : option unidade :=
  if e =? c_aspas then Some c_aspas
  else if e =? c_barra_invertida then Some c_barra_invertida
  else if e =? c_barra then Some c_barra
  else if e =? c_b then Some 8
  else if e =? c_f then Some 12
  else if e =? c_n then Some c_lf
  else if e =? c_r then Some c_cr
  else if e =? c_t then Some c_tab
  else None.

(** The characters of a string literal, read after its opening quote, up
    to and including the closing quote. *)
Fixpoint analisarString (s : jsstring) : option (jsstring * jsstring) :=
  match s with
  | [] => None
  | c :: r =>
      if c =? c_aspas then Some ([], r)
      else if c =? c_barra_invertida then
        match r with
        | [] => None
        | e :: r1 =>
            if e =? c_u then
              match r1 with
              | h1 :: h2 :: h3 :: h4 :: r2 =>
                  match hex4 h1 h2 h3 h4 with
                  | Some u =>
                      match analisarString r2 with
                      | Some (t, resto) => Some (u :: t, resto)
                      | None => None
                      end
                  | None => None
                  end
              | _ => None
              end
            else
              match escapeSimples e with
              | Some u =>
                  match analisarString r1 with
                  | Some (t, resto) => Some (u :: t, resto)
                  | None => None
                  end
              | None => None
              end
        end
      else if c <? 32 then None
      else
        match analisarString r with
        | Some (t, resto) => Some (c :: t, resto)
        | None => None
        end
  end.

(** A number literal: an optional minus sign; an integer part, which is
    either a single zero or a nonzero digit followed by digits; an optional
    fraction (a point and at least one digit); an optional exponent (e or E,
    an optional sign, at least one digit). *)
Definition analisarInteiro (s : jsstring) : option (jsstring * jsstring) :=
  match s with
  | c :: r =>
      if c =? c_zero then Some ([c], r)
      else if ehDigito c then let (ds, r') := digitos r in Some (c :: ds, r')
      else None
  | [] => None
  end.

Definition analisarFracao (s : jsstring) : option (jsstring * jsstring) :=
  match s with
  | c :: r =>
      if c =? c_ponto then
        match digitos r with
        | ([], _) => None
        | (ds, r') => Some (c :: ds, r')
        end
      else Some ([], s)
  | [] => Some ([], [])
  end.

Definition analisarExpoente (s : jsstring) : option (jsstring * jsstring) :=
  match s with
  | c :: r =>
      if (c =? c_e) || (c =? c_E) then
        let (sinal, r1) :=
          match r with
          | d :: r' => if (d =? c_mais) || (d =? c_menos) then ([d], r') else ([], r)
          | [] => ([], r)
          end in
        match digitos r1 with
        | ([], _) => None
        | (ds, r2) => Some (c :: sinal ++ ds, r2)
        end
      else Some ([], s)
  | [] => Some ([], [])
  end.

Definition analisarNumero (s : jsstring) : option (jsstring * jsstring) :=
  let (sinal, s1) :=
    match s with
    | c :: r => if c =? c_menos then ([c], r) else ([], s)
    | [] => ([], s)
    end in
  match analisarInteiro s1 with
  | None => None
  | Some (i, s2) =>
      match analisarFracao s2 with
      | None => None
      | Some (f, s3) =>
          match analisarExpoente s3 with
          | None => None
          | Some (e, s4) => Some (sinal ++ i ++ f ++ e, s4)
          end
      end
  end.

(** [s] starts with the word [p]: what follows it. *)
Fixpoint aposPrefixo (p s : jsstring) : option jsstring :=
  match p, s with
  | [], _ => Some s
  | c :: p', d :: s' => if c =? d then aposPrefixo p' s' else None
  | _ :: _, [] => None
  end.

(** An array index in canonical form ("0", "7", "42", ... below 2^32 - 1):
    such keys come first, in ascending order, among the properties of an
    object. *)
Definition indiceDeArray (k : jsstring) : option N :=
  match k with
  | [] => None
  | c :: r =>
      if forallb ehDigito k && (negb (c =? c_zero) || match r with [] => true | _ => false end)
         && (List.length k <=? 10)%nat
      then let v := valorDosDigitos k in
           if v <? 4294967295 then Some v else None
      else None
  end.

(** Defining the property [k] of an object: an existing property keeps its
    place and takes the new value; a new array index goes in ascending
    order before the other keys; any other new key goes last. *)
Fixpoint definirPropriedade (props : list (jsstring * JSVal)) (k : jsstring) (v : JSVal)
  : list (jsstring * JSVal) :=
  match props with
  | [] => [(k, v)]
  | (k', v') :: resto =>
      if jsstring_eqb k' k then (k, v) :: resto
      else
        match indiceDeArray k, indiceDeArray k' with
        | Some i, Some i' =>
            if i <? i' then (k, v) :: props
            else (k', v') :: definirPropriedade resto k v
        | Some _, None => (k, v) :: props
        | None, _ => (k', v') :: definirPropriedade resto k v
        end
  end.

(** The outcome of reading a piece of JSON text: a value and the text left,
    a syntax error, or the recursion budget used up. *)
Inductive Analise (A : Type) : Type :=
| Aceita (a : A) (resto : jsstring)
| ErroDeSintaxe
| SemCombustivel.
Arguments Aceita {A} a resto.
Arguments ErroDeSintaxe {A}.
Arguments SemCombustivel {A}.

(** Recursive descent over the JSON grammar. [analisarElementos] reads the
    elements of an array after its first element position, [analisarMembros]
    the members of an object; both carry what was read so far. *)
Fixpoint analisarValor (n : nat) (s : jsstring) : Analise JSVal :=
  match n with
  | O => SemCombustivel
  | S n' =>
      match pularEspacos s with
      | [] => ErroDeSintaxe
      | c :: r =>
          if c =? c_abre_colchete then
            match pularEspacos r with
            | d :: r' =>
                if d =? c_fecha_colchete then Aceita (JArr []) r'
                else analisarElementos n' r []
            | [] => ErroDeSintaxe
            end
          else if c =? c_abre_chave then
            match pularEspacos r with
            | d :: r' =>
                if d =? c_fecha_chave then Aceita (JObj []) r'
                else analisarMembros n' r []
            | [] => ErroDeSintaxe
            end
          else if c =? c_aspas then
            match analisarString r with
            | Some (t, resto) => Aceita (JStr t) resto
            | None => ErroDeSintaxe
            end
          else if (c =? c_menos) || ehDigito c then
            match analisarNumero (c :: r) with
            | Some (lit, resto) => Aceita (JNum lit) resto
            | None => ErroDeSintaxe
            end
          else
            match aposPrefixo (js "true") (c :: r) with
            | Some resto => Aceita (JBool true) resto
            | None =>
                match aposPrefixo (js "false") (c :: r) with
                | Some resto => Aceita (JBool false) resto
                | None =>
                    match aposPrefixo (js "null") (c :: r) with
                    | Some resto => Aceita JNull resto
                    | None => ErroDeSintaxe
                    end
                end
            end
      end
  end

with analisarElementos (n : nat) (s : jsstring) (lidos : list JSVal) : Analise JSVal :=
  match n with
  | O => SemCombustivel
  | S n' =>
      match analisarValor n' s with
      | Aceita v r =>
          match pularEspacos r with
          | c :: r' =>
              if c =? c_virgula then analisarElementos n' r' (lidos ++ [v])
              else if c =? c_fecha_colchete then Aceita (JArr (lidos ++ [v])) r'
              else ErroDeSintaxe
          | [] => ErroDeSintaxe
          end
      | ErroDeSintaxe => ErroDeSintaxe
      | SemCombustivel => SemCombustivel
      end
  end

with analisarMembros (n : nat) (s : jsstring) (props : list (jsstring * JSVal))
  : Analise JSVal :=
  match n with
  | O => SemCombustivel
  | S n' =>
      match pularEspacos s with
      | q :: r0 =>
          if q =? c_aspas then
            match analisarString r0 with
            | Some (k, r1) =>
                match pularEspacos r1 with
                | p :: r2 =>
                    if p =? c_dois_pontos then
                      match analisarValor n' r2 with
                      | Aceita v r3 =>
                          match pularEspacos r3 with
                          | c :: r4 =>
                              if c =? c_virgula
                              then analisarMembros n' r4 (definirPropriedade props k v)
                              else if c =? c_fecha_chave
                              then Aceita (JObj (definirPropriedade props k v)) r4
                              else ErroDeSintaxe
                          | [] => ErroDeSintaxe
                          end
                      | ErroDeSintaxe => ErroDeSintaxe
                      | SemCombustivel => SemCombustivel
                      end
                    else ErroDeSintaxe
                | [] => ErroDeSintaxe
                end
            | None => ErroDeSintaxe
            end
          else ErroDeSintaxe
      | [] => ErroDeSintaxe
      end
  end.

(** The budget given to the parser: every recursive call is made on a text
    that has lost at least one character, so twice the length is enough
    ([analisarValor_combustivel] below). *)
Definition combustivelPara (s : jsstring) : nat := (2 * List.length s + 2)%nat.

(** [JSON.parse(s)]: one value, with white space allowed around it. *)
Definition JSON_parse (s : jsstring) : Resultado JSVal :=
  match analisarValor (combustivelPara s) s with
  | Aceita v r =>
      match pularEspacos r with
      | [] => Retorna v
      | _ :: _ => Lanca SyntaxError
      end
  | ErroDeSintaxe => Lanca SyntaxError
  | SemCombustivel => Lanca SyntaxError
  end.

(* ================================================================== *)
(** * The platform *)
(* ================================================================== *)

(** What the script takes from the platform and the language standard
    leaves open.
    - The text [JSON.stringify] writes for the number a literal denotes:
      the conversion goes through IEEE 754 doubles.
    - The date [new Date(s)] builds from a string that is not in the
      date-time string format of the standard, which an engine may read by
      rules of its own. *)
Class Plataforma : Type := {
  serializarNumero : jsstring -> jsstring;
  dataPorHeuristica : jsstring -> option Z
}.

Section Script.

Context `{plataforma : Plataforma}.

(* ================================================================== *)
(** * Date *)
(* ================================================================== *)

(** A [Date] is its time value in milliseconds, [None] for an invalid date.
    The script builds every date from local-time fields and reads it back
    through local-time getters, so the time value is kept in local time:
    the offset between local time and UTC is never observed and is left
    out (a midnight that local time skips is read as a later hour of the
    same day, which leaves the fields the script reads as they are). The functions below are those of the ECMAScript specification
    (Day, DayFromYear, YearFromTime, MonthFromTime, DateFromTime, WeekDay,
    MakeDay, MakeTime, MakeDate, TimeClip). *)

Local Open Scope Z_scope.

Definition msPerDay : Z := 86400000.

Definition Day (t : Z) : Z := t / msPerDay.

Definition DayFromYear (y : Z) : Z :=
  365 * (y - 1970) + (y - 1969) / 4 - (y - 1901) / 100 + (y - 1601) / 400.

Definition anoBissexto (y : Z) : bool :=
  (y mod 4 =? 0) && (negb (y mod 100 =? 0) || (y mod 400 =? 0)).

Definition DaysInYear (y : Z) : Z := if anoBissexto y then 366 else 365.

(** The largest year whose first day is not after the given day: an estimate
    from the mean length of a year, off by at most one, then corrected. *)
Definition YearFromDay (d : Z) : Z :=
  let y0 := 1970 + (400 * d) / 146097 in
  if d <? DayFromYear y0 then y0 - 1
  else if DayFromYear (y0 + 1) <=? d then y0 + 1
  else y0.

Definition YearFromTime (t : Z) : Z := YearFromDay (Day t).

Definition DayWithinYear (t : Z) : Z := Day t - DayFromYear (YearFromTime t).

Definition InLeapYear (t : Z) : Z := if anoBissexto (YearFromTime t) then 1 else 0.

Definition MonthFromTime (t : Z) : Z :=
  let d := DayWithinYear t in
  let b := InLeapYear t in
  if d <? 31 then 0
  else if d <? 59 + b then 1
  else if d <? 90 + b then 2
  else if d <? 120 + b then 3
  else if d <? 151 + b then 4
  else if d <? 181 + b then 5
  else if d <? 212 + b then 6
  else if d <? 243 + b then 7
  else if d <? 273 + b then 8
  else if d <? 304 + b then 9
  else if d <? 334 + b then 10
  else 11.

Definition DateFromTime (t : Z) : Z :=
  let d := DayWithinYear t in
  let b := InLeapYear t in
  match MonthFromTime t with
  | 0 => d + 1
  | 1 => d - 30
  | 2 => d - 58 - b
  | 3 => d - 89 - b
  | 4 => d - 119 - b
  | 5 => d - 150 - b
  | 6 => d - 180 - b
  | 7 => d - 211 - b
  | 8 => d - 242 - b
  | 9 => d - 272 - b
  | 10 => d - 303 - b
  | _ => d - 333 - b
  end.

Definition WeekDay (t : Z) : Z := (Day t + 4) mod 7.

(** The number of days of the year [y] that precede its month [m] (0 to 11). *)
Definition diasAntesDoMes (y m : Z) : Z :=
  let b := if anoBissexto y then 1 else 0 in
  match m with
  | 0 => 0
  | 1 => 31
  | 2 => 59 + b
  | 3 => 90 + b
  | 4 => 120 + b
  | 5 => 151 + b
  | 6 => 181 + b
  | 7 => 212 + b
  | 8 => 243 + b
  | 9 => 273 + b
  | 10 => 304 + b
  | _ => 334 + b
  end.

Definition MakeDay (year month date : Z) : Z :=
  let ym := year + month / 12 in
  let mn := month mod 12 in
  DayFromYear ym + diasAntesDoMes ym mn + date - 1.

Definition MakeTime (hour min sec ms : Z) : Z :=
  hour * 3600000 + min * 60000 + sec * 1000 + ms.

Definition MakeDate (day time : Z) : Z := day * msPerDay + time.

Definition TimeClip (t : Z) : option Z :=
  if Z.abs t <=? 8640000000000000 then Some t else None.

Definition DateObj := option Z.

(** [isNaN(d)] for a date. *)
Definition isNaN (d : DateObj) : bool :=
  match d with
  | Some _ => false
  | None => true
  end.

(** The getters return [None] for NaN. *)
Definition getFullYear (d : DateObj) : option Z := option_map YearFromTime d.
Definition getMonth (d : DateObj) : option Z := option_map MonthFromTime d.
Definition getDate (d : DateObj) : option Z := option_map DateFromTime d.
Definition getDay (d : DateObj) : option Z := option_map WeekDay d.

(** [x === n] for a number that may be NaN and an integer [n]. *)
Definition igualEstritoNumero (x : option Z) (n : Z) : bool :=
  match x with
  | Some v => v =? n
  | None => false
  end.

(** [new Date(year, month, date)] for a year that is not 0 to 99 (the script
    passes 2025): a month or a day out of range carries over. *)
Definition Date_de_componentes (year month date : Z) : DateObj :=
  TimeClip (MakeDate (MakeDay year month date) 0).

(** The number of days of the month [m] (1 to 12) of the year [y]. *)
Definition diasNoMes (y m : Z) : Z :=
  match m with
  | 2 => if anoBissexto y then 29 else 28
  | 4 | 6 | 9 | 11 => 30
  | _ => 31
  end.

(** Exactly [k] decimal digits, and the number they denote. *)
Fixpoint lerDigitos (k : nat) (acc : Z) (s : jsstring) : option (Z * jsstring) :=
  match k with
  | O => Some (acc, s)
  | S k' =>
      match s with
      | c :: r =>
          if ehDigito c then lerDigitos k' (10 * acc + Z.of_N (c - c_zero)) r
          else None
      | [] => None
      end
  end.

(** The year of the date-time string format: four digits, or a sign and six
    digits (minus zero being excluded). *)
Definition lerAno (s : jsstring) : option (Z * jsstring) :=
  match s with
  | c :: r =>
      if (c =? c_mais)%N then lerDigitos 6 0 r
      else if (c =? c_menos)%N then
        match lerDigitos 6 0 r with
        | Some (y, r') => if y =? 0 then None else Some (- y, r')
        | None => None
        end
      else lerDigitos 4 0 s
  | [] => None
  end.

(** An optional field introduced by a hyphen: two digits, or the default. *)
Definition lerCampoOpcional (padrao : Z) (s : jsstring) : option (Z * jsstring) :=
  match s with
  | c :: r => if (c =? c_menos)%N then lerDigitos 2 0 r else Some (padrao, s)
  | [] => Some (padrao, s)
  end.

(** The time of day [THH:mm:ss] that ends the string. *)
Definition lerHorario (s : jsstring) : option (Z * Z * Z) :=
  match s with
  | c :: r =>
      if (c =? c_T)%N then
        match lerDigitos 2 0 r with
        | Some (h, p1 :: r1) =>
            if (p1 =? c_dois_pontos)%N then
              match lerDigitos 2 0 r1 with
              | Some (mi, p2 :: r2) =>
                  if (p2 =? c_dois_pontos)%N then
                    match lerDigitos 2 0 r2 with
                    | Some (sg, []) => Some (h, mi, sg)
                    | _ => None
                    end
                  else None
              | _ => None
              end
            else None
        | _ => None
        end
      else None
  | [] => None
  end.

(** The fields of a string in the date-time string format with a time of
    day given to the second and no time-zone offset: the date is one of
    [YYYY], [YYYY-MM], [YYYY-MM-DD], the year possibly in its signed
    six-digit form, and a missing month or day is 01. Every string the script
    passes ends with the literal [T00:00:00], which no other form of the
    format can end with. *)
Definition lerDataHora (s : jsstring) : option (Z * Z * Z * Z * Z * Z) :=
  match lerAno s with
  | None => None
  | Some (y, r1) =>
      match
        match r1 with
        | c :: _ =>
            if (c =? c_menos)%N then
              match lerCampoOpcional 1 r1 with
              | Some (m, r2) =>
                  match lerCampoOpcional 1 r2 with
                  | Some (d, r3) => Some (m, d, r3)
                  | None => None
                  end
              | None => None
              end
            else Some (1, 1, r1)
        | [] => Some (1, 1, r1)
        end
      with
      | None => None
      | Some (m, d, r3) =>
          match lerHorario r3 with
          | None => None
          | Some (h, mi, sg) => Some (y, m, d, h, mi, sg)
          end
      end
  end.

(** The month is 01 to 12, the day is a day of that month, the hour is 00 to
    24, 24 only as 24:00:00. *)
Definition camposValidos (y m d h mi sg : Z) : bool :=
  (1 <=? m) && (m <=? 12) && (1 <=? d) && (d <=? diasNoMes y m)
  && (h <=? 24) && (mi <=? 59) && (sg <=? 59)
  && ((h <? 24) || ((mi =? 0) && (sg =? 0))).

(** [new Date(s)]. A string in the format above is read as the standard
    says, its fields taken as local time. Any other string is left to the
    platform, and so is a string with a day its month does not have
    (30 February), which engines read differently. *)
Definition Date_de_texto (s : jsstring) : DateObj :=
  match lerDataHora s with
  | Some (y, m, d, h, mi, sg) =>
      if camposValidos y m d h mi sg
      then TimeClip (MakeDate (MakeDay y (m - 1) d) (MakeTime h mi sg 0))
      else dataPorHeuristica s
  | None => dataPorHeuristica s
  end.

(** [String(n)] for an integer. *)
Fixpoint digitosDeUint (u : Decimal.uint) : jsstring :=
  match u with
  | Decimal.Nil => []
  | Decimal.D0 u' => 48%N :: digitosDeUint u'
  | Decimal.D1 u' => 49%N :: digitosDeUint u'
  | Decimal.D2 u' => 50%N :: digitosDeUint u'
  | Decimal.D3 u' => 51%N :: digitosDeUint u'
  | Decimal.D4 u' => 52%N :: digitosDeUint u'
  | Decimal.D5 u' => 53%N :: digitosDeUint u'
  | Decimal.D6 u' => 54%N :: digitosDeUint u'
  | Decimal.D7 u' => 55%N :: digitosDeUint u'
  | Decimal.D8 u' => 56%N :: digitosDeUint u'
  | Decimal.D9 u' => 57%N :: digitosDeUint u'
  end.

Definition textoDeInteiro (z : Z) : jsstring :=
  if z <? 0 then c_menos :: digitosDeUint (N.to_uint (Z.to_N (- z)))
  else digitosDeUint (N.to_uint (Z.to_N z)).

(** [s.padStart(n, '0')]. *)
Definition padStart (n : nat) (s : jsstring) : jsstring :=
  repeat c_zero (n - List.length s) ++ s.

(** The calendar date [YYYY-MM-DD] written with four, two and two digits. *)
Definition doisDigitos (n : Z) : jsstring :=
  [Z.to_N (48 + n / 10); Z.to_N (48 + n mod 10)].

Definition quatroDigitos (n : Z) : jsstring :=
  [Z.to_N (48 + n / 1000); Z.to_N (48 + (n / 100) mod 10);
   Z.to_N (48 + (n / 10) mod 10); Z.to_N (48 + n mod 10)].

Definition dataISO_de (y m d : Z) : jsstring :=
  quatroDigitos y ++ c_menos :: doisDigitos m ++ c_menos :: doisDigitos d.

(** A date of the calendar with a four-digit year. *)
Definition dataCivil (y m d : Z) : Prop :=
  0 <= y <= 9999 /\ 1 <= m <= 12 /\ 1 <= d <= diasNoMes y m.

(* ================================================================== *)
(** * JSON.stringify, localStorage and arrays *)
(* ================================================================== *)

Definition digitoHex (d : N) : unidade :=
  (if d <? 10 then 48 + d else 87 + d)%N.

(** The escape [\uXXXX] of a code unit, in lower-case hexadecimal. *)
Definition escapeUnicode (c : unidade) : jsstring :=
  [c_barra_invertida; c_u;
   digitoHex (c / 4096)%N; digitoHex ((c / 256) mod 16)%N;
   digitoHex ((c / 16) mod 16)%N; digitoHex (c mod 16)%N].

Definition substitutoAlto (c : unidade) : bool := ((55296 <=? c) && (c <=? 56319))%N.
Definition substitutoBaixo (c : unidade) : bool := ((56320 <=? c) && (c <=? 57343))%N.

(** The characters of a quoted string, between the quotes: the quote, the
    backslash and the control characters are escaped, and so is a surrogate
    that is not part of a pair. *)
Fixpoint citar (s : jsstring) : jsstring :=
  match s with
  | [] => []
  | c :: r =>
      if (c =? 8)%N then c_barra_invertida :: c_b :: citar r
      else if (c =? c_tab)%N then c_barra_invertida :: c_t :: citar r
      else if (c =? c_lf)%N then c_barra_invertida :: c_n :: citar r
      else if (c =? 12)%N then c_barra_invertida :: c_f :: citar r
      else if (c =? c_cr)%N then c_barra_invertida :: c_r :: citar r
      else if (c =? c_aspas)%N then c_barra_invertida :: c_aspas :: citar r
      else if (c =? c_barra_invertida)%N
      then c_barra_invertida :: c_barra_invertida :: citar r
      else if (c <? 32)%N then escapeUnicode c ++ citar r
      else if substitutoAlto c then
        match r with
        | d :: r' =>
            if substitutoBaixo d then c :: d :: citar r'
            else escapeUnicode c ++ citar r
        | [] => escapeUnicode c
        end
      else if substitutoBaixo c then escapeUnicode c ++ citar r
      else c :: citar r
  end.

Definition textoCitado (s : jsstring) : jsstring :=
  c_aspas :: citar s ++ [c_aspas].

(** The parts separated by commas. *)
Fixpoint juntar (partes : list jsstring) : jsstring :=
  match partes with
  | [] => []
  | [p] => p
  | p :: resto => p ++ c_virgula :: juntar resto
  end.

(** [JSON.stringify(v)], without indentation. *)
Fixpoint JSON_stringify (v : JSVal) : jsstring :=
  match v with
  | JNull => js "null"
  | JBool true => js "true"
  | JBool false => js "false"
  | JNum literal => serializarNumero literal
  | JStr s => textoCitado s
  | JArr itens =>
      c_abre_colchete :: juntar (map JSON_stringify itens) ++ [c_fecha_colchete]
  | JObj props =>
      c_abre_chave
        :: juntar (map (fun p => textoCitado (fst p) ++ c_dois_pontos :: JSON_stringify (snd p))
                       props)
        ++ [c_fecha_chave]
  end.

(** [localStorage]: the items, by key. The quota of the storage is not
    modelled. *)
Definition Storage := list (jsstring * jsstring).

Fixpoint getItem (ls : Storage) (k : jsstring) : option jsstring :=
  match ls with
  | [] => None
  | (k', v) :: resto => if jsstring_eqb k' k then Some v else getItem resto k
  end.

Fixpoint setItem (ls : Storage) (k v : jsstring) : Storage :=
  match ls with
  | [] => [(k, v)]
  | (k', v') :: resto =>
      if jsstring_eqb k' k then (k, v) :: resto
      else (k', v') :: setItem resto k v
  end.

(** The own property [k] of an object, [None] when there is none. *)
Fixpoint buscar (props : list (jsstring * JSVal)) (k : jsstring) : option JSVal :=
  match props with
  | [] => None
  | (k', v) :: resto => if jsstring_eqb k' k then Some v else buscar resto k
  end.

(** [v.k] for a value that is not [null], for the property names the script
    reads (nome, servico, data, hora): no built-in prototype defines them,
    so only an object can have them. *)
Definition lerCampo (v : JSVal) (k : jsstring) : option JSVal :=
  match v with
  | JObj props => buscar props k
  | _ => None
  end.

(** [v.k]: reading a property of [null] throws. *)
Definition campo (v : JSVal) (k : jsstring) : Resultado (option JSVal) :=
  match v with
  | JNull => Lanca TypeError
  | _ => Retorna (lerCampo v k)
  end.

(** [a.some(p)], [a.filter(p)] and [a.push(x)] on the elements of an array. *)
Fixpoint algum (p : JSVal -> Resultado bool) (l : list JSVal) : Resultado bool :=
  match l with
  | [] => Retorna false
  | x :: r => b <- p x ;; if (b : bool) then Retorna true else algum p r
  end.

Fixpoint filtrar (p : JSVal -> Resultado bool) (l : list JSVal) : Resultado (list JSVal) :=
  match l with
  | [] => Retorna []
  | x :: r =>
      b <- p x ;;
      r' <- filtrar p r ;;
      Retorna (if (b : bool) then x :: r' else r')
  end.

(** A value read from the storage has the array methods only when it is an
    array: calling one on anything else throws. *)
Definition Array_some (v : JSVal) (p : JSVal -> Resultado bool) : Resultado bool :=
  match v with
  | JArr l => algum p l
  | _ => Lanca TypeError
  end.

Definition Array_filter (v : JSVal) (p : JSVal -> Resultado bool)
  : Resultado (list JSVal) :=
  match v with
  | JArr l => filtrar p l
  | _ => Lanca TypeError
  end.

Definition Array_push (v : JSVal) (x : JSVal) : Resultado JSVal :=
  match v with
  | JArr l => Retorna (JArr (l ++ [x]))
  | _ => Lanca TypeError
  end.

(** [a.sort(cmp)]: the elements in ascending order of [cmp], elements that
    compare equal keeping their order (the sort is stable). *)
Fixpoint inserirOrdenado {A} (cmp : A -> A -> Z) (x : A) (l : list A) : list A :=
  match l with
  | [] => [x]
  | y :: r => if cmp x y <=? 0 then x :: l else y :: inserirOrdenado cmp x r
  end.

Fixpoint Array_sort {A} (cmp : A -> A -> Z) (l : list A) : list A :=
  match l with
  | [] => []
  | x :: r => inserirOrdenado cmp x (Array_sort cmp r)
  end.

(** [a.indexOf(v)] on an array of strings: the first position whose string
    is strictly equal to [v], or -1. *)
Fixpoint indexOfDesde (i : Z) (a : list jsstring) (v : option JSVal) : Z :=
  match a with
  | [] => -1
  | s :: r => if igualEstritoTexto v s then i else indexOfDesde (i + 1) r v
  end.

Definition indexOf (a : list jsstring) (v : option JSVal) : Z := indexOfDesde 0 a v.

(** [a.includes(h)] for a string [h] in an array of values. *)
Definition includesTexto (a : list (option JSVal)) (h : jsstring) : bool :=
  existsb (fun v => igualEstritoTexto v h) a.

(** [a.includes(n)] on an array of integers. *)
Definition includesNumero (a : list Z) (n : Z) : bool :=
  existsb (fun m => m =? n) a.

Fixpoint paraCada {A B} (f : A -> Resultado B) (l : list A) : Resultado (list B) :=
  match l with
  | [] => Retorna []
  | x :: r => y <- f x ;; r' <- paraCada f r ;; Retorna (y :: r')
  end.

(* ================================================================== *)
(** * The script *)
(* ================================================================== *)

Definition CHAVE_ARMAZENAMENTO : jsstring := js "agenda_demo_barbearia".

Definition LISTA_DE_HORARIOS_FIXOS : list jsstring :=
  map js ["09:00"; "10:00"; "11:00"; "12:00"; "13:00"; "14:00"; "15:00"; "16:00";
          "17:00"]%string.

Definition MESES_PERMITIDOS : list Z := [9; 10; 11].

Definition ANO_PERMITIDO : Z := 2025.

(** [x || padrao] for a string that may be [null]: the empty string is
    falsy too. *)
Definition ouTexto (x : option jsstring) (padrao : jsstring) : jsstring :=
  match x with
  | Some (c :: r) => c :: r
  | _ => padrao
  end.

Definition pegarListaDeAgendamentos (ls : Storage) : JSVal :=
  match JSON_parse (ouTexto (getItem ls CHAVE_ARMAZENAMENTO) (js "[]")) with
  | Retorna v => v
  | Lanca _ => JArr []
  end.

Definition salvarListaDeAgendamentos (lista : JSVal) (ls : Storage) : Storage :=
  setItem ls CHAVE_ARMAZENAMENTO (JSON_stringify lista).

Definition horarioEstaOcupado (ls : Storage) (dataISO hora : jsstring) : Resultado bool :=
  let lista := pegarListaDeAgendamentos ls in
  Array_some lista (fun item =>
    d <- campo item (js "data") ;;
    if igualEstritoTexto d dataISO
    then h <- campo item (js "hora") ;; Retorna (igualEstritoTexto h hora)
    else Retorna false).

Definition meiaNoite : jsstring := js "T00:00:00".

Definition dataEstaDentroDoPeriodoPermitido (dataISO : jsstring) : bool :=
  let d := Date_de_texto (dataISO ++ meiaNoite) in
  if isNaN d then false
  else igualEstritoNumero (getFullYear d) ANO_PERMITIDO
       && match getMonth d with
          | Some m => includesNumero MESES_PERMITIDOS m
          | None => false
          end.

Definition ehDomingo (dataISO : jsstring) : bool :=
  let d := Date_de_texto (dataISO ++ meiaNoite) in
  igualEstritoNumero (getDay d) 0.

(** ** The page *)

(** The messages shown by [alert]. *)
Inductive Alerta : Type :=
| AlertaCamposObrigatorios
| AlertaForaDoPeriodo
| AlertaDomingo
| AlertaHorarioOcupado
| AlertaSalvo.

Definition textoDoAlerta (a : Alerta) : string :=
  match a with
  | AlertaCamposObrigatorios =>
      "Preencha todos os campos obrigatórios (nome, telefone, data e hora)."
  | AlertaForaDoPeriodo => "Escolha uma data em Outubro, Novembro ou Dezembro de 2025."
  | AlertaDomingo => "Domingos não são permitidos. Escolha outra data."
  | AlertaHorarioOcupado => "Esse horário já está ocupado. Escolha outro horário."
  | AlertaSalvo => "Agendamento salvo com sucesso!"
  end.

(** The text of an option of the select [#hora]. *)
Inductive TextoDaOpcao : Type :=
| TextoSelecioneData          (* 'Selecione uma data para ver horários' *)
| TextoForaDoPeriodo          (* 'Data fora do período permitido' *)
| TextoDomingo                (* 'Domingo (não permitido)' *)
| TextoHorario (h : jsstring) (ocupado : bool).  (* h, followed by ' — ocupado' *)

Record Opcao : Type := {
  op_value : jsstring;
  op_texto : TextoDaOpcao;
  op_disabled : bool;
  op_selected : bool
}.

(** The text of the element [#msg]. *)
Inductive Mensagem : Type :=
| MensagemDomingosBloqueados  (* '(Domingos e Fériados bloqueados).' *)
| MensagemForaDoPeriodo       (* 'Escolha uma data dentro do período permitido.' *)
| MensagemDomingo             (* 'Domingo não é permitido para agendamento.' *)
| MensagemOcupados (n : nat)  (* 'n horário(s) ocupado(s) nesta data.' *)
| MensagemTodosDisponiveis.   (* 'Todos os horários disponíveis.' *)

(** A cell of the calendar grid. *)
Inductive Celula : Type :=
| CelulaPlaceholder (dataISO : jsstring)
| CelulaDia (dataISO : jsstring) (dia : Z) (agendamentos : nat).

(** The name of a month with its year, kept as the date it is formatted
    from. *)
Definition NomeDoMes := DateObj.

Record Calendario : Type := {
  cal_titulo : NomeDoMes;
  cal_celulas : list Celula
}.

(** A row of the table of a day: hour, customer and service as read from the
    stored record. *)
Record Linha : Type := {
  lin_hora : option JSVal;
  lin_cliente : option JSVal;
  lin_servico : option JSVal
}.

Inductive Detalhes : Type :=
| SemAgendamentos (dataISO : jsstring)   (* 'Nenhum agendamento neste dia.' *)
| TabelaDoDia (dataISO : jsstring) (linhas : list Linha).

Record CaixaDeDetalhes : Type := {
  cx_data : option jsstring;       (* dataset.date *)
  cx_conteudo : option Detalhes;   (* innerHTML, once written *)
  cx_visivel : bool                (* style.display = 'block' *)
}.

(** The elements of the page the script looks up by id; [None] for an
    element the page does not have. *)
Record Documento : Type := {
  el_hora : option (list Opcao);            (* #hora: its options *)
  el_msg : option (option Mensagem);        (* #msg: its text, once written *)
  el_calendar : option (option Calendario); (* #calendar *)
  el_nome_do_mes : option (option NomeDoMes); (* #nome-do-mes *)
  el_day_details : option CaixaDeDetalhes   (* #day-details *)
}.

Record Estado : Type := {
  localStorage : Storage;
  mesAtualExibido : Z;
  documento : Documento;
  alertas : list Alerta   (* the alerts shown so far, oldest first *)
}.

Definition comStorage (ls : Storage) (st : Estado) : Estado :=
  {| localStorage := ls; mesAtualExibido := mesAtualExibido st;
     documento := documento st; alertas := alertas st |}.

Definition comMes (m : Z) (st : Estado) : Estado :=
  {| localStorage := localStorage st; mesAtualExibido := m;
     documento := documento st; alertas := alertas st |}.

Definition comDocumento (d : Documento) (st : Estado) : Estado :=
  {| localStorage := localStorage st; mesAtualExibido := mesAtualExibido st;
     documento := d; alertas := alertas st |}.

Definition alert (a : Alerta) (st : Estado) : Estado :=
  {| localStorage := localStorage st; mesAtualExibido := mesAtualExibido st;
     documento := documento st; alertas := alertas st ++ [a] |}.

Definition comOpcoes (ops : list Opcao) (d : Documento) : Documento :=
  {| el_hora := Some ops; el_msg := el_msg d; el_calendar := el_calendar d;
     el_nome_do_mes := el_nome_do_mes d; el_day_details := el_day_details d |}.

(** [if (mensagem) mensagem.textContent = m]. *)
Definition comMensagem (m : Mensagem) (d : Documento) : Documento :=
  {| el_hora := el_hora d;
     el_msg := match el_msg d with Some _ => Some (Some m) | None => None end;
     el_calendar := el_calendar d;
     el_nome_do_mes := el_nome_do_mes d; el_day_details := el_day_details d |}.

Definition comCalendario (c : Calendario) (d : Documento) : Documento :=
  {| el_hora := el_hora d; el_msg := el_msg d; el_calendar := Some (Some c);
     el_nome_do_mes :=
       match el_nome_do_mes d with Some _ => Some (Some (cal_titulo c)) | None => None end;
     el_day_details := el_day_details d |}.

Definition comDetalhes (c : CaixaDeDetalhes) (d : Documento) : Documento :=
  {| el_hora := el_hora d; el_msg := el_msg d; el_calendar := el_calendar d;
     el_nome_do_mes := el_nome_do_mes d; el_day_details := Some c |}.

(** The single disabled, selected option shown instead of the hours. *)
Definition opcaoDeAviso (t : TextoDaOpcao) : Opcao :=
  {| op_value := []; op_texto := t; op_disabled := true; op_selected := true |}.

(** ** The customer page *)

(** [pegarListaDeAgendamentos().filter(a => a.data === dataISO)]. *)
Definition agendamentosDoDia (ls : Storage) (dataISO : jsstring)
  : Resultado (list JSVal) :=
  Array_filter (pegarListaDeAgendamentos ls) (fun a =>
    d <- campo a (js "data") ;; Retorna (igualEstritoTexto d dataISO)).

Definition atualizarListaDeHorarios (dataISO : jsstring) (st : Estado)
  : Resultado unit * Estado :=
  match el_hora (documento st) with
  | None => (Retorna tt, st)
  | Some _ =>
      let limpo := comDocumento (comOpcoes [] (documento st)) st in
      match dataISO with
      | [] =>
          (Retorna tt,
           comDocumento
             (comMensagem MensagemDomingosBloqueados
                (comOpcoes [opcaoDeAviso TextoSelecioneData] (documento st))) st)
      | _ :: _ =>
          if negb (dataEstaDentroDoPeriodoPermitido dataISO) then
            (Retorna tt,
             comDocumento
               (comMensagem MensagemForaDoPeriodo
                  (comOpcoes [opcaoDeAviso TextoForaDoPeriodo] (documento st))) st)
          else if ehDomingo dataISO then
            (Retorna tt,
             comDocumento
               (comMensagem MensagemDomingo
                  (comOpcoes [opcaoDeAviso TextoDomingo] (documento st))) st)
          else
            match agendamentosDoDia (localStorage st) dataISO with
            | Lanca e => (Lanca e, limpo)
            | Retorna doDia =>
                let ocupados := map (fun x => lerCampo x (js "hora")) doDia in
                let opcoes :=
                  map (fun h =>
                         {| op_value := h;
                            op_texto := TextoHorario h (includesTexto ocupados h);
                            op_disabled := includesTexto ocupados h;
                            op_selected := false |})
                      LISTA_DE_HORARIOS_FIXOS in
                (Retorna tt,
                 comDocumento
                   (comMensagem
                      (match ocupados with
                       | [] => MensagemTodosDisponiveis
                       | _ :: _ => MensagemOcupados (List.length ocupados)
                       end)
                      (comOpcoes opcoes (documento st))) st)
            end
      end
  end.

(** The values of the form fields when it is submitted; [None] for a field
    whose element the page does not have. *)
Record Formulario : Type := {
  f_nome : option jsstring;
  f_telefone : option jsstring;
  f_servico : option jsstring;
  f_data : option jsstring;
  f_hora : option jsstring
}.

(** [(document.getElementById(id) || {}).value || '']. *)
Definition valorDoCampo (v : option jsstring) : jsstring :=
  match v with
  | Some s => s
  | None => []
  end.

Definition vazio (s : jsstring) : bool :=
  match s with
  | [] => true
  | _ :: _ => false
  end.

(** The object literal [novoAgendamento]. *)
Definition novoAgendamento (nome telefone servico data hora : jsstring) : JSVal :=
  JObj [(js "nome", JStr nome); (js "telefone", JStr telefone);
        (js "servico", JStr servico); (js "data", JStr data); (js "hora", JStr hora)].

(** The listener of the form's [submit] event, registered by
    [inicializarFormularioCliente]. Resetting the form changes only the
    fields, which are an input of each submission here. *)
Definition aoEnviarFormulario (f : Formulario) (st : Estado) : Resultado unit * Estado :=
  let nomeDoCliente := valorDoCampo (f_nome f) in
  let telefoneDoCliente := valorDoCampo (f_telefone f) in
  let servicoEscolhido := valorDoCampo (f_servico f) in
  let dataDoAgendamento := valorDoCampo (f_data f) in
  let horaEscolhida := valorDoCampo (f_hora f) in
  if vazio nomeDoCliente || vazio telefoneDoCliente || vazio dataDoAgendamento
     || vazio horaEscolhida
  then (Retorna tt, alert AlertaCamposObrigatorios st)
  else if negb (dataEstaDentroDoPeriodoPermitido dataDoAgendamento)
  then (Retorna tt, alert AlertaForaDoPeriodo st)
  else if ehDomingo dataDoAgendamento
  then (Retorna tt, alert AlertaDomingo st)
  else
    match horarioEstaOcupado (localStorage st) dataDoAgendamento horaEscolhida with
    | Lanca e => (Lanca e, st)
    | Retorna true =>
        atualizarListaDeHorarios dataDoAgendamento (alert AlertaHorarioOcupado st)
    | Retorna false =>
        let novo :=
          novoAgendamento nomeDoCliente telefoneDoCliente servicoEscolhido
            dataDoAgendamento horaEscolhida in
        match Array_push (pegarListaDeAgendamentos (localStorage st)) novo with
        | Lanca e => (Lanca e, st)
        | Retorna listaAtual =>
            let salvo := comStorage (salvarListaDeAgendamentos listaAtual (localStorage st)) st in
            atualizarListaDeHorarios dataDoAgendamento (alert AlertaSalvo salvo)
        end
    end.

(** ** The administration panel *)

(** The days [1 .. n]. *)
Definition diasAte (n : Z) : list Z := map Z.of_nat (seq 1 (Z.to_nat n)).

(** The cell of one day of the displayed month. *)
Definition celulaDoDia (lista : JSVal) (ano mes dia : Z) : Resultado Celula :=
  let diaStr := padStart 2 (textoDeInteiro dia) in
  let dataISO :=
    textoDeInteiro ano ++ c_menos :: padStart 2 (textoDeInteiro (mes + 1))
      ++ c_menos :: diaStr in
  let objData := Date_de_texto (dataISO ++ meiaNoite) in
  if igualEstritoNumero (getDay objData) 0 then Retorna (CelulaPlaceholder dataISO)
  else
    agNoDia <- Array_filter lista (fun it =>
                 d <- campo it (js "data") ;; Retorna (igualEstritoTexto d dataISO)) ;;
    Retorna (CelulaDia dataISO dia (List.length agNoDia)).

Definition mostrarCalendarioAdministrador (st : Estado) : Resultado unit * Estado :=
  match el_calendar (documento st) with
  | None => (Retorna tt, st)
  | Some _ =>
      let ano := ANO_PERMITIDO in
      let mes := mesAtualExibido st in
      let totalDias := getDate (Date_de_componentes ano (mes + 1) 0) in
      let lista := pegarListaDeAgendamentos (localStorage st) in
      let nomeMes : NomeDoMes := Date_de_componentes ano mes 1 in
      let dias := match totalDias with Some n => diasAte n | None => [] end in
      match paraCada (celulaDoDia lista ano mes) dias with
      | Lanca e => (Lanca e, st)
      | Retorna celulas =>
          (Retorna tt,
           comDocumento
             (comCalendario {| cal_titulo := nomeMes; cal_celulas := celulas |}
                (documento st)) st)
      end
  end.

Definition mudarMesAtual (delta : Z) (st : Estado) : Resultado unit * Estado :=
  let novo := mesAtualExibido st + delta in
  if includesNumero MESES_PERMITIDOS novo
  then mostrarCalendarioAdministrador (comMes novo st)
  else (Retorna tt, st).

(** The position of the hour of a record in the fixed list, or -1. *)
Definition indiceDoHorario (a : JSVal) : Z :=
  indexOf LISTA_DE_HORARIOS_FIXOS (lerCampo a (js "hora")).

(** The list shown for a day: the stored records of that date, sorted by
    the position of their hour in the fixed list. Every record the filter
    keeps is an object, so reading its hour cannot throw. *)
Definition listaDoDia (ls : Storage) (dataISO : jsstring) : Resultado (list JSVal) :=
  doDia <- agendamentosDoDia ls dataISO ;;
  Retorna (Array_sort (fun a b => indiceDoHorario a - indiceDoHorario b) doDia).

Definition linhaDe (item : JSVal) : Linha :=
  {| lin_hora := lerCampo item (js "hora");
     lin_cliente := lerCampo item (js "nome");
     lin_servico := lerCampo item (js "servico") |}.

Definition mostrarDetalhesDoDia (dataISO : jsstring) (st : Estado)
  : Resultado unit * Estado :=
  match el_day_details (documento st) with
  | None => (Retorna tt, st)
  | Some caixa =>
      match listaDoDia (localStorage st) dataISO with
      | Lanca e => (Lanca e, st)
      | Retorna lista =>
          let conteudo :=
            match lista with
            | [] => SemAgendamentos dataISO
            | _ :: _ => TabelaDoDia dataISO (map linhaDe lista)
            end in
          (Retorna tt,
           comDocumento
             (comDetalhes
                {| cx_data := Some dataISO; cx_conteudo := Some conteudo;
                   cx_visivel := true |}
                (documento st)) st)
      end
  end.

(** ** Running the page *)

(** The page when the script is loaded, before any appointment is stored. *)
Definition estadoInicial (d : Documento) : Estado :=
  {| localStorage := []; mesAtualExibido := 9; documento := d; alertas := [] |}.

(** A sequence of submissions, one after the other: an error thrown by a
    listener ends that listener only. *)
Fixpoint submeter (fs : list Formulario) (st : Estado) : Estado :=
  match fs with
  | [] => st
  | f :: resto => submeter resto (snd (aoEnviarFormulario f st))
  end.

(** What the user does on the page: submitting the form, changing its date,
    moving between months, opening a day. *)
Inductive Evento : Type :=
| EvEnviar (f : Formulario)
| EvMudarData (valor : jsstring)
| EvMudarMes (delta : Z)
| EvAbrirDia (dataISO : jsstring).

Definition reagir (e : Evento) (st : Estado) : Resultado unit * Estado :=
  match e with
  | EvEnviar f => aoEnviarFormulario f st
  | EvMudarData valor => atualizarListaDeHorarios valor st
  | EvMudarMes delta => mudarMesAtual delta st
  | EvAbrirDia dataISO => mostrarDetalhesDoDia dataISO st
  end.

(** The states the page can be in: the script has been loaded with an empty
    storage, the user has acted on the page any number of times, and a page
    may have been loaded again, which keeps the storage only. *)
Inductive alcancavel : Estado -> Prop :=
| alcancavel_inicial : forall d, alcancavel (estadoInicial d)
| alcancavel_passo : forall e st,
    alcancavel st -> alcancavel (snd (reagir e st))
| alcancavel_recarga : forall d st,
    alcancavel st -> alcancavel (comStorage (localStorage st) (estadoInicial d)).

(** ** The stored appointments *)

(** An appointment as the form writes it. *)
Record Agendamento : Type := {
  nome : jsstring;
  telefone : jsstring;
  servico : jsstring;
  data : jsstring;
  hora : jsstring
}.

Definition registro (a : Agendamento) : JSVal :=
  novoAgendamento (nome a) (telefone a) (servico a) (data a) (hora a).

(** The storage holds the list [l] of appointments. *)
Definition armazena (ls : Storage) (l : list Agendamento) : Prop :=
  pegarListaDeAgendamentos ls = JArr (map registro l).

(** No two appointments at different positions have the same date and hour. *)
Definition semConflito (l : list Agendamento) : Prop :=
  NoDup (map (fun a => (data a, hora a)) l).

(* ================================================================== *)
(** * Definitions the statements use *)
(* ================================================================== *)

(** Writing the stored list back: [salvarListaDeAgendamentos(pegarListaDeAgendamentos())]. *)
Definition regravar (ls : Storage) : Storage :=
  salvarListaDeAgendamentos (pegarListaDeAgendamentos ls) ls.

(** How the reader of string literals steps over one escape or one plain
    character. *)
Definition continuar (u : unidade) (r : option (jsstring * jsstring))
  : option (jsstring * jsstring) :=
  match r with
  | Some (t, resto) => Some (u :: t, resto)
  | None => None
  end.

(** One member ["k":"v"] of an object, followed by a comma or by the closing
    brace. *)
Definition membro (k v : jsstring) : jsstring :=
  textoCitado k ++ c_dois_pontos :: textoCitado v.

(** The appointment [a] is at the date and hour given. *)
Definition mesmoHorario (dataISO hr : jsstring) (a : Agendamento) : bool :=
  jsstring_eqb (data a) dataISO && jsstring_eqb (hora a) hr.

(** A required field (name, phone, date, hour) is empty. *)
Definition camposFaltando (f : Formulario) : bool :=
  vazio (valorDoCampo (f_nome f)) || vazio (valorDoCampo (f_telefone f))
  || vazio (valorDoCampo (f_data f)) || vazio (valorDoCampo (f_hora f)).

(** The first check that turns a submission down, in the order the
    specification gives: required fields, allowed period, Sunday, occupancy;
    [ocupado] is the answer of the occupancy check. *)
Definition primeiraFalha (f : Formulario) (ocupado : bool) : option Alerta :=
  if camposFaltando f then Some AlertaCamposObrigatorios
  else if negb (dataEstaDentroDoPeriodoPermitido (valorDoCampo (f_data f)))
  then Some AlertaForaDoPeriodo
  else if ehDomingo (valorDoCampo (f_data f)) then Some AlertaDomingo
  else if ocupado then Some AlertaHorarioOcupado
  else None.

(** The appointment a form asks for. *)
Definition pedido (f : Formulario) : Agendamento :=
  {| nome := valorDoCampo (f_nome f);
     telefone := valorDoCampo (f_telefone f);
     servico := valorDoCampo (f_servico f);
     data := valorDoCampo (f_data f);
     hora := valorDoCampo (f_hora f) |}.

(** The date and hour a form asks for are those of an appointment of [l]. *)
Definition ocupadoEm (l : list Agendamento) (f : Formulario) : bool :=
  existsb (mesmoHorario (valorDoCampo (f_data f)) (valorDoCampo (f_hora f))) l.

(** The list a storage holds, free of conflicts. *)
Definition listaSemConflito (ls : Storage) : Prop :=
  exists l, armazena ls l /\ semConflito l.

(** The comparison function [(a, b) => key(a) - key(b)]. *)
Definition porChave {A} (chave : A -> Z) (a b : A) : Z := chave a - chave b.


(** The stored records whose date is [dataISO], in the order of the storage. *)
Definition doDia (dataISO : jsstring) (l : list JSVal) : list JSVal :=
  filter (fun a => igualEstritoTexto (lerCampo a (js "data")) dataISO) l.

(** The day that follows a date of the calendar. *)
Definition diaSeguinte (y m d : Z) : Z * Z * Z :=
  if d <? diasNoMes y m then (y, m, d + 1)
  else if m <? 12 then (y, m + 1, 1)
  else (y + 1, 1, 1).

(** The day of the week of a date of the calendar by Zeller's congruence,
    0 being Sunday: January and February count as the months 13 and 14 of
    the year before. *)
Definition diaDaSemanaZeller (y m d : Z) : Z :=
  let ano := if m <? 3 then y - 1 else y in
  let mes := if m <? 3 then m + 12 else m in
  (d + (13 * (mes + 1)) / 5 + ano + ano / 4 - ano / 100 + ano / 400 + 6) mod 7.

(** All four checks of the submit handler pass. *)
Definition todasPassam (f : Formulario) (st : Estado) : Prop :=
  primeiraFalha f false = None
  /\ horarioEstaOcupado (localStorage st) (valorDoCampo (f_data f))
       (valorDoCampo (f_hora f)) = Retorna false.

(* ================================================================== *)
(** * The listeners of the page *)
(* ================================================================== *)

(** The listener of the [storage] event, which the browser sends to a page
    when another page has changed the storage; [chave] is [evento.key],
    [None] when the whole storage was cleared. The details of a day are
    drawn again when the box has a date that is not the empty string. *)
Definition aoMudarStorage (chave : option jsstring) (st : Estado)
  : Resultado unit * Estado :=
  match chave with
  | Some k =>
      if jsstring_eqb k CHAVE_ARMAZENAMENTO then
        match mostrarCalendarioAdministrador st with
        | (Lanca e, st1) => (Lanca e, st1)
        | (Retorna _, st1) =>
            match el_day_details (documento st1) with
            | Some caixa =>
                match cx_data caixa with
                | Some (c :: r) => mostrarDetalhesDoDia (c :: r) st1
                | _ => (Retorna tt, st1)
                end
            | None => (Retorna tt, st1)
            end
        end
      else (Retorna tt, st)
  | None => (Retorna tt, st)
  end.

(** The listener of a click on a cell of the calendar: a placeholder has
    none, a day opens its details with the date the cell carries. *)
Definition aoClicarNoDia (c : Celula) (st : Estado) : Resultado unit * Estado :=
  match c with
  | CelulaPlaceholder _ => (Retorna tt, st)
  | CelulaDia dataISO _ _ => mostrarDetalhesDoDia dataISO st
  end.

(** The limits [inicializarFormularioCliente] gives the date field:
    [campoData.min] and [campoData.max]. *)
Definition dataMinima : jsstring := js "2025-10-01".
Definition dataMaxima : jsstring := js "2025-12-31".

(* ================================================================== *)
(** * More definitions the statements use *)
(* ================================================================== *)

(** The stored value [v], which is not [null], has the date and the hour
    given: [v.data === dataISO && v.hora === hr]. *)
Definition ocupa (dataISO hr : jsstring) (v : JSVal) : bool :=
  igualEstritoTexto (lerCampo v (js "data")) dataISO
  && igualEstritoTexto (lerCampo v (js "hora")) hr.

(** The number of appointments of [l] at the date [dataISO]. *)
Definition agendamentosEm (l : list Agendamento) (dataISO : jsstring) : nat :=
  List.length (filter (fun a => jsstring_eqb (data a) dataISO) l).

(** An appointment that passed the checks of the form: name, phone, date
    and hour are not empty, the date is in the allowed period and is not a
    Sunday. *)
Definition validado (a : Agendamento) : Prop :=
  nome a <> [] /\ telefone a <> [] /\ data a <> [] /\ hora a <> []
  /\ dataEstaDentroDoPeriodoPermitido (data a) = true
  /\ ehDomingo (data a) = false.

(** The option of the select for the hour [h], given the appointments of the
    storage and the date chosen. *)
Definition opcaoDoHorario (l : list Agendamento) (dataISO h : jsstring) : Opcao :=
  let ocupado := existsb (mesmoHorario dataISO h) l in
  {| op_value := h; op_texto := TextoHorario h ocupado;
     op_disabled := ocupado; op_selected := false |}.

(** The message under the select for a date with [n] appointments. *)
Definition mensagemDeOcupacao (n : nat) : Mensagem :=
  match n with
  | O => MensagemTodosDisponiveis
  | S _ => MensagemOcupados n
  end.

(** The cell of the calendar for the day [d] of the month [m] (1 to 12) of
    2025, given the appointments of the storage. *)
Definition celulaEsperada (l : list Agendamento) (m d : Z) : Celula :=
  let dataISO := dataISO_de ANO_PERMITIDO m d in
  if diaDaSemanaZeller ANO_PERMITIDO m d =? 0 then CelulaPlaceholder dataISO
  else CelulaDia dataISO d (agendamentosEm l dataISO).

(** The row of the table of a day for an appointment. *)
Definition linhaDoAgendamento (a : Agendamento) : Linha :=
  {| lin_hora := Some (JStr (hora a)); lin_cliente := Some (JStr (nome a));
     lin_servico := Some (JStr (servico a)) |}.

(** The calendar of the month [mes] (0 to 11) of 2025, given the
    appointments of the storage: one cell for each day of the month. *)
Definition calendarioEsperado (l : list Agendamento) (mes : Z) : Calendario :=
  {| cal_titulo := Date_de_componentes ANO_PERMITIDO mes 1;
     cal_celulas :=
       map (celulaEsperada l (mes + 1)) (diasAte (diasNoMes ANO_PERMITIDO (mes + 1))) |}.

(** The position of the hour of an appointment in the fixed list, or -1. *)
Definition posicaoDoHorario (a : Agendamento) : Z :=
  indexOf LISTA_DE_HORARIOS_FIXOS (Some (JStr (hora a))).

(** The appointments of a date in the order of the table of the day. *)
Definition agendamentosOrdenados (l : list Agendamento) (dataISO : jsstring)
  : list Agendamento :=
  Array_sort (porChave posicaoDoHorario)
    (filter (fun a => jsstring_eqb (data a) dataISO) l).

(** The details of a day, given the appointments of the storage. *)
Definition detalhesEsperados (l : list Agendamento) (dataISO : jsstring) : Detalhes :=
  match agendamentosOrdenados l dataISO with
  | [] => SemAgendamentos dataISO
  | _ :: _ => TabelaDoDia dataISO (map linhaDoAgendamento (agendamentosOrdenados l dataISO))
  end.

(** The box of details once a day has been opened. *)
Definition caixaEsperada (l : list Agendamento) (dataISO : jsstring) : CaixaDeDetalhes :=
  {| cx_data := Some dataISO; cx_conteudo := Some (detalhesEsperados l dataISO);
     cx_visivel := true |}.

(** The order of the dates of the calendar, given as year, month and day. *)
Definition naoDepois (a b : Z * Z * Z) : Prop :=
  let '(y, m, d) := a in
  let '(y', m', d') := b in
  y < y' \/ (y = y' /\ (m < m' \/ (m = m' /\ d <= d'))).

(** The alert says the appointment was saved. *)
Definition ehAlertaSalvo (a : Alerta) : bool :=
  match a with
  | AlertaSalvo => true
  | _ => false
  end.

End Script.

Local Open Scope Z_scope.

(** ** Data of the worked examples *)

(** A platform for the worked examples: it writes a number as the literal it
    was read from and takes a string outside the date-time string format as
    an invalid date. No stored number and no such string occurs in them. *)
Definition plataformaDeExemplo : Plataforma :=
  {| serializarNumero := fun literal => literal;
     dataPorHeuristica := fun _ => None |}.

(** The customer page: the select of hours and the message area. *)
Definition paginaCliente : Documento :=
  {| el_hora := Some []; el_msg := Some None; el_calendar := None;
     el_nome_do_mes := None; el_day_details := None |}.

(** The administration page: the calendar, the label of the month and the
    box of details. *)
Definition paginaAdm : Documento :=
  {| el_hora := None; el_msg := None; el_calendar := Some None;
     el_nome_do_mes := Some None;
     el_day_details :=
       Some {| cx_data := None; cx_conteudo := None; cx_visivel := false |} |}.

Definition formulario (n t s d h : string) : Formulario :=
  {| f_nome := Some (js n); f_telefone := Some (js t); f_servico := Some (js s);
     f_data := Some (js d); f_hora := Some (js h) |}.

(** 6 October 2025 is a Monday, 5 October 2025 a Sunday. *)
Definition formAna : Formulario := formulario "Ana" "111" "Corte" "2025-10-06" "09:00".
Definition formBia : Formulario := formulario "Bia" "222" "Barba" "2025-10-06" "09:00".
Definition formCaio : Formulario := formulario "Caio" "333" "Corte" "2025-10-06" "17:00".
Definition formDuda : Formulario := formulario "Duda" "444" "Barba" "2025-10-06" "08:00".
Definition formDomingo : Formulario := formulario "Eva" "555" "Corte" "2025-10-05" "09:00".
Definition formJaneiro : Formulario := formulario "Eva" "555" "Corte" "2026-01-01" "09:00".

(** The date of [formAna] written with the six-digit form of the year. *)
Definition formBiaAnoLongo : Formulario :=
  formulario "Bia" "222" "Barba" "+002025-10-06" "09:00".

Definition agAna : Agendamento := pedido formAna.
Definition agCaio : Agendamento := pedido formCaio.
Definition agDuda : Agendamento := pedido formDuda.

(** The customer page and the administration page once Ana's appointment is
    stored, and the administration page with the day of the appointment
    open. *)
Definition clienteComAna : Estado :=
  snd (@aoEnviarFormulario plataformaDeExemplo formAna (estadoInicial paginaCliente)).

Definition admComAna : Estado :=
  comStorage (localStorage clienteComAna) (estadoInicial paginaAdm).

Definition admComDiaAberto : Estado :=
  snd (mostrarDetalhesDoDia (js "2025-10-06") admComAna).

(** A storage whose item is JSON text for an object. *)
Definition estadoComObjeto : Estado :=
  comStorage [(CHAVE_ARMAZENAMENTO, js "{}")] (estadoInicial paginaAdm).

(* ================================================================== *)
(** * Tactics *)
(* ================================================================== *)

(** Case analysis on whatever the goal branches on. *)
Ltac ramificar :=
  repeat match goal with
         | |- context [match ?x with _ => _ end] => destruct x eqn:?
         end.

Ltac divisoes := Z.to_euclidean_division_equations; lia.

(** Computing with a month that is known. *)
Ltac mes_conhecido :=
  repeat match goal with
         | |- context [Z.sub (Zpos ?p) 1] =>
             let v := eval vm_compute in (Z.sub (Zpos p) 1) in
             change (Z.sub (Zpos p) 1) with v
         | H : context [Z.sub (Zpos ?p) 1] |- _ =>
             let v := eval vm_compute in (Z.sub (Zpos p) 1) in
             change (Z.sub (Zpos p) 1) with v in H
         | |- context [Z.add (Zpos ?p) 1] =>
             let v := eval vm_compute in (Z.add (Zpos p) 1) in
             change (Z.add (Zpos p) 1) with v
         end;
  cbv beta iota in *.

Ltac por_mes m :=
  let Hc := fresh "Hc" in
  assert (Hc : m = 1 \/ m = 2 \/ m = 3 \/ m = 4 \/ m = 5 \/ m = 6 \/ m = 7 \/ m = 8
               \/ m = 9 \/ m = 10 \/ m = 11 \/ m = 12) by lia;
  repeat (destruct Hc as [Hc|Hc]; [subst m; mes_conhecido|]);
  [ .. | subst m; mes_conhecido].

(* ================================================================== *)
(** * Strings: equality *)
(* ================================================================== *)

Lemma jsstring_eqb_refl (s : jsstring) : jsstring_eqb s s = true.
Proof.
  induction s as [|c s IH]; simpl; [reflexivity|].
  rewrite N.eqb_refl. exact IH.
Qed.

Lemma jsstring_eqb_eq (s t : jsstring) : jsstring_eqb s t = true <-> s = t.
Proof.
  split.
  - revert t. induction s as [|c s IH]; intros [|d t] H; simpl in H;
      try discriminate; [reflexivity|].
    apply andb_prop in H. destruct H as [H1 H2].
    apply N.eqb_eq in H1. apply IH in H2. congruence.
  - intros ->. apply jsstring_eqb_refl.
Qed.

Lemma jsstring_eqb_neq (s t : jsstring) : jsstring_eqb s t = false <-> s <> t.
Proof.
  rewrite <- jsstring_eqb_eq. destruct (jsstring_eqb s t); split; congruence.
Qed.

(* ================================================================== *)
(** * JSON.parse: the budget of the parser is enough *)
(* ================================================================== *)

Lemma pularEspacos_resto (s : jsstring) :
  (List.length (pularEspacos s) <= List.length s)%nat.
Proof.
  induction s as [|c r IH]; cbn [pularEspacos]; [apply le_n|].
  destruct (ehEspacoJSON c); cbn [List.length]; lia.
Qed.

Lemma analisarString_resto_aux (n : nat) :
  forall s t r, (List.length s <= n)%nat ->
    analisarString s = Some (t, r) -> (List.length r < List.length s)%nat.
Proof.
  induction n as [|n IH]; intros s t r Hn H.
  - destruct s; [discriminate | cbn in Hn; lia].
  - destruct s as [|c s]; [discriminate|]. cbn [List.length] in *.
    cbn [analisarString] in H.
    destruct (c =? c_aspas)%N.
    { injection H as _ <-. lia. }
    destruct (c =? c_barra_invertida)%N.
    { destruct s as [|e s1]; [discriminate|]. cbn [List.length] in *.
      destruct (e =? c_u)%N.
      - destruct s1 as [|h1 [|h2 [|h3 [|h4 s2]]]]; try discriminate.
        cbn [List.length] in *.
        destruct (hex4 h1 h2 h3 h4); [|discriminate].
        destruct (analisarString s2) as [[t' r']|] eqn:E; [|discriminate].
        injection H as _ <-. apply IH in E; lia.
      - destruct (escapeSimples e); [|discriminate].
        destruct (analisarString s1) as [[t' r']|] eqn:E; [|discriminate].
        injection H as _ <-. apply IH in E; lia. }
    destruct (c <? 32)%N; [discriminate|].
    destruct (analisarString s) as [[t' r']|] eqn:E; [|discriminate].
    injection H as _ <-. apply IH in E; lia.
Qed.

Lemma analisarString_resto (s t r : jsstring) :
  analisarString s = Some (t, r) -> (List.length r < List.length s)%nat.
Proof. apply (analisarString_resto_aux (List.length s)). apply le_n. Qed.

Lemma digitos_resto (s : jsstring) :
  (List.length (snd (digitos s)) <= List.length s)%nat.
Proof.
  induction s as [|c r IH]; cbn [digitos]; [apply le_n|].
  destruct (ehDigito c); [|apply le_n].
  destruct (digitos r) as [ds r']. cbn [snd List.length] in *. lia.
Qed.

Lemma analisarInteiro_resto (s i r : jsstring) :
  analisarInteiro s = Some (i, r) -> (List.length r < List.length s)%nat.
Proof.
  unfold analisarInteiro. destruct s as [|c s]; [discriminate|].
  cbn [List.length].
  destruct (c =? c_zero)%N.
  { intros H. injection H as _ <-. lia. }
  destruct (ehDigito c); [|discriminate].
  pose proof (digitos_resto s) as Hd. destruct (digitos s) as [ds r'].
  intros H. injection H as _ <-. cbn [snd] in Hd. lia.
Qed.

Lemma analisarFracao_resto (s f r : jsstring) :
  analisarFracao s = Some (f, r) -> (List.length r <= List.length s)%nat.
Proof.
  unfold analisarFracao. destruct s as [|c s].
  { intros H. injection H as _ <-. apply le_n. }
  destruct (c =? c_ponto)%N.
  - pose proof (digitos_resto s) as Hd. destruct (digitos s) as [[|d ds] r'];
      [discriminate|].
    intros H. injection H as _ <-. cbn [snd List.length] in *. lia.
  - intros H. injection H as _ <-. apply le_n.
Qed.

Lemma analisarExpoente_resto (s e r : jsstring) :
  analisarExpoente s = Some (e, r) -> (List.length r <= List.length s)%nat.
Proof.
  unfold analisarExpoente. destruct s as [|c s].
  { intros H. injection H as _ <-. apply le_n. }
  destruct ((c =? c_e)%N || (c =? c_E)%N).
  - destruct s as [|d s'].
    + cbn. discriminate.
    + destruct ((d =? c_mais)%N || (d =? c_menos)%N).
      * pose proof (digitos_resto s') as Hd. destruct (digitos s') as [[|x ds] r'];
          [discriminate|].
        intros H. injection H as _ <-. cbn [snd List.length] in *. lia.
      * pose proof (digitos_resto (d :: s')) as Hd.
        destruct (digitos (d :: s')) as [[|x ds] r']; [discriminate|].
        intros H. injection H as _ <-. cbn [snd List.length] in *. lia.
  - intros H. injection H as _ <-. apply le_n.
Qed.

Lemma analisarNumero_resto (s lit r : jsstring) :
  analisarNumero s = Some (lit, r) -> (List.length r < List.length s)%nat.
Proof.
  unfold analisarNumero.
  set (p := match s with
            | c :: r0 => if (c =? c_menos)%N then ([c], r0) else ([], s)
            | [] => ([], s)
            end).
  assert (Hp : (List.length (snd p) <= List.length s)%nat).
  { subst p. destruct s as [|c s0]; [apply le_n|].
    destruct (c =? c_menos)%N; cbn [snd List.length]; lia. }
  destruct p as [sinal s1]. cbn [snd] in Hp.
  destruct (analisarInteiro s1) as [[i s2]|] eqn:Ei; [|discriminate].
  destruct (analisarFracao s2) as [[f s3]|] eqn:Ef; [|discriminate].
  destruct (analisarExpoente s3) as [[e s4]|] eqn:Ee; [|discriminate].
  intros H. injection H as _ <-.
  apply analisarInteiro_resto in Ei. apply analisarFracao_resto in Ef.
  apply analisarExpoente_resto in Ee. lia.
Qed.

Lemma aposPrefixo_resto (p s r : jsstring) :
  aposPrefixo p s = Some r -> (List.length r + List.length p = List.length s)%nat.
Proof.
  revert s. induction p as [|c p IH]; intros s H.
  - injection H as <-. cbn. lia.
  - destruct s as [|d s]; [discriminate|]. cbn [aposPrefixo] in H.
    destruct (c =? d)%N; [|discriminate].
    apply IH in H. cbn [List.length]. lia.
Qed.

(** Every value the parser accepts has used at least one character. *)
Lemma analisar_resto (n : nat) :
  (forall s v r, analisarValor n s = Aceita v r ->
                 (List.length r < List.length s)%nat)
  /\ (forall s lidos v r, analisarElementos n s lidos = Aceita v r ->
                          (List.length r < List.length s)%nat)
  /\ (forall s props v r, analisarMembros n s props = Aceita v r ->
                          (List.length r < List.length s)%nat).
Proof.
  induction n as [|n (IHv & IHe & IHm)].
  - repeat split; intros; discriminate.
  - split; [|split].
    + intros s v r H. cbn [analisarValor] in H.
      pose proof (pularEspacos_resto s) as Hs.
      destruct (pularEspacos s) as [|c s1]; [discriminate|].
      cbn [List.length] in Hs.
      destruct (c =? c_abre_colchete)%N.
      { pose proof (pularEspacos_resto s1) as Hs1.
        destruct (pularEspacos s1) as [|d s2]; [discriminate|].
        cbn [List.length] in Hs1.
        destruct (d =? c_fecha_colchete)%N.
        - injection H as _ <-. lia.
        - apply IHe in H. lia. }
      destruct (c =? c_abre_chave)%N.
      { pose proof (pularEspacos_resto s1) as Hs1.
        destruct (pularEspacos s1) as [|d s2]; [discriminate|].
        cbn [List.length] in Hs1.
        destruct (d =? c_fecha_chave)%N.
        - injection H as _ <-. lia.
        - apply IHm in H. lia. }
      destruct (c =? c_aspas)%N.
      { destruct (analisarString s1) as [[t r']|] eqn:E; [|discriminate].
        injection H as _ <-. apply analisarString_resto in E. lia. }
      destruct ((c =? c_menos)%N || ehDigito c).
      { destruct (analisarNumero (c :: s1)) as [[lit r']|] eqn:E; [|discriminate].
        injection H as _ <-. apply analisarNumero_resto in E.
        cbn [List.length] in E. lia. }
      destruct (aposPrefixo (js "true") (c :: s1)) as [r'|] eqn:E1.
      { injection H as _ <-. apply aposPrefixo_resto in E1.
        cbn [List.length] in E1. cbn in E1. lia. }
      destruct (aposPrefixo (js "false") (c :: s1)) as [r'|] eqn:E2.
      { injection H as _ <-. apply aposPrefixo_resto in E2.
        cbn [List.length] in E2. cbn in E2. lia. }
      destruct (aposPrefixo (js "null") (c :: s1)) as [r'|] eqn:E3; [|discriminate].
      injection H as _ <-. apply aposPrefixo_resto in E3.
      cbn [List.length] in E3. cbn in E3. lia.
    + intros s lidos v r H. cbn [analisarElementos] in H.
      destruct (analisarValor n s) as [v1 r1| |] eqn:E; try discriminate.
      apply IHv in E.
      pose proof (pularEspacos_resto r1) as Hs.
      destruct (pularEspacos r1) as [|c r2]; [discriminate|].
      cbn [List.length] in Hs.
      destruct (c =? c_virgula)%N.
      { apply IHe in H. lia. }
      destruct (c =? c_fecha_colchete)%N; [|discriminate].
      injection H as _ <-. lia.
    + intros s props v r H. cbn [analisarMembros] in H.
      pose proof (pularEspacos_resto s) as Hs.
      destruct (pularEspacos s) as [|q r0]; [discriminate|].
      cbn [List.length] in Hs.
      destruct (q =? c_aspas)%N; [|discriminate].
      destruct (analisarString r0) as [[k r1]|] eqn:Ek; [|discriminate].
      apply analisarString_resto in Ek.
      pose proof (pularEspacos_resto r1) as Hs1.
      destruct (pularEspacos r1) as [|p r2]; [discriminate|].
      cbn [List.length] in Hs1.
      destruct (p =? c_dois_pontos)%N; [|discriminate].
      destruct (analisarValor n r2) as [v1 r3| |] eqn:E; try discriminate.
      apply IHv in E.
      pose proof (pularEspacos_resto r3) as Hs3.
      destruct (pularEspacos r3) as [|c r4]; [discriminate|].
      cbn [List.length] in Hs3.
      destruct (c =? c_virgula)%N.
      { apply IHm in H. lia. }
      destruct (c =? c_fecha_chave)%N; [|discriminate].
      injection H as _ <-. lia.
Qed.

(** With a budget above twice the length of the text the parser never runs
    out of it. *)
Lemma analisar_combustivel (n : nat) :
  (forall s, (2 * List.length s < n)%nat -> analisarValor n s <> SemCombustivel)
  /\ (forall s lidos, (2 * List.length s + 1 < n)%nat ->
                      analisarElementos n s lidos <> SemCombustivel)
  /\ (forall s props, (2 * List.length s + 1 < n)%nat ->
                      analisarMembros n s props <> SemCombustivel).
Proof.
  induction n as [|n (IHv & IHe & IHm)].
  - repeat split; intros; lia.
  - destruct (analisar_resto n) as (Rv & _ & _).
    split; [|split].
    + intros s Hn. cbn [analisarValor].
      pose proof (pularEspacos_resto s) as Hs.
      destruct (pularEspacos s) as [|c s1]; [discriminate|].
      cbn [List.length] in Hs.
      destruct (c =? c_abre_colchete)%N.
      { pose proof (pularEspacos_resto s1) as Hs1.
        destruct (pularEspacos s1) as [|d s2]; [discriminate|].
        destruct (d =? c_fecha_colchete)%N; [discriminate|].
        apply IHe. lia. }
      destruct (c =? c_abre_chave)%N.
      { pose proof (pularEspacos_resto s1) as Hs1.
        destruct (pularEspacos s1) as [|d s2]; [discriminate|].
        destruct (d =? c_fecha_chave)%N; [discriminate|].
        apply IHm. lia. }
      destruct (c =? c_aspas)%N.
      { destruct (analisarString s1) as [[t r']|]; discriminate. }
      destruct ((c =? c_menos)%N || ehDigito c).
      { destruct (analisarNumero (c :: s1)) as [[lit r']|]; discriminate. }
      destruct (aposPrefixo (js "true") (c :: s1)); [discriminate|].
      destruct (aposPrefixo (js "false") (c :: s1)); [discriminate|].
      destruct (aposPrefixo (js "null") (c :: s1)); discriminate.
    + intros s lidos Hn. cbn [analisarElementos].
      pose proof (IHv s ltac:(lia)) as Hv.
      destruct (analisarValor n s) as [v1 r1| |] eqn:E; [|discriminate|congruence].
      apply Rv in E.
      pose proof (pularEspacos_resto r1) as Hs.
      destruct (pularEspacos r1) as [|c r2]; [discriminate|].
      cbn [List.length] in Hs.
      destruct (c =? c_virgula)%N; [apply IHe; lia|].
      destruct (c =? c_fecha_colchete)%N; discriminate.
    + intros s props Hn. cbn [analisarMembros].
      pose proof (pularEspacos_resto s) as Hs.
      destruct (pularEspacos s) as [|q r0]; [discriminate|].
      cbn [List.length] in Hs.
      destruct (q =? c_aspas)%N; [|discriminate].
      destruct (analisarString r0) as [[k r1]|] eqn:Ek; [|discriminate].
      apply analisarString_resto in Ek.
      pose proof (pularEspacos_resto r1) as Hs1.
      destruct (pularEspacos r1) as [|p r2]; [discriminate|].
      cbn [List.length] in Hs1.
      destruct (p =? c_dois_pontos)%N; [|discriminate].
      pose proof (IHv r2 ltac:(lia)) as Hv.
      destruct (analisarValor n r2) as [v1 r3| |] eqn:E; [|discriminate|congruence].
      apply Rv in E.
      pose proof (pularEspacos_resto r3) as Hs3.
      destruct (pularEspacos r3) as [|c r4]; [discriminate|].
      cbn [List.length] in Hs3.
      destruct (c =? c_virgula)%N; [apply IHm; lia|].
      destruct (c =? c_fecha_chave)%N; discriminate.
Qed.

(** [JSON.parse] never stops for lack of budget: it throws only on a text
    that is not JSON. *)
Lemma analisarValor_combustivel (s : jsstring) :
  analisarValor (combustivelPara s) s <> SemCombustivel.
Proof.
  destruct (analisar_combustivel (combustivelPara s)) as (H & _).
  apply H. unfold combustivelPara. lia.
Qed.

(* ================================================================== *)
(** * JSON: a quoted string reads back as itself *)
(* ================================================================== *)

Lemma valorHex_digitoHex (d : N) : (d < 16)%N -> valorHex (digitoHex d) = Some d.
Proof.
  intros H. unfold digitoHex, valorHex.
  destruct (N.ltb_spec d 10).
  - replace ((48 <=? 48 + d) && (48 + d <=? 57))%N with true.
    + f_equal. lia.
    + symmetry. apply andb_true_intro. split; apply N.leb_le; lia.
  - replace ((48 <=? 87 + d) && (87 + d <=? 57))%N with false.
    + replace ((97 <=? 87 + d) && (87 + d <=? 102))%N with true.
      * f_equal. lia.
      * symmetry. apply andb_true_intro. split; apply N.leb_le; lia.
    + symmetry. apply andb_false_intro2. apply N.leb_gt. lia.
Qed.

Lemma hex4_escapeUnicode (c : unidade) :
  (c < 65536)%N ->
  hex4 (digitoHex (c / 4096)) (digitoHex ((c / 256) mod 16))
       (digitoHex ((c / 16) mod 16)) (digitoHex (c mod 16)) = Some c.
Proof.
  intros H. unfold hex4.
  rewrite !valorHex_digitoHex.
  - f_equal. zify. Z.to_euclidean_division_equations. lia.
  - apply N.mod_lt. lia.
  - apply N.mod_lt. lia.
  - apply N.mod_lt. lia.
  - apply N.Div0.div_lt_upper_bound. lia.
Qed.

Lemma analisarString_simples (e u : unidade) (r : jsstring) :
  (e =? c_u)%N = false -> escapeSimples e = Some u ->
  analisarString (c_barra_invertida :: e :: r) = continuar u (analisarString r).
Proof.
  intros He Hu. cbn [analisarString]. 
  change (c_barra_invertida =? c_aspas)%N with false.
  change (c_barra_invertida =? c_barra_invertida)%N with true.
  cbv iota. rewrite He, Hu. reflexivity.
Qed.

Lemma analisarString_unicode (c : unidade) (r : jsstring) :
  (c < 65536)%N ->
  analisarString (escapeUnicode c ++ r) = continuar c (analisarString r).
Proof.
  intros H. unfold escapeUnicode. cbn [app analisarString].
  change (c_barra_invertida =? c_aspas)%N with false.
  change (c_barra_invertida =? c_barra_invertida)%N with true.
  change (c_u =? c_u)%N with true. cbv iota.
  rewrite (hex4_escapeUnicode c H). reflexivity.
Qed.

Lemma analisarString_cru (c : unidade) (r : jsstring) :
  c <> c_aspas -> c <> c_barra_invertida -> (32 <= c)%N ->
  analisarString (c :: r) = continuar c (analisarString r).
Proof.
  intros H1 H2 H3. cbn [analisarString].
  apply N.eqb_neq in H1. apply N.eqb_neq in H2. rewrite H1, H2.
  replace (c <? 32)%N with false by (symmetry; apply N.ltb_ge; exact H3).
  reflexivity.
Qed.

Lemma analisarString_citar_aux (n : nat) :
  forall s resto, (List.length s <= n)%nat ->
    analisarString (citar s ++ c_aspas :: resto) = Some (s, resto).
Proof.
  induction n as [|n IH]; intros s resto Hn.
  - destruct s; [reflexivity | simpl in Hn; lia].
  - destruct s as [|c r]; [reflexivity|].
    simpl in Hn. assert (Hr : (List.length r <= n)%nat) by lia.
    cbn [citar].
    destruct (N.eqb_spec c 8%N) as [->|N8].
    { cbn [app]. rewrite (analisarString_simples c_b 8%N) by reflexivity.
      rewrite IH by exact Hr. reflexivity. }
    destruct (N.eqb_spec c c_tab) as [->|Nt].
    { cbn [app]. rewrite (analisarString_simples c_t c_tab) by reflexivity.
      rewrite IH by exact Hr. reflexivity. }
    destruct (N.eqb_spec c c_lf) as [->|Nl].
    { cbn [app]. rewrite (analisarString_simples c_n c_lf) by reflexivity.
      rewrite IH by exact Hr. reflexivity. }
    destruct (N.eqb_spec c 12%N) as [->|Nf].
    { cbn [app]. rewrite (analisarString_simples c_f 12%N) by reflexivity.
      rewrite IH by exact Hr. reflexivity. }
    destruct (N.eqb_spec c c_cr) as [->|Nc].
    { cbn [app]. rewrite (analisarString_simples c_r c_cr) by reflexivity.
      rewrite IH by exact Hr. reflexivity. }
    destruct (N.eqb_spec c c_aspas) as [->|Na].
    { cbn [app]. rewrite (analisarString_simples c_aspas c_aspas) by reflexivity.
      rewrite IH by exact Hr. reflexivity. }
    destruct (N.eqb_spec c c_barra_invertida) as [->|Nb].
    { cbn [app].
      rewrite (analisarString_simples c_barra_invertida c_barra_invertida) by reflexivity.
      rewrite IH by exact Hr. reflexivity. }
    destruct (N.ltb_spec c 32%N) as [Hlt|Hge].
    { rewrite <- app_assoc. rewrite analisarString_unicode by lia.
      rewrite IH by exact Hr. reflexivity. }
    destruct (substitutoAlto c) eqn:Halto.
    { unfold substitutoAlto in Halto. apply andb_prop in Halto.
      destruct Halto as [Ha1 Ha2]. apply N.leb_le in Ha1. apply N.leb_le in Ha2.
      destruct r as [|d r'].
      - rewrite analisarString_unicode by lia. reflexivity.
      - destruct (substitutoBaixo d) eqn:Hbaixo.
        + unfold substitutoBaixo in Hbaixo. apply andb_prop in Hbaixo.
          destruct Hbaixo as [Hb1 Hb2]. apply N.leb_le in Hb1. apply N.leb_le in Hb2.
          cbn [app].
          rewrite analisarString_cru by lia.
          rewrite analisarString_cru by lia.
          rewrite IH by (simpl in Hr; lia). reflexivity.
        + rewrite <- app_assoc. rewrite analisarString_unicode by lia.
          rewrite IH by exact Hr. reflexivity. }
    destruct (substitutoBaixo c) eqn:Hbaixo.
    { unfold substitutoBaixo in Hbaixo. apply andb_prop in Hbaixo.
      destruct Hbaixo as [Hb1 Hb2]. apply N.leb_le in Hb1. apply N.leb_le in Hb2.
      rewrite <- app_assoc. rewrite analisarString_unicode by lia.
      rewrite IH by exact Hr. reflexivity. }
    cbn [app]. rewrite analisarString_cru by assumption.
    rewrite IH by exact Hr. reflexivity.
Qed.

Lemma analisarString_citar (s resto : jsstring) :
  analisarString (citar s ++ c_aspas :: resto) = Some (s, resto).
Proof. apply (analisarString_citar_aux (List.length s)). apply le_n. Qed.

(* ================================================================== *)
(** * JSON: the stored list reads back as it was written *)
(* ================================================================== *)

Lemma pularEspacos_inicio (c : unidade) (r : jsstring) :
  ehEspacoJSON c = false -> pularEspacos (c :: r) = c :: r.
Proof. intros H. simpl. rewrite H. reflexivity. Qed.

Lemma textoCitado_app (s resto : jsstring) :
  textoCitado s ++ resto = c_aspas :: citar s ++ c_aspas :: resto.
Proof. unfold textoCitado. simpl. rewrite <- app_assoc. reflexivity. Qed.

Lemma analisarValor_texto (n : nat) (s resto : jsstring) :
  analisarValor (S n) (textoCitado s ++ resto) = Aceita (JStr s) resto.
Proof.
  rewrite textoCitado_app. cbn [analisarValor].
  rewrite pularEspacos_inicio by reflexivity.
  change (c_aspas =? c_abre_colchete)%N with false.
  change (c_aspas =? c_abre_chave)%N with false.
  change (c_aspas =? c_aspas)%N with true. cbv iota.
  rewrite analisarString_citar. reflexivity.
Qed.

Lemma analisarMembros_virgula (n : nat) (k v r : jsstring) props :
  analisarMembros (S (S n)) (membro k v ++ c_virgula :: r) props
  = analisarMembros (S n) r (definirPropriedade props k (JStr v)).
Proof.
  unfold membro. rewrite <- app_assoc. rewrite textoCitado_app.
  cbn [analisarMembros].
  rewrite pularEspacos_inicio by reflexivity.
  change (c_aspas =? c_aspas)%N with true. cbv iota.
  rewrite analisarString_citar. cbn [app].
  rewrite pularEspacos_inicio by reflexivity.
  change (c_dois_pontos =? c_dois_pontos)%N with true. cbv iota.
  rewrite analisarValor_texto.
  rewrite pularEspacos_inicio by reflexivity.
  reflexivity.
Qed.

Lemma analisarMembros_chave (n : nat) (k v r : jsstring) props :
  analisarMembros (S (S n)) (membro k v ++ c_fecha_chave :: r) props
  = Aceita (JObj (definirPropriedade props k (JStr v))) r.
Proof.
  unfold membro. rewrite <- app_assoc. rewrite textoCitado_app.
  cbn [analisarMembros].
  rewrite pularEspacos_inicio by reflexivity.
  change (c_aspas =? c_aspas)%N with true. cbv iota.
  rewrite analisarString_citar. cbn [app].
  rewrite pularEspacos_inicio by reflexivity.
  change (c_dois_pontos =? c_dois_pontos)%N with true. cbv iota.
  rewrite analisarValor_texto.
  rewrite pularEspacos_inicio by reflexivity.
  reflexivity.
Qed.

(** The text of a record, member by member. *)
Lemma JSON_stringify_registro {plat : Plataforma} (a : Agendamento) (resto : jsstring) :
  JSON_stringify (registro a) ++ resto
  = c_abre_chave
      :: membro (js "nome") (nome a) ++ c_virgula
      :: membro (js "telefone") (telefone a) ++ c_virgula
      :: membro (js "servico") (servico a) ++ c_virgula
      :: membro (js "data") (data a) ++ c_virgula
      :: membro (js "hora") (hora a) ++ c_fecha_chave :: resto.
Proof.
  unfold registro, novoAgendamento, membro.
  cbn [JSON_stringify map juntar fst snd app].
  repeat (rewrite <- app_assoc; cbn [app]).
  reflexivity.
Qed.

Lemma analisarValor_objeto (n : nat) (r t : jsstring) :
  r = c_aspas :: t ->
  analisarValor (S n) (c_abre_chave :: r) = analisarMembros n r [].
Proof. intros ->. reflexivity. Qed.

Lemma analisarValor_array (n : nat) (r t : jsstring) :
  r = c_abre_chave :: t ->
  analisarValor (S n) (c_abre_colchete :: r) = analisarElementos n r [].
Proof. intros ->. reflexivity. Qed.

Lemma membro_inicio (k v r : jsstring) :
  membro k v ++ r = c_aspas :: citar k ++ c_aspas :: c_dois_pontos :: textoCitado v ++ r.
Proof.
  unfold membro. rewrite <- app_assoc. rewrite textoCitado_app. reflexivity.
Qed.

Lemma analisarValor_registro {plat : Plataforma} (n : nat) (a : Agendamento) (resto : jsstring) :
  (7 <= n)%nat ->
  analisarValor n (JSON_stringify (registro a) ++ resto) = Aceita (registro a) resto.
Proof.
  intros Hn. do 7 (destruct n as [|n]; [lia|]). clear Hn.
  rewrite JSON_stringify_registro.
  rewrite (analisarValor_objeto _ _ _ (membro_inicio _ _ _)).
  rewrite !analisarMembros_virgula. rewrite analisarMembros_chave.
  reflexivity.
Qed.

Lemma analisarElementos_registros {plat : Plataforma} (l : list Agendamento) :
  forall (n : nat) (a : Agendamento) (lidos : list JSVal) (resto : jsstring),
    (List.length l + 8 <= n)%nat ->
    analisarElementos n
      (juntar (map JSON_stringify (map registro (a :: l))) ++ c_fecha_colchete :: resto)
      lidos
    = Aceita (JArr (lidos ++ map registro (a :: l))) resto.
Proof.
  induction l as [|b l IH]; intros n a lidos resto Hn.
  - destruct n as [|n]; [simpl in Hn; lia|]. simpl in Hn.
    cbn [map juntar analisarElementos].
    rewrite analisarValor_registro by lia.
    rewrite pularEspacos_inicio by reflexivity.
    reflexivity.
  - destruct n as [|n]; [simpl in Hn; lia|]. simpl in Hn.
    change (juntar (map JSON_stringify (map registro (a :: b :: l))))
      with (JSON_stringify (registro a)
              ++ c_virgula :: juntar (map JSON_stringify (map registro (b :: l)))).
    rewrite <- app_assoc. cbn [app analisarElementos].
    rewrite analisarValor_registro by lia.
    rewrite pularEspacos_inicio by reflexivity.
    change (c_virgula =? c_virgula)%N with true. cbv iota.
    rewrite IH by lia.
    rewrite <- app_assoc. reflexivity.
Qed.

Lemma analisarValor_lista {plat : Plataforma} (l : list Agendamento) (n : nat) (resto : jsstring) :
  (List.length l + 8 <= n)%nat ->
  analisarValor n (JSON_stringify (JArr (map registro l)) ++ resto)
  = Aceita (JArr (map registro l)) resto.
Proof.
  intros Hn. destruct n as [|n]; [lia|].
  destruct l as [|a l].
  - reflexivity.
  - cbn [JSON_stringify]. cbn [app]. rewrite <- app_assoc. cbn [app].
    assert (Hd : exists r,
      juntar (map JSON_stringify (map registro (a :: l))) ++ c_fecha_colchete :: resto
      = c_abre_chave :: r).
    { destruct l as [|b l].
      - cbn [map juntar]. rewrite JSON_stringify_registro. eexists. reflexivity.
      - change (juntar (map JSON_stringify (map registro (a :: b :: l))))
          with (JSON_stringify (registro a)
                  ++ c_virgula :: juntar (map JSON_stringify (map registro (b :: l)))).
        rewrite <- app_assoc. rewrite JSON_stringify_registro. eexists. reflexivity. }
    destruct Hd as [r Hr].
    rewrite (analisarValor_array _ _ _ Hr).
    simpl in Hn. rewrite analisarElementos_registros by lia. reflexivity.
Qed.

Lemma comprimento_juntar_registros {plat : Plataforma} (l : list Agendamento) :
  (4 * List.length l <= List.length (juntar (map JSON_stringify (map registro l))))%nat.
Proof.
  induction l as [|a l IH]; [apply le_n|].
  destruct l as [|b l].
  - cbn [map juntar]. rewrite <- (app_nil_r (JSON_stringify (registro a))).
    rewrite JSON_stringify_registro. simpl. lia.
  - change (juntar (map JSON_stringify (map registro (a :: b :: l))))
      with (JSON_stringify (registro a)
              ++ c_virgula :: juntar (map JSON_stringify (map registro (b :: l)))).
    rewrite length_app.
    rewrite <- (app_nil_r (JSON_stringify (registro a))).
    rewrite JSON_stringify_registro.
    cbn [List.length] in *. repeat (rewrite length_app; cbn [List.length]). lia.
Qed.

(** What [salvarListaDeAgendamentos] writes for a list of appointments is read
    back by [JSON.parse] as that list. *)
Lemma JSON_parse_stringify_lista {plat : Plataforma} (l : list Agendamento) :
  JSON_parse (JSON_stringify (JArr (map registro l))) = Retorna (JArr (map registro l)).
Proof.
  destruct l as [|a l]; [reflexivity|].
  unfold JSON_parse.
  rewrite <- (app_nil_r (JSON_stringify (JArr (map registro (a :: l))))) at 2.
  rewrite analisarValor_lista.
  - reflexivity.
  - unfold combustivelPara. cbn [JSON_stringify List.length].
    rewrite length_app. cbn [List.length].
    pose proof (comprimento_juntar_registros (a :: l)) as H.
    cbn [List.length] in H. lia.
Qed.

(* ================================================================== *)
(** * The storage *)
(* ================================================================== *)

Lemma getItem_setItem (ls : Storage) (k v : jsstring) :
  getItem (setItem ls k v) k = Some v.
Proof.
  induction ls as [|[k' v'] ls IH]; simpl.
  - rewrite jsstring_eqb_refl. reflexivity.
  - destruct (jsstring_eqb k' k) eqn:E; simpl.
    + rewrite jsstring_eqb_refl. reflexivity.
    + rewrite E. exact IH.
Qed.

Lemma setItem_mesmo_valor (ls : Storage) (k v : jsstring) :
  getItem ls k = Some v -> setItem ls k v = ls.
Proof.
  induction ls as [|[k' v'] ls IH]; simpl; [discriminate|].
  destruct (jsstring_eqb k' k) eqn:E.
  - intros H. apply jsstring_eqb_eq in E. congruence.
  - intros H. rewrite IH by exact H. reflexivity.
Qed.

Lemma armazena_vazio : armazena [] [].
Proof. reflexivity. Qed.

Lemma pegar_texto_da_lista {plat : Plataforma} (ls : Storage) (l : list Agendamento) :
  getItem ls CHAVE_ARMAZENAMENTO = Some (JSON_stringify (JArr (map registro l))) ->
  armazena ls l.
Proof.
  intros H. unfold armazena, pegarListaDeAgendamentos. rewrite H.
  cbn [JSON_stringify ouTexto].
  change (c_abre_colchete :: juntar (map JSON_stringify (map registro l)) ++ [c_fecha_colchete])
    with (JSON_stringify (JArr (map registro l))).
  rewrite JSON_parse_stringify_lista. reflexivity.
Qed.

Lemma armazena_salvar {plat : Plataforma} (ls : Storage) (l : list Agendamento) :
  armazena (salvarListaDeAgendamentos (JArr (map registro l)) ls) l.
Proof.
  apply pegar_texto_da_lista. unfold salvarListaDeAgendamentos.
  apply getItem_setItem.
Qed.

Lemma armazena_unico (ls : Storage) (l l' : list Agendamento) :
  armazena ls l -> armazena ls l' -> l = l'.
Proof.
  unfold armazena. intros H H'. rewrite H in H'. clear H.
  injection H' as H'. revert l' H'.
  induction l as [|a l IH]; intros [|b l'] H; simpl in H; try discriminate.
  - reflexivity.
  - injection H as Hn Ht Hs Hd Hh Hl.
    destruct a, b; simpl in *. subst. f_equal. apply IH. exact Hl.
Qed.

(** ** What the script reads from a stored list of appointments *)

Lemma campo_registro_data (a : Agendamento) :
  campo (registro a) (js "data") = Retorna (Some (JStr (data a))).
Proof. reflexivity. Qed.

Lemma campo_registro_hora (a : Agendamento) :
  campo (registro a) (js "hora") = Retorna (Some (JStr (hora a))).
Proof. reflexivity. Qed.

Lemma lerCampo_registro_hora (a : Agendamento) :
  lerCampo (registro a) (js "hora") = Some (JStr (hora a)).
Proof. reflexivity. Qed.

Lemma horarioEstaOcupado_armazena (ls : Storage) (l : list Agendamento)
      (dataISO hr : jsstring) :
  armazena ls l ->
  horarioEstaOcupado ls dataISO hr = Retorna (existsb (mesmoHorario dataISO hr) l).
Proof.
  unfold armazena, horarioEstaOcupado. intros ->. cbn [Array_some].
  induction l as [|a l IH]; [reflexivity|].
  cbn [map algum existsb].
  rewrite campo_registro_data, campo_registro_hora.
  cbn [ligar igualEstritoTexto]. unfold mesmoHorario.
  destruct (jsstring_eqb (data a) dataISO); cbn [andb ligar].
  - destruct (jsstring_eqb (hora a) hr); cbn [orb]; [reflexivity | exact IH].
  - exact IH.
Qed.

Lemma agendamentosDoDia_armazena (ls : Storage) (l : list Agendamento)
      (dataISO : jsstring) :
  armazena ls l ->
  agendamentosDoDia ls dataISO
  = Retorna (map registro (filter (fun a => jsstring_eqb (data a) dataISO) l)).
Proof.
  unfold armazena, agendamentosDoDia. intros ->. cbn [Array_filter].
  induction l as [|a l IH]; [reflexivity|].
  cbn [map filtrar filter]. rewrite IH.
  rewrite campo_registro_data. cbn [ligar igualEstritoTexto].
  destruct (jsstring_eqb (data a) dataISO); reflexivity.
Qed.

(* ================================================================== *)
(** * What each handler leaves untouched *)
(* ================================================================== *)

Lemma atualizarListaDeHorarios_conserva {plat : Plataforma} (dataISO : jsstring) (st : Estado) :
  let st' := snd (atualizarListaDeHorarios dataISO st) in
  localStorage st' = localStorage st
  /\ alertas st' = alertas st
  /\ mesAtualExibido st' = mesAtualExibido st.
Proof.
  unfold atualizarListaDeHorarios. ramificar; cbn; auto.
Qed.

Lemma atualizarListaDeHorarios_retorna {plat : Plataforma} (dataISO : jsstring) (st : Estado)
      (l : list Agendamento) :
  armazena (localStorage st) l ->
  fst (atualizarListaDeHorarios dataISO st) = Retorna tt.
Proof.
  intros H. unfold atualizarListaDeHorarios.
  rewrite (agendamentosDoDia_armazena _ _ dataISO H).
  ramificar; reflexivity.
Qed.

Lemma mostrarCalendarioAdministrador_conserva {plat : Plataforma} (st : Estado) :
  let st' := snd (mostrarCalendarioAdministrador st) in
  localStorage st' = localStorage st
  /\ alertas st' = alertas st
  /\ mesAtualExibido st' = mesAtualExibido st.
Proof.
  unfold mostrarCalendarioAdministrador. ramificar; cbn; auto.
Qed.

Lemma mudarMesAtual_conserva {plat : Plataforma} (delta : Z) (st : Estado) :
  let st' := snd (mudarMesAtual delta st) in
  localStorage st' = localStorage st /\ alertas st' = alertas st.
Proof.
  unfold mudarMesAtual.
  destruct (includesNumero MESES_PERMITIDOS (mesAtualExibido st + delta)); cbn zeta.
  - pose proof (mostrarCalendarioAdministrador_conserva
                  (comMes (mesAtualExibido st + delta) st)) as H.
    cbn zeta in H. destruct H as (H1 & H2 & _). rewrite H1, H2. split; reflexivity.
  - split; reflexivity.
Qed.

(** The month shown after [mudarMesAtual]: the sum when it is an allowed
    month, the month shown before otherwise. *)
Lemma mudarMesAtual_mes {plat : Plataforma} (delta : Z) (st : Estado) :
  mesAtualExibido (snd (mudarMesAtual delta st))
  = if includesNumero MESES_PERMITIDOS (mesAtualExibido st + delta)
    then mesAtualExibido st + delta
    else mesAtualExibido st.
Proof.
  unfold mudarMesAtual.
  destruct (includesNumero MESES_PERMITIDOS (mesAtualExibido st + delta)).
  - pose proof (mostrarCalendarioAdministrador_conserva
                  (comMes (mesAtualExibido st + delta) st)) as H.
    cbn zeta in H. destruct H as (_ & _ & H). rewrite H. reflexivity.
  - reflexivity.
Qed.

Lemma includesNumero_MESES_PERMITIDOS (n : Z) :
  includesNumero MESES_PERMITIDOS n = (9 <=? n) && (n <=? 11).
Proof.
  unfold includesNumero, MESES_PERMITIDOS. cbn [existsb].
  destruct (Z.eqb_spec 9 n); destruct (Z.eqb_spec 10 n); destruct (Z.eqb_spec 11 n);
    destruct (Z.leb_spec 9 n); destruct (Z.leb_spec n 11); cbn; try reflexivity; lia.
Qed.

Lemma mostrarDetalhesDoDia_conserva (dataISO : jsstring) (st : Estado) :
  let st' := snd (mostrarDetalhesDoDia dataISO st) in
  localStorage st' = localStorage st
  /\ alertas st' = alertas st
  /\ mesAtualExibido st' = mesAtualExibido st.
Proof.
  unfold mostrarDetalhesDoDia. ramificar; cbn; auto.
Qed.

(* ================================================================== *)
(** * Submitting the form *)
(* ================================================================== *)

(** A submission that a check turns down: the handler returns, shows the
    message of that check and leaves the storage as it was. *)
Lemma aoEnviarFormulario_recusa {plat : Plataforma} (f : Formulario) (st : Estado)
      (l : list Agendamento) (a : Alerta) :
  armazena (localStorage st) l ->
  primeiraFalha f (ocupadoEm l f) = Some a ->
  let r := aoEnviarFormulario f st in
  fst r = Retorna tt
  /\ localStorage (snd r) = localStorage st
  /\ alertas (snd r) = alertas st ++ [a].
Proof.
  intros Harm Hf. unfold primeiraFalha, camposFaltando in Hf.
  unfold aoEnviarFormulario. cbn zeta.
  destruct (vazio (valorDoCampo (f_nome f)) || vazio (valorDoCampo (f_telefone f))
            || vazio (valorDoCampo (f_data f)) || vazio (valorDoCampo (f_hora f))).
  { injection Hf as <-. repeat split. }
  destruct (negb (dataEstaDentroDoPeriodoPermitido (valorDoCampo (f_data f)))).
  { injection Hf as <-. repeat split. }
  destruct (ehDomingo (valorDoCampo (f_data f))).
  { injection Hf as <-. repeat split. }
  rewrite (horarioEstaOcupado_armazena _ _ _ _ Harm).
  fold (ocupadoEm l f). destruct (ocupadoEm l f); [|discriminate].
  injection Hf as <-.
  pose proof (atualizarListaDeHorarios_conserva (valorDoCampo (f_data f))
                (alert AlertaHorarioOcupado st)) as Hc.
  cbn zeta in Hc. destruct Hc as (H1 & H2 & _).
  split; [|split].
  - apply (atualizarListaDeHorarios_retorna _ _ l). exact Harm.
  - rewrite H1. reflexivity.
  - rewrite H2. reflexivity.
Qed.

(** A submission that passes every check: the handler returns, and the
    storage holds the list with the new appointment at its end. *)
Lemma aoEnviarFormulario_aceita {plat : Plataforma} (f : Formulario) (st : Estado)
      (l : list Agendamento) :
  armazena (localStorage st) l ->
  primeiraFalha f (ocupadoEm l f) = None ->
  let r := aoEnviarFormulario f st in
  fst r = Retorna tt
  /\ armazena (localStorage (snd r)) (l ++ [pedido f])
  /\ alertas (snd r) = alertas st ++ [AlertaSalvo].
Proof.
  intros Harm Hf. unfold primeiraFalha, camposFaltando in Hf.
  unfold aoEnviarFormulario. cbn zeta.
  destruct (vazio (valorDoCampo (f_nome f)) || vazio (valorDoCampo (f_telefone f))
            || vazio (valorDoCampo (f_data f)) || vazio (valorDoCampo (f_hora f)));
    [discriminate|].
  destruct (negb (dataEstaDentroDoPeriodoPermitido (valorDoCampo (f_data f))));
    [discriminate|].
  destruct (ehDomingo (valorDoCampo (f_data f))); [discriminate|].
  rewrite (horarioEstaOcupado_armazena _ _ _ _ Harm).
  fold (ocupadoEm l f). destruct (ocupadoEm l f); [discriminate|].
  rewrite Harm. cbn [Array_push].
  change (novoAgendamento (valorDoCampo (f_nome f)) (valorDoCampo (f_telefone f))
            (valorDoCampo (f_servico f)) (valorDoCampo (f_data f))
            (valorDoCampo (f_hora f)))
    with (registro (pedido f)).
  change [registro (pedido f)] with (map registro [pedido f]).
  rewrite <- map_app.
  set (salvo := comStorage
         (salvarListaDeAgendamentos (JArr (map registro (l ++ [pedido f])))
            (localStorage st)) st).
  assert (Hs : armazena (localStorage (alert AlertaSalvo salvo)) (l ++ [pedido f])).
  { cbn. apply armazena_salvar. }
  pose proof (atualizarListaDeHorarios_conserva (valorDoCampo (f_data f))
                (alert AlertaSalvo salvo)) as Hc.
  cbn zeta in Hc. destruct Hc as (H1 & H2 & _).
  split; [|split].
  - apply (atualizarListaDeHorarios_retorna _ _ _ Hs).
  - rewrite H1. exact Hs.
  - rewrite H2. reflexivity.
Qed.

Lemma primeiraFalha_nao_salvo {plat : Plataforma} (f : Formulario) (b : bool) :
  primeiraFalha f b <> Some AlertaSalvo.
Proof.
  unfold primeiraFalha. ramificar; discriminate.
Qed.

(** ** The invariant of the stored list *)

Lemma semConflito_acrescenta (l : list Agendamento) (f : Formulario) :
  semConflito l -> ocupadoEm l f = false -> semConflito (l ++ [pedido f]).
Proof.
  unfold semConflito. intros Hl Ho.
  rewrite map_app. cbn [map].
  apply NoDup_app; [exact Hl | constructor; [intros [] | constructor] |].
  intros p Hin [Hp|[]]. subst p.
  apply in_map_iff in Hin. destruct Hin as (a & Ha & Hin).
  unfold ocupadoEm in Ho.
  assert (Hc : existsb (mesmoHorario (valorDoCampo (f_data f)) (valorDoCampo (f_hora f))) l
               = true).
  { apply existsb_exists. exists a. split; [exact Hin|].
    unfold mesmoHorario. cbn in Ha. injection Ha as Hd Hh. rewrite Hd, Hh.
    rewrite !jsstring_eqb_refl. reflexivity. }
  congruence.
Qed.

Lemma aoEnviarFormulario_invariante {plat : Plataforma} (f : Formulario) (st : Estado) :
  listaSemConflito (localStorage st) ->
  listaSemConflito (localStorage (snd (aoEnviarFormulario f st))).
Proof.
  intros (l & Harm & Hl).
  destruct (primeiraFalha f (ocupadoEm l f)) as [a|] eqn:Hf.
  - destruct (aoEnviarFormulario_recusa f st l a Harm Hf) as (_ & Hs & _).
    rewrite Hs. exists l. split; assumption.
  - destruct (aoEnviarFormulario_aceita f st l Harm Hf) as (_ & Hs & _).
    exists (l ++ [pedido f]). split; [exact Hs|].
    apply semConflito_acrescenta; [exact Hl|].
    unfold primeiraFalha in Hf. revert Hf. ramificar; congruence.
Qed.

Lemma alcancavel_invariante {plat : Plataforma} (st : Estado) :
  alcancavel st -> listaSemConflito (localStorage st).
Proof.
  induction 1 as [d|e st Hst IH|d st Hst IH].
  - exists []. split; [apply armazena_vazio | constructor].
  - destruct e as [f|valor|delta|dataISO]; cbn [reagir].
    + apply aoEnviarFormulario_invariante. exact IH.
    + destruct (atualizarListaDeHorarios_conserva valor st) as (H & _).
      rewrite H. exact IH.
    + destruct (mudarMesAtual_conserva delta st) as (H & _).
      rewrite H. exact IH.
    + destruct (mostrarDetalhesDoDia_conserva dataISO st) as (H & _).
      rewrite H. exact IH.
  - exact IH.
Qed.

Lemma submeter_alcancavel {plat : Plataforma} (fs : list Formulario) (st : Estado) :
  alcancavel st -> alcancavel (submeter fs st).
Proof.
  revert st. induction fs as [|f fs IH]; intros st H; [exact H|].
  cbn [submeter]. apply IH. apply (alcancavel_passo (EvEnviar f) st H).
Qed.

(* ================================================================== *)
(** * Sorting by a key *)
(* ================================================================== *)








(** ** The position of an hour in the fixed list *)




(** ** The records of a day *)




(* ================================================================== *)
(** * Dates: the calendar fields of a time value *)
(* ================================================================== *)

Lemma anoBissexto_casos (y : Z) :
  (anoBissexto y = true
   /\ y mod 4 = 0 /\ (y mod 100 <> 0 \/ y mod 400 = 0))
  \/ (anoBissexto y = false
      /\ (y mod 4 <> 0 \/ (y mod 100 = 0 /\ y mod 400 <> 0))).
Proof.
  unfold anoBissexto.
  destruct (Z.eqb_spec (y mod 4) 0); destruct (Z.eqb_spec (y mod 100) 0);
    destruct (Z.eqb_spec (y mod 400) 0); cbn; intuition lia.
Qed.

Lemma DayFromYear_seguinte (y : Z) :
  DayFromYear (y + 1) = DayFromYear y + DaysInYear y.
Proof.
  unfold DaysInYear, DayFromYear.
  destruct (anoBissexto_casos y) as [(-> & H)|(-> & H)]; divisoes.
Qed.

(** The first day of a year against the mean length of a year. *)
Lemma DayFromYear_media (y : Z) :
  -506 <= 400 * DayFromYear y - 146097 * (y - 1970) <= 589.
Proof. unfold DayFromYear. divisoes. Qed.

Lemma DaysInYear_limites (y : Z) : 365 <= DaysInYear y <= 366.
Proof. unfold DaysInYear. destruct (anoBissexto y); lia. Qed.

Lemma YearFromDay_correto (y k : Z) :
  0 <= k < DaysInYear y -> YearFromDay (DayFromYear y + k) = y.
Proof.
  intros Hk. unfold YearFromDay.
  set (d := DayFromYear y + k).
  set (y0 := 1970 + 400 * d / 146097).
  pose proof (DayFromYear_media y) as Hm.
  pose proof (DaysInYear_limites y) as Hy.
  pose proof (DaysInYear_limites (y - 1)) as Hy1.
  pose proof (DaysInYear_limites (y + 1)) as Hy2.
  pose proof (DayFromYear_seguinte y) as S0.
  pose proof (DayFromYear_seguinte (y - 1)) as S1.
  pose proof (DayFromYear_seguinte (y + 1)) as S2.
  replace (y - 1 + 1) with y in S1 by lia.
  assert (Hy0 : y0 = y - 1 \/ y0 = y \/ y0 = y + 1).
  { subst y0 d. Z.to_euclidean_division_equations. lia. }
  destruct Hy0 as [E|[E|E]]; rewrite E.
  - replace (y - 1 + 1) with y by lia.
    destruct (Z.ltb_spec d (DayFromYear (y - 1))); [subst d; lia|].
    destruct (Z.leb_spec (DayFromYear y) d); [lia | subst d; lia].
  - destruct (Z.ltb_spec d (DayFromYear y)); [subst d; lia|].
    destruct (Z.leb_spec (DayFromYear (y + 1)) d); [subst d; lia | reflexivity].
  - destruct (Z.ltb_spec d (DayFromYear (y + 1))); [lia|]. subst d. lia.
Qed.

(** [YearFromDay] is the function the standard describes: the year of a day
    is the one whose first day is not after it and whose successor's first
    day is. *)
Lemma YearFromDay_especificacao (d : Z) :
  DayFromYear (YearFromDay d) <= d < DayFromYear (YearFromDay d + 1).
Proof.
  unfold YearFromDay.
  set (y0 := 1970 + 400 * d / 146097).
  pose proof (DayFromYear_media (y0 - 1)) as M1.
  pose proof (DayFromYear_media (y0 + 2)) as M2.
  assert (Hq : 146097 * (y0 - 1970) <= 400 * d < 146097 * (y0 - 1970) + 146097).
  { subst y0. Z.to_euclidean_division_equations. lia. }
  destruct (Z.ltb_spec d (DayFromYear y0)) as [H1|H1].
  - replace (y0 - 1 + 1) with y0 by lia. lia.
  - destruct (Z.leb_spec (DayFromYear (y0 + 1)) d) as [H2|H2].
    + replace (y0 + 1 + 1) with (y0 + 2) by lia. lia.
    + lia.
Qed.

Lemma diasAntesDoMes_limites (y m d : Z) :
  1 <= m <= 12 -> 1 <= d <= diasNoMes y m ->
  0 <= diasAntesDoMes y (m - 1) + d - 1 < DaysInYear y.
Proof.
  intros Hm Hd. unfold diasAntesDoMes, diasNoMes, DaysInYear in *.
  destruct (anoBissexto y); por_mes m; lia.
Qed.

Lemma MakeDay_civil (y m d : Z) :
  1 <= m <= 12 -> MakeDay y (m - 1) d = DayFromYear y + (diasAntesDoMes y (m - 1) + d - 1).
Proof.
  intros Hm. unfold MakeDay.
  replace ((m - 1) / 12) with 0 by divisoes.
  replace ((m - 1) mod 12) with (m - 1) by divisoes.
  replace (y + 0) with y by lia. lia.
Qed.

Lemma Day_MakeDate (dia hms : Z) :
  0 <= hms < msPerDay -> Day (MakeDate dia hms) = dia.
Proof.
  unfold Day, MakeDate, msPerDay. intros H. divisoes.
Qed.

(** The fields of a time value built from a date of the calendar at some
    time of that day. *)
Lemma campos_da_data (y m d hms : Z) :
  1 <= m <= 12 -> 1 <= d <= diasNoMes y m -> 0 <= hms < msPerDay ->
  let t := MakeDate (MakeDay y (m - 1) d) hms in
  YearFromTime t = y /\ MonthFromTime t = m - 1 /\ DateFromTime t = d
  /\ WeekDay t = (MakeDay y (m - 1) d + 4) mod 7.
Proof.
  intros Hm Hd Hh t.
  assert (Hday : Day t = MakeDay y (m - 1) d) by (apply Day_MakeDate; exact Hh).
  pose proof (diasAntesDoMes_limites y m d Hm Hd) as Hk.
  assert (Hy : YearFromTime t = y).
  { unfold YearFromTime. rewrite Hday, MakeDay_civil by exact Hm.
    apply YearFromDay_correto. exact Hk. }
  assert (Hw : DayWithinYear t = diasAntesDoMes y (m - 1) + d - 1).
  { unfold DayWithinYear. rewrite Hy, Hday, MakeDay_civil by exact Hm. lia. }
  assert (Hmes : MonthFromTime t = m - 1).
  { unfold MonthFromTime, InLeapYear. rewrite Hw, Hy. clear Hk Hw Hy Hday.
    clearbody t. clear t.
    unfold diasAntesDoMes, diasNoMes in *.
    destruct (anoBissexto y); por_mes m;
      repeat match goal with
             | |- context [?a <? ?b] => destruct (Z.ltb_spec a b); try lia
             end; reflexivity. }
  repeat split; try assumption.
  - unfold DateFromTime, InLeapYear. rewrite Hmes, Hw, Hy. clear Hk Hw Hy Hday Hmes.
    clearbody t. clear t.
    unfold diasAntesDoMes.
    destruct (anoBissexto y); por_mes m; lia.
  - unfold WeekDay. rewrite Hday. reflexivity.
Qed.

(* ================================================================== *)
(** * Dates: reading a date written as YYYY-MM-DD *)
(* ================================================================== *)

Lemma lerDigitos_passo (k : nat) (acc q : Z) (r : jsstring) :
  0 <= q <= 9 ->
  lerDigitos (S k) acc (Z.to_N (48 + q) :: r) = lerDigitos k (10 * acc + q) r.
Proof.
  intros Hq. cbn [lerDigitos]. unfold ehDigito.
  replace ((c_zero <=? Z.to_N (48 + q))%N && (Z.to_N (48 + q) <=? c_nove)%N) with true.
  - f_equal. lia.
  - symmetry. apply andb_true_intro. split; apply N.leb_le; lia.
Qed.

Lemma lerDigitos_dois (n : Z) (r : jsstring) :
  0 <= n < 100 -> lerDigitos 2 0 (doisDigitos n ++ r) = Some (n, r).
Proof.
  intros Hn. unfold doisDigitos. cbn [app].
  rewrite !lerDigitos_passo by divisoes.
  cbn [lerDigitos]. f_equal. f_equal. divisoes.
Qed.

Lemma lerDigitos_quatro (n : Z) (r : jsstring) :
  0 <= n < 10000 -> lerDigitos 4 0 (quatroDigitos n ++ r) = Some (n, r).
Proof.
  intros Hn. unfold quatroDigitos. cbn [app].
  rewrite !lerDigitos_passo by divisoes.
  cbn [lerDigitos]. f_equal. f_equal. divisoes.
Qed.

Lemma lerAno_quatro (y : Z) (r : jsstring) :
  0 <= y < 10000 -> lerAno (quatroDigitos y ++ r) = Some (y, r).
Proof.
  intros Hy. rewrite <- (lerDigitos_quatro y r Hy).
  unfold quatroDigitos at 1. cbn [app lerAno].
  replace (Z.to_N (48 + y / 1000) =? c_mais)%N with false
    by (symmetry; apply N.eqb_neq; divisoes).
  replace (Z.to_N (48 + y / 1000) =? c_menos)%N with false
    by (symmetry; apply N.eqb_neq; divisoes).
  reflexivity.
Qed.

Lemma MakeDay_limites (y m d : Z) :
  0 <= y <= 9999 -> 1 <= m <= 12 -> 1 <= d <= 31 ->
  -800000 <= MakeDay y (m - 1) d <= 3000000.
Proof.
  intros Hy Hm Hd. rewrite MakeDay_civil by exact Hm.
  assert (0 <= diasAntesDoMes y (m - 1) <= 335).
  { unfold diasAntesDoMes. destruct (anoBissexto y); por_mes m; lia. }
  unfold DayFromYear. divisoes.
Qed.

Lemma dataCivil_campos (y m d : Z) :
  dataCivil y m d -> 0 <= y <= 9999 /\ 1 <= m <= 12 /\ 1 <= d <= 31.
Proof.
  unfold dataCivil, diasNoMes. intros (Hy & Hm & Hd).
  repeat split; try lia.
  destruct (anoBissexto y); por_mes m; lia.
Qed.

Lemma lerDataHora_dataISO (y m d : Z) :
  0 <= y <= 9999 -> 0 <= m < 100 -> 0 <= d < 100 ->
  lerDataHora (dataISO_de y m d ++ meiaNoite) = Some (y, m, d, 0, 0, 0).
Proof.
  intros Hy Hm Hd. unfold lerDataHora, dataISO_de.
  rewrite <- app_assoc. rewrite lerAno_quatro by lia.
  cbn [app]. change (c_menos =? c_menos)%N with true. cbv iota.
  unfold lerCampoOpcional at 1. change (c_menos =? c_menos)%N with true. cbv iota.
  rewrite <- app_assoc. rewrite lerDigitos_dois by lia.
  cbn [app]. unfold lerCampoOpcional. change (c_menos =? c_menos)%N with true. cbv iota.
  rewrite lerDigitos_dois by lia.
  reflexivity.
Qed.

(** A date of the calendar written with four, two and two digits, followed
    by the midnight the script appends, is read as that day at 00:00:00,
    on every platform. *)
Lemma Date_de_texto_dataISO {plat : Plataforma} (y m d : Z) :
  dataCivil y m d ->
  Date_de_texto (dataISO_de y m d ++ meiaNoite)
  = Some (MakeDate (MakeDay y (m - 1) d) 0).
Proof.
  intros Hc. pose proof (dataCivil_campos y m d Hc) as (Hy & Hm & Hd).
  destruct Hc as (_ & _ & Hd').
  unfold Date_de_texto. rewrite lerDataHora_dataISO by lia.
  unfold camposValidos.
  replace ((1 <=? m) && (m <=? 12) && (1 <=? d) && (d <=? diasNoMes y m)) with true.
  - cbn [andb orb Z.leb Z.ltb Z.eqb Z.compare]. cbv iota.
    change (MakeTime 0 0 0 0) with 0.
    unfold TimeClip.
    pose proof (MakeDay_limites y m d Hy Hm Hd) as Hl.
    destruct (Z.leb_spec (Z.abs (MakeDate (MakeDay y (m - 1) d) 0)) 8640000000000000);
      [reflexivity|].
    unfold MakeDate, msPerDay in *. lia.
  - symmetry. repeat (apply andb_true_intro; split); apply Z.leb_le; lia.
Qed.

(** [MakeDay] counts the days of the calendar one by one. *)
Lemma MakeDay_diaSeguinte (y m d : Z) :
  1 <= m <= 12 -> 1 <= d <= diasNoMes y m ->
  let '(y', m', d') := diaSeguinte y m d in
  1 <= m' <= 12 /\ 1 <= d' <= diasNoMes y' m'
  /\ MakeDay y' (m' - 1) d' = MakeDay y (m - 1) d + 1.
Proof.
  intros Hm Hd. unfold diaSeguinte.
  destruct (Z.ltb_spec d (diasNoMes y m)) as [Hlt|Hge].
  - repeat split; try lia. rewrite !MakeDay_civil by lia. lia.
  - assert (d = diasNoMes y m) by lia. subst d. clear Hd Hge.
    destruct (Z.ltb_spec m 12) as [Hlt|Hge].
    + rewrite !MakeDay_civil by lia.
      unfold diasNoMes, diasAntesDoMes.
      replace (m + 1 - 1) with m by lia.
      destruct (anoBissexto y); por_mes m; lia.
    + assert (m = 12) by lia. subst m.
      rewrite !MakeDay_civil by lia.
      pose proof (DayFromYear_seguinte y) as Hs. unfold DaysInYear in Hs.
      unfold diasNoMes, diasAntesDoMes.
      destruct (anoBissexto y); mes_conhecido; lia.
Qed.

(** The day of the week of the time value agrees with the congruence. *)
Lemma MakeDay_Zeller (y m d : Z) :
  1 <= m <= 12 -> (MakeDay y (m - 1) d + 4) mod 7 = diaDaSemanaZeller y m d.
Proof.
  intros Hm. rewrite MakeDay_civil by exact Hm.
  unfold diaDaSemanaZeller, diasAntesDoMes, DayFromYear.
  destruct (anoBissexto_casos y) as [(-> & H)|(-> & H)];
    por_mes m;
    repeat match goal with
           | |- context [Zpos ?p <? 3] =>
               let v := eval vm_compute in (Zpos p <? 3) in
               change (Zpos p <? 3) with v
           end;
    cbv iota;
    match goal with
    | |- context [13 * ?e / 5] =>
        let v := eval vm_compute in (13 * e / 5) in
        change (13 * e / 5) with v
    end;
    divisoes.
Qed.

(* ================================================================== *)
(** * The validation rules *)
(* ================================================================== *)

Lemma dataEstaDentroDoPeriodoPermitido_valor {plat : Plataforma} (s : jsstring) :
  dataEstaDentroDoPeriodoPermitido s
  = match Date_de_texto (s ++ meiaNoite) with
    | Some t => (YearFromTime t =? 2025) && (9 <=? MonthFromTime t) && (MonthFromTime t <=? 11)
    | None => false
    end.
Proof.
  unfold dataEstaDentroDoPeriodoPermitido.
  destruct (Date_de_texto (s ++ meiaNoite)) as [t|]; [|reflexivity].
  cbn [isNaN getFullYear getMonth option_map igualEstritoNumero].
  rewrite includesNumero_MESES_PERMITIDOS. unfold ANO_PERMITIDO.
  rewrite andb_assoc. reflexivity.
Qed.

(** C2. [dataEstaDentroDoPeriodoPermitido] is true exactly for the strings
    that are read as a valid date of October, November or December 2025:
    for a date of the calendar written YYYY-MM-DD it is true when the year
    is 2025 and the month is 10, 11 or 12 and false otherwise; and it is
    false for every string that is not read as a valid date. *)
Theorem dataEstaDentroDoPeriodoPermitido_periodo {plat : Plataforma} :
  (forall y m d, dataCivil y m d ->
     dataEstaDentroDoPeriodoPermitido (dataISO_de y m d) = (y =? 2025) && (10 <=? m))
  /\ (forall s, dataEstaDentroDoPeriodoPermitido s = true <->
        exists t, Date_de_texto (s ++ meiaNoite) = Some t
                  /\ YearFromTime t = 2025 /\ 9 <= MonthFromTime t <= 11)
  /\ (forall s, Date_de_texto (s ++ meiaNoite) = None ->
        dataEstaDentroDoPeriodoPermitido s = false).
Proof.
  split; [|split].
  - intros y m d Hc. pose proof (dataCivil_campos y m d Hc) as (Hy & Hm & Hd).
    rewrite dataEstaDentroDoPeriodoPermitido_valor.
    rewrite Date_de_texto_dataISO by assumption.
    destruct Hc as (_ & _ & Hd').
    destruct (campos_da_data y m d 0 Hm Hd' ltac:(unfold msPerDay; lia))
      as (Ey & Em & _).
    rewrite Ey, Em.
    destruct (Z.eqb_spec y 2025); destruct (Z.leb_spec 9 (m - 1));
      destruct (Z.leb_spec (m - 1) 11); destruct (Z.leb_spec 10 m);
      cbn; try reflexivity; lia.
  - intros s. rewrite dataEstaDentroDoPeriodoPermitido_valor.
    destruct (Date_de_texto (s ++ meiaNoite)) as [t|].
    + split.
      * intros H. apply andb_prop in H. destruct H as [H H3].
        apply andb_prop in H. destruct H as [H1 H2].
        exists t. repeat split; lia.
      * intros (t' & E & H1 & H2 & H3). injection E as <-.
        repeat (apply andb_true_intro; split); lia.
    + split; [discriminate|]. intros (t & E & _). discriminate.
  - intros s H. rewrite dataEstaDentroDoPeriodoPermitido_valor, H. reflexivity.
Qed.

Lemma ehDomingo_valor {plat : Plataforma} (s : jsstring) :
  ehDomingo s
  = match Date_de_texto (s ++ meiaNoite) with
    | Some t => WeekDay t =? 0
    | None => false
    end.
Proof.
  unfold ehDomingo. destruct (Date_de_texto (s ++ meiaNoite)); reflexivity.
Qed.

(** C5. [ehDomingo] is true for every date whose day of the week is Sunday,
    whatever its month and year: for a date of the calendar written
    YYYY-MM-DD it is true exactly when the day of the week of that date
    (Zeller's congruence) is Sunday, and for any string read as a valid date
    it is true exactly when the day of the week of that date is 0; a Sunday
    outside the allowed period, 4 January 2026, is a Sunday for it too. *)
Theorem ehDomingo_todo_domingo {plat : Plataforma} :
  (forall y m d, dataCivil y m d ->
     ehDomingo (dataISO_de y m d) = (diaDaSemanaZeller y m d =? 0))
  /\ (forall s t, Date_de_texto (s ++ meiaNoite) = Some t ->
        ehDomingo s = (WeekDay t =? 0))
  /\ (ehDomingo (js "2026-01-04") = true
      /\ dataEstaDentroDoPeriodoPermitido (js "2026-01-04") = false).
Proof.
  split; [|split].
  - intros y m d Hc. pose proof (dataCivil_campos y m d Hc) as (Hy & Hm & Hd).
    rewrite ehDomingo_valor, Date_de_texto_dataISO by assumption.
    destruct Hc as (_ & _ & Hd').
    destruct (campos_da_data y m d 0 Hm Hd' ltac:(unfold msPerDay; lia))
      as (_ & _ & _ & Ew).
    rewrite Ew, MakeDay_Zeller by exact Hm. reflexivity.
  - intros s t H. rewrite ehDomingo_valor, H. reflexivity.
  - split; vm_compute; reflexivity.
Qed.

(* ================================================================== *)
(** * The stored list *)
(* ================================================================== *)

Lemma pegarListaDeAgendamentos_ausente (ls : Storage) :
  getItem ls CHAVE_ARMAZENAMENTO = None -> pegarListaDeAgendamentos ls = JArr [].
Proof. unfold pegarListaDeAgendamentos. intros ->. reflexivity. Qed.

Lemma pegarListaDeAgendamentos_malformado (ls : Storage) (s : jsstring) (e : Erro) :
  getItem ls CHAVE_ARMAZENAMENTO = Some s -> JSON_parse s = Lanca e ->
  pegarListaDeAgendamentos ls = JArr [].
Proof.
  unfold pegarListaDeAgendamentos. intros -> H.
  destruct s as [|c r]; [reflexivity|]. cbn [ouTexto]. rewrite H. reflexivity.
Qed.

(** C3, at the stored text [{}]: the text is valid JSON, so
    [pegarListaDeAgendamentos] returns the object it denotes, which is not a
    list; the occupancy check that calls [some] on it throws, and so does
    the submit handler for a form that passes the first three checks. *)
Theorem pegarListaDeAgendamentos_nao_lista {plat : Plataforma} :
  let ls := [(CHAVE_ARMAZENAMENTO, js "{}")] in
  pegarListaDeAgendamentos ls = JObj []
  /\ horarioEstaOcupado ls (js "2025-10-06") (js "09:00") = Lanca TypeError
  /\ aoEnviarFormulario formAna (comStorage ls (estadoInicial paginaCliente))
     = (Lanca TypeError, comStorage ls (estadoInicial paginaCliente)).
Proof. vm_compute. repeat split. Qed.

Lemma semConflito_posicoes (l : list Agendamento) :
  semConflito l ->
  forall i j a b, nth_error l i = Some a -> nth_error l j = Some b -> i <> j ->
    (data a, hora a) <> (data b, hora b).
Proof.
  unfold semConflito. intros Hnd i j a b Ha Hb Hij Heq.
  apply Hij. rewrite NoDup_nth_error in Hnd. apply Hnd.
  - rewrite length_map. apply nth_error_Some. congruence.
  - rewrite !nth_error_map, Ha, Hb. cbn. congruence.
Qed.

Lemma ocupadoEm_pertence (l : list Agendamento) (f : Formulario) :
  In (valorDoCampo (f_data f), valorDoCampo (f_hora f)) (map (fun a => (data a, hora a)) l) ->
  ocupadoEm l f = true.
Proof.
  intros Hin. apply in_map_iff in Hin. destruct Hin as (a & Ha & Hin).
  unfold ocupadoEm. apply existsb_exists. exists a. split; [exact Hin|].
  injection Ha as Hd Hh. unfold mesmoHorario. rewrite Hd, Hh, !jsstring_eqb_refl.
  reflexivity.
Qed.

(** C1. After any sequence of submissions from the empty storage, the
    storage holds a list of appointments in which two appointments at
    different positions never have the same date and hour; and for a
    submission whose date and hour are those of a stored appointment the
    occupancy check answers true and the submission is turned down: the
    handler returns, shows a message other than the one of success and
    leaves the storage as it was. *)
Theorem submissoes_sem_conflito {plat : Plataforma} (d : Documento) (fs : list Formulario) :
  let st := submeter fs (estadoInicial d) in
  exists l : list Agendamento,
    armazena (localStorage st) l
    /\ (forall i j a b,
          nth_error l i = Some a -> nth_error l j = Some b -> i <> j ->
          (data a, hora a) <> (data b, hora b))
    /\ (forall f,
          In (valorDoCampo (f_data f), valorDoCampo (f_hora f))
             (map (fun a => (data a, hora a)) l) ->
          horarioEstaOcupado (localStorage st) (valorDoCampo (f_data f))
            (valorDoCampo (f_hora f)) = Retorna true
          /\ let r := aoEnviarFormulario f st in
             exists al,
               al <> AlertaSalvo
               /\ fst r = Retorna tt
               /\ localStorage (snd r) = localStorage st
               /\ alertas (snd r) = alertas st ++ [al]).
Proof.
  intros st.
  assert (Halc : alcancavel st)
    by (apply submeter_alcancavel; apply alcancavel_inicial).
  destruct (alcancavel_invariante st Halc) as (l & Harm & Hl).
  exists l. split; [exact Harm|]. split; [apply semConflito_posicoes; exact Hl|].
  intros f Hin.
  pose proof (ocupadoEm_pertence l f Hin) as Ho.
  split.
  { rewrite (horarioEstaOcupado_armazena _ _ _ _ Harm). fold (ocupadoEm l f).
    rewrite Ho. reflexivity. }
  intros r.
  destruct (primeiraFalha f (ocupadoEm l f)) as [al|] eqn:Hf.
  - exists al. split.
    + intros ->. exact (primeiraFalha_nao_salvo _ _ Hf).
    + apply (aoEnviarFormulario_recusa f st l al Harm Hf).
  - exfalso. rewrite Ho in Hf. unfold primeiraFalha in Hf.
    revert Hf. ramificar; discriminate.
Qed.

(** In any state at all, the handler writes to the storage only when the four
    checks pass. *)
Lemma aoEnviarFormulario_sem_mutacao {plat : Plataforma} (f : Formulario) (st : Estado) :
  ~ todasPassam f st ->
  localStorage (snd (aoEnviarFormulario f st)) = localStorage st.
Proof.
  unfold todasPassam, primeiraFalha, camposFaltando, aoEnviarFormulario. cbn zeta.
  intros H.
  destruct (vazio (valorDoCampo (f_nome f)) || vazio (valorDoCampo (f_telefone f))
            || vazio (valorDoCampo (f_data f)) || vazio (valorDoCampo (f_hora f)));
    [reflexivity|].
  destruct (negb (dataEstaDentroDoPeriodoPermitido (valorDoCampo (f_data f))));
    [reflexivity|].
  destruct (ehDomingo (valorDoCampo (f_data f))); [reflexivity|].
  destruct (horarioEstaOcupado (localStorage st) (valorDoCampo (f_data f))
              (valorDoCampo (f_hora f))) as [[|]|e]; [| |reflexivity].
  - destruct (atualizarListaDeHorarios_conserva (valorDoCampo (f_data f))
                (alert AlertaHorarioOcupado st)) as (H1 & _).
    rewrite H1. reflexivity.
  - exfalso. apply H. split; reflexivity.
Qed.

Lemma textoDoAlerta_distinto (a b : Alerta) :
  textoDoAlerta a = textoDoAlerta b -> a = b.
Proof. destruct a, b; intros H; try reflexivity; discriminate H. Qed.

(** The checks that do not read the storage: in any state at all, a
    submission they turn down returns with their message and changes nothing
    else. *)
Lemma aoEnviarFormulario_sem_ler {plat : Plataforma} (f : Formulario) (st : Estado)
      (a : Alerta) :
  primeiraFalha f false = Some a ->
  aoEnviarFormulario f st = (Retorna tt, alert a st).
Proof.
  unfold primeiraFalha, camposFaltando, aoEnviarFormulario. cbn zeta.
  destruct (vazio (valorDoCampo (f_nome f)) || vazio (valorDoCampo (f_telefone f))
            || vazio (valorDoCampo (f_data f)) || vazio (valorDoCampo (f_hora f))).
  { intros H. injection H as <-. reflexivity. }
  destruct (negb (dataEstaDentroDoPeriodoPermitido (valorDoCampo (f_data f)))).
  { intros H. injection H as <-. reflexivity. }
  destruct (ehDomingo (valorDoCampo (f_data f))).
  { intros H. injection H as <-. reflexivity. }
  discriminate.
Qed.

(** C4. The submit handler makes its checks in the order required fields,
    allowed period, Sunday, occupancy, and the first one that fails decides
    the outcome. When one of the first three fails, in any state, the handler
    returns, shows the message of that check and changes nothing else. When
    the storage holds a list of appointments, as it does in every state the
    page can be in, the first failing check of the four makes the handler
    return without throwing, show the message of that check and leave the
    storage as it was. The storage is written only when all four checks pass,
    and the messages are pairwise distinct. *)
Theorem aoEnviarFormulario_verificacoes {plat : Plataforma} (st : Estado) (f : Formulario) :
  (forall a, primeiraFalha f false = Some a ->
             aoEnviarFormulario f st = (Retorna tt, alert a st))
  /\ (forall l a,
         armazena (localStorage st) l ->
         primeiraFalha f (ocupadoEm l f) = Some a ->
         let r := aoEnviarFormulario f st in
         fst r = Retorna tt
         /\ localStorage (snd r) = localStorage st
         /\ alertas (snd r) = alertas st ++ [a])
  /\ (alcancavel st -> exists l, armazena (localStorage st) l)
  /\ (~ todasPassam f st ->
      localStorage (snd (aoEnviarFormulario f st)) = localStorage st)
  /\ (forall a b, textoDoAlerta a = textoDoAlerta b -> a = b).
Proof.
  split; [|split; [|split; [|split]]].
  - intros a. apply aoEnviarFormulario_sem_ler.
  - intros l a Harm Hf. apply (aoEnviarFormulario_recusa f st l a Harm Hf).
  - intros Halc. destruct (alcancavel_invariante st Halc) as (l & Harm & _).
    exists l. exact Harm.
  - apply aoEnviarFormulario_sem_mutacao.
  - apply textoDoAlerta_distinto.
Qed.

(** C8, amended. When the storage holds what [salvarListaDeAgendamentos]
    writes for a list of appointments, writing back the list that is read
    leaves the storage as it is. *)
Theorem regravar_lista_salva {plat : Plataforma} (ls : Storage) (l : list Agendamento) :
  getItem ls CHAVE_ARMAZENAMENTO = Some (JSON_stringify (JArr (map registro l))) ->
  regravar ls = ls.
Proof.
  intros H. unfold regravar, salvarListaDeAgendamentos.
  rewrite (pegar_texto_da_lista ls l H).
  apply setItem_mesmo_valor. exact H.
Qed.

(* ================================================================== *)
(** * The administration panel *)
(* ================================================================== *)

Lemma includesNumero_In (a : list Z) (n : Z) :
  includesNumero a n = true <-> In n a.
Proof.
  unfold includesNumero. rewrite existsb_exists. split.
  - intros (m & Hm & E). apply Z.eqb_eq in E. subst. exact Hm.
  - intros H. exists n. split; [exact H | apply Z.eqb_refl].
Qed.

(** C6. [mudarMesAtual] with +1 or -1 shows the adjacent month when that
    month is one of the allowed months, and otherwise returns without
    throwing and leaves the state as it was; +1 from October shows
    November, and +1 from December changes nothing. *)
Theorem mudarMesAtual_adjacente {plat : Plataforma} :
  (forall (delta : Z) (st : Estado),
      delta = 1 \/ delta = -1 ->
      let novo := mesAtualExibido st + delta in
      (In novo MESES_PERMITIDOS ->
       mesAtualExibido (snd (mudarMesAtual delta st)) = novo)
      /\ (~ In novo MESES_PERMITIDOS -> mudarMesAtual delta st = (Retorna tt, st)))
  /\ (forall st, mesAtualExibido st = 9 ->
                 mesAtualExibido (snd (mudarMesAtual 1 st)) = 10)
  /\ (forall st, mesAtualExibido st = 11 -> mudarMesAtual 1 st = (Retorna tt, st)).
Proof.
  split; [|split].
  - intros delta st _ novo. split.
    + intros Hin. rewrite mudarMesAtual_mes. fold novo.
      apply includesNumero_In in Hin. rewrite Hin. reflexivity.
    + intros Hn. unfold mudarMesAtual. fold novo.
      destruct (includesNumero MESES_PERMITIDOS novo) eqn:E; [|reflexivity].
      apply includesNumero_In in E. contradiction.
  - intros st H. rewrite mudarMesAtual_mes, H. reflexivity.
  - intros st H. unfold mudarMesAtual. rewrite H. reflexivity.
Qed.

(** C9. For any integer [delta], [mudarMesAtual] shows the month
    [mesAtualExibido + delta] when that sum is 9, 10 or 11 and keeps the
    month shown otherwise; with [delta = 2] from October it shows December. *)
Theorem mudarMesAtual_qualquer_delta {plat : Plataforma} (delta : Z) (st : Estado) :
  let novo := mesAtualExibido st + delta in
  mesAtualExibido (snd (mudarMesAtual delta st))
  = (if (9 <=? novo) && (novo <=? 11) then novo else mesAtualExibido st)
  /\ mesAtualExibido (snd (mudarMesAtual 2 (comMes 9 st))) = 11.
Proof.
  intros novo. split.
  - rewrite mudarMesAtual_mes. fold novo.
    rewrite includesNumero_MESES_PERMITIDOS. reflexivity.
  - rewrite mudarMesAtual_mes. reflexivity.
Qed.



(* ================================================================== *)
(** * The storage: writing and reading back *)
(* ================================================================== *)

Lemma getItem_setItem_outro (ls : Storage) (k k' v : jsstring) :
  k' <> k -> getItem (setItem ls k v) k' = getItem ls k'.
Proof.
  intros Hk. induction ls as [|[k0 v0] ls IH]; simpl.
  - destruct (jsstring_eqb k k') eqn:E; [|reflexivity].
    apply jsstring_eqb_eq in E. congruence.
  - destruct (jsstring_eqb k0 k) eqn:E; simpl.
    + apply jsstring_eqb_eq in E. subst k0.
      destruct (jsstring_eqb k k') eqn:E'; [|reflexivity].
      apply jsstring_eqb_eq in E'. congruence.
    + rewrite IH. reflexivity.
Qed.

Lemma setItem_setItem (ls : Storage) (k v w : jsstring) :
  setItem (setItem ls k v) k w = setItem ls k w.
Proof.
  induction ls as [|[k0 v0] ls IH]; simpl.
  - rewrite jsstring_eqb_refl. reflexivity.
  - destruct (jsstring_eqb k0 k) eqn:E; simpl.
    + rewrite jsstring_eqb_refl. reflexivity.
    + rewrite E, IH. reflexivity.
Qed.

(** X1. Reading after writing gives the list written: for every list of
    appointments, whatever code units their fields hold (quotes, control
    characters, surrogates that are not paired), and whatever the storage
    held before, [pegarListaDeAgendamentos] after
    [salvarListaDeAgendamentos] returns that list. *)
Theorem pegarListaDeAgendamentos_apos_salvar {plat : Plataforma}
        (ls : Storage) (l : list Agendamento) :
  pegarListaDeAgendamentos (salvarListaDeAgendamentos (JArr (map registro l)) ls)
  = JArr (map registro l).
Proof. exact (armazena_salvar ls l). Qed.

(** X2. [salvarListaDeAgendamentos] replaces the item of the key: a second
    write leaves the storage as if it were the only one, the item holds the
    text of the last list, and the items of the other keys are kept. *)
Theorem salvarListaDeAgendamentos_substitui {plat : Plataforma}
        (a b : JSVal) (ls : Storage) :
  salvarListaDeAgendamentos b (salvarListaDeAgendamentos a ls)
  = salvarListaDeAgendamentos b ls
  /\ getItem (salvarListaDeAgendamentos a ls) CHAVE_ARMAZENAMENTO
     = Some (JSON_stringify a)
  /\ (forall k, k <> CHAVE_ARMAZENAMENTO ->
        getItem (salvarListaDeAgendamentos a ls) k = getItem ls k).
Proof.
  unfold salvarListaDeAgendamentos. split; [|split].
  - apply setItem_setItem.
  - apply getItem_setItem.
  - intros k Hk. apply getItem_setItem_outro. exact Hk.
Qed.

(* ================================================================== *)
(** * The occupancy check on any stored array *)
(* ================================================================== *)

Lemma algum_sem_null (p : JSVal -> bool) (q : JSVal -> Resultado bool) (l : list JSVal) :
  (forall v, v <> JNull -> q v = Retorna (p v)) ->
  Forall (fun v => v <> JNull) l ->
  algum q l = Retorna (existsb p l).
Proof.
  intros Hq Hl. induction Hl as [|v l Hv Hl IH]; simpl; [reflexivity|].
  rewrite (Hq v Hv). simpl. destruct (p v); [reflexivity|exact IH].
Qed.

Lemma ocupa_sem_null (dataISO hr : jsstring) (v : JSVal) :
  v <> JNull ->
  (d <- campo v (js "data") ;;
   if igualEstritoTexto d dataISO
   then h <- campo v (js "hora") ;; Retorna (igualEstritoTexto h hr)
   else Retorna false)
  = Retorna (ocupa dataISO hr v).
Proof.
  intros Hv. unfold ocupa. destruct v; try congruence; simpl;
    try reflexivity.
  destruct (igualEstritoTexto (buscar props (js "data")) dataISO); reflexivity.
Qed.

Lemma algum_prefixo (q : JSVal -> Resultado bool) (l1 l2 : list JSVal) :
  algum q l1 = Retorna false -> algum q (l1 ++ l2) = algum q l2.
Proof.
  induction l1 as [|v l1 IH]; simpl; [reflexivity|].
  destruct (q v) as [[|]|e]; simpl; try discriminate. exact IH.
Qed.

Lemma algum_achou (q : JSVal -> Resultado bool) (l1 l2 : list JSVal) :
  algum q l1 = Retorna true -> algum q (l1 ++ l2) = Retorna true.
Proof.
  induction l1 as [|v l1 IH]; simpl; [discriminate|].
  destruct (q v) as [[|]|e]; simpl; try discriminate; auto.
Qed.

(** X3. On a storage that holds a list of appointments the occupancy check
    returns, and its answer is true exactly when an appointment of the list
    has that date and that hour, compared as strings. *)
Theorem horarioEstaOcupado_exato (ls : Storage) (l : list Agendamento)
        (dataISO hr : jsstring) :
  armazena ls l ->
  exists b, horarioEstaOcupado ls dataISO hr = Retorna b
    /\ (b = true <-> exists a, In a l /\ data a = dataISO /\ hora a = hr).
Proof.
  intros H. eexists. split; [apply (horarioEstaOcupado_armazena _ _ _ _ H)|].
  rewrite existsb_exists. unfold mesmoHorario. split.
  - intros (a & Ha & E). apply andb_true_iff in E. destruct E as [E1 E2].
    apply jsstring_eqb_eq in E1, E2. eauto.
  - intros (a & Ha & E1 & E2). exists a. split; [exact Ha|].
    apply andb_true_iff. split; apply jsstring_eqb_eq; assumption.
Qed.

(** X4. The occupancy check does not throw on a stored array that has no
    [null] element, whatever else it holds (numbers, strings, arrays,
    objects without the fields): an element matches only when it is an
    object whose [data] and [hora] are the strings asked for. *)
Theorem horarioEstaOcupado_sem_null (ls : Storage) (l : list JSVal)
        (dataISO hr : jsstring) :
  pegarListaDeAgendamentos ls = JArr l ->
  Forall (fun v => v <> JNull) l ->
  horarioEstaOcupado ls dataISO hr = Retorna (existsb (ocupa dataISO hr) l).
Proof.
  intros H Hl. unfold horarioEstaOcupado. rewrite H. simpl.
  apply algum_sem_null; [|exact Hl].
  intros v Hv. apply ocupa_sem_null. exact Hv.
Qed.

(** X5. A [null] element of the stored array makes the occupancy check
    throw a TypeError, unless an element before it matches: the search
    stops at the first match. *)
Theorem horarioEstaOcupado_null (ls : Storage) (l1 l2 : list JSVal)
        (dataISO hr : jsstring) :
  pegarListaDeAgendamentos ls = JArr (l1 ++ JNull :: l2) ->
  Forall (fun v => v <> JNull) l1 ->
  horarioEstaOcupado ls dataISO hr
  = if existsb (ocupa dataISO hr) l1 then Retorna true else Lanca TypeError.
Proof.
  intros H Hl. unfold horarioEstaOcupado. rewrite H. simpl.
  pose proof (algum_sem_null (ocupa dataISO hr) _ l1
                (fun v Hv => ocupa_sem_null dataISO hr v Hv) Hl) as E.
  destruct (existsb (ocupa dataISO hr) l1).
  - apply algum_achou. exact E.
  - rewrite (algum_prefixo _ _ _ E). reflexivity.
Qed.

(* ================================================================== *)
(** * The select of hours *)
(* ================================================================== *)

Lemma includesTexto_ocupados (l : list Agendamento) (dataISO h : jsstring) :
  includesTexto
    (map (fun x => lerCampo x (js "hora"))
       (map registro (filter (fun a => jsstring_eqb (data a) dataISO) l))) h
  = existsb (mesmoHorario dataISO h) l.
Proof.
  unfold includesTexto, mesmoHorario.
  induction l as [|a l IH]; [reflexivity|].
  cbn [filter existsb].
  destruct (jsstring_eqb (data a) dataISO); cbn [map existsb andb orb].
  - rewrite lerCampo_registro_hora. cbn [igualEstritoTexto]. rewrite IH. reflexivity.
  - exact IH.
Qed.

Lemma atualizarListaDeHorarios_valor {plat : Plataforma} (dataISO : jsstring) (st : Estado)
      (l : list Agendamento) (ops0 : list Opcao) :
  armazena (localStorage st) l ->
  el_hora (documento st) = Some ops0 ->
  dataISO <> [] ->
  dataEstaDentroDoPeriodoPermitido dataISO = true ->
  ehDomingo dataISO = false ->
  atualizarListaDeHorarios dataISO st
  = (Retorna tt,
     comDocumento
       (comMensagem (mensagemDeOcupacao (agendamentosEm l dataISO))
          (comOpcoes (map (opcaoDoHorario l dataISO) LISTA_DE_HORARIOS_FIXOS)
             (documento st))) st).
Proof.
  intros Harm Hel Hd Hp Hs. unfold atualizarListaDeHorarios.
  rewrite Hel. destruct dataISO as [|c r]; [congruence|].
  rewrite Hp, Hs. cbn [negb].
  rewrite (agendamentosDoDia_armazena _ _ _ Harm).
  f_equal. f_equal. f_equal.
  - unfold agendamentosEm.
    rewrite <- (length_map registro), <- (length_map (fun x => lerCampo x (js "hora"))).
    destruct (map _ (map registro _)); reflexivity.
  - f_equal. apply map_ext. intros h. unfold opcaoDoHorario.
    rewrite includesTexto_ocupados. reflexivity.
Qed.


(** X7. For no date, for a date outside the allowed period and for a Sunday
    [atualizarListaDeHorarios] does not read the storage: whatever the
    storage holds it returns, and the select then has a single option, which
    is disabled, so that no hour can be chosen; the period is checked before
    the day of the week. *)
Theorem atualizarListaDeHorarios_aviso {plat : Plataforma} (dataISO : jsstring)
        (st : Estado) (ops0 : list Opcao) :
  el_hora (documento st) = Some ops0 ->
  dataISO = [] \/ dataEstaDentroDoPeriodoPermitido dataISO = false
  \/ ehDomingo dataISO = true ->
  let r := atualizarListaDeHorarios dataISO st in
  fst r = Retorna tt
  /\ el_hora (documento (snd r))
     = Some [opcaoDeAviso
               (if vazio dataISO then TextoSelecioneData
                else if dataEstaDentroDoPeriodoPermitido dataISO then TextoDomingo
                else TextoForaDoPeriodo)].
Proof.
  intros Hel H r. subst r. unfold atualizarListaDeHorarios. rewrite Hel.
  destruct dataISO as [|c s]; [split; reflexivity|].
  cbn [vazio].
  destruct (dataEstaDentroDoPeriodoPermitido (c :: s)); cbn [negb];
    [|split; reflexivity].
  destruct H as [H|[H|H]]; try discriminate.
  rewrite H. split; reflexivity.
Qed.

Lemma horario_fixo_nao_vazio (h : jsstring) :
  In h LISTA_DE_HORARIOS_FIXOS -> h <> [].
Proof.
  unfold LISTA_DE_HORARIOS_FIXOS. cbn [map In].
  intros H. repeat (destruct H as [<-|H]; [discriminate|]). destruct H.
Qed.

Lemma vazio_false (s : jsstring) : s <> [] -> vazio s = false.
Proof. destruct s; [congruence|reflexivity]. Qed.

Lemma atualizarListaDeHorarios_opcoes {plat : Plataforma} (dataISO : jsstring)
      (st : Estado) (l : list Agendamento) (ops : list Opcao) (o : Opcao) :
  armazena (localStorage st) l ->
  el_hora (documento (snd (atualizarListaDeHorarios dataISO st))) = Some ops ->
  In o ops -> op_disabled o = false ->
  dataISO <> [] /\ dataEstaDentroDoPeriodoPermitido dataISO = true
  /\ ehDomingo dataISO = false
  /\ In (op_value o) LISTA_DE_HORARIOS_FIXOS
  /\ existsb (mesmoHorario dataISO (op_value o)) l = false.
Proof.
  intros Harm Hops Ho Hd.
  destruct (el_hora (documento st)) as [ops0|] eqn:Hel.
  2:{ unfold atualizarListaDeHorarios in Hops. rewrite Hel in Hops.
      cbn in Hops. congruence. }
  destruct dataISO as [|c s].
  { unfold atualizarListaDeHorarios in Hops. rewrite Hel in Hops. cbn in Hops.
    injection Hops as <-. destruct Ho as [<-|[]]. cbn in Hd. discriminate. }
  destruct (dataEstaDentroDoPeriodoPermitido (c :: s)) eqn:Hp.
  2:{ unfold atualizarListaDeHorarios in Hops. rewrite Hel, Hp in Hops. cbn in Hops.
      injection Hops as <-. destruct Ho as [<-|[]]. cbn in Hd. discriminate. }
  destruct (ehDomingo (c :: s)) eqn:Hs.
  { unfold atualizarListaDeHorarios in Hops. rewrite Hel, Hp, Hs in Hops. cbn in Hops.
    injection Hops as <-. destruct Ho as [<-|[]]. cbn in Hd. discriminate. }
  assert (Hne : c :: s <> []) by discriminate.
  rewrite (atualizarListaDeHorarios_valor _ _ _ _ Harm Hel Hne Hp Hs) in Hops.
  cbn [snd documento comDocumento comMensagem comOpcoes el_hora] in Hops.
  assert (E : ops = map (opcaoDoHorario l (c :: s)) LISTA_DE_HORARIOS_FIXOS)
    by congruence.
  rewrite E in Ho. clear E Hops.
  apply in_map_iff in Ho. destruct Ho as (h & <- & Hh).
  cbn [op_disabled op_value opcaoDoHorario] in *.
  repeat split; assumption.
Qed.

(** X8. An hour the select offers enabled can be booked: when
    [atualizarListaDeHorarios] for the date of the form leaves an enabled
    option, a form with that date and the hour of the option, a name and a
    phone passes every check of the submit handler and is stored. *)
Theorem opcao_habilitada_e_aceita {plat : Plataforma} (st : Estado)
        (l : list Agendamento) (f : Formulario) (ops : list Opcao) (o : Opcao) :
  armazena (localStorage st) l ->
  el_hora (documento (snd (atualizarListaDeHorarios (valorDoCampo (f_data f)) st)))
  = Some ops ->
  In o ops -> op_disabled o = false ->
  valorDoCampo (f_hora f) = op_value o ->
  valorDoCampo (f_nome f) <> [] -> valorDoCampo (f_telefone f) <> [] ->
  let r := aoEnviarFormulario f st in
  fst r = Retorna tt
  /\ armazena (localStorage (snd r)) (l ++ [pedido f])
  /\ alertas (snd r) = alertas st ++ [AlertaSalvo].
Proof.
  intros Harm Hops Ho Hd Hh Hn Ht.
  destruct (atualizarListaDeHorarios_opcoes _ _ _ _ _ Harm Hops Ho Hd)
    as (Hdt & Hp & Hs & Hin & Hoc).
  apply aoEnviarFormulario_aceita; [exact Harm|].
  unfold primeiraFalha, camposFaltando, ocupadoEm.
  rewrite (vazio_false _ Hn), (vazio_false _ Ht), (vazio_false _ Hdt).
  rewrite Hh, (vazio_false _ (horario_fixo_nao_vazio _ Hin)).
  cbn [orb]. rewrite Hp, Hs, Hoc. reflexivity.
Qed.

(** X9. An hour of the fixed list that can be booked is offered enabled:
    when a form passes every check and its hour is one of the fixed hours,
    [atualizarListaDeHorarios] for its date leaves an enabled option with
    that hour. *)
Theorem horario_aceito_e_oferecido {plat : Plataforma} (st : Estado)
        (l : list Agendamento) (f : Formulario) (ops0 : list Opcao) :
  armazena (localStorage st) l ->
  el_hora (documento st) = Some ops0 ->
  primeiraFalha f (ocupadoEm l f) = None ->
  In (valorDoCampo (f_hora f)) LISTA_DE_HORARIOS_FIXOS ->
  exists ops o,
    el_hora (documento (snd (atualizarListaDeHorarios (valorDoCampo (f_data f)) st)))
    = Some ops
    /\ In o ops /\ op_value o = valorDoCampo (f_hora f) /\ op_disabled o = false.
Proof.
  intros Harm Hel Hf Hin.
  unfold primeiraFalha, camposFaltando in Hf.
  destruct (vazio (valorDoCampo (f_nome f))); [discriminate|].
  destruct (vazio (valorDoCampo (f_telefone f))); [discriminate|].
  destruct (vazio (valorDoCampo (f_data f))) eqn:Hv; [discriminate|].
  destruct (vazio (valorDoCampo (f_hora f))); [discriminate|]. cbn [orb] in Hf.
  destruct (dataEstaDentroDoPeriodoPermitido (valorDoCampo (f_data f))) eqn:Hp;
    [|discriminate]. cbn [negb] in Hf.
  destruct (ehDomingo (valorDoCampo (f_data f))) eqn:Hs; [discriminate|].
  destruct (ocupadoEm l f) eqn:Ho; [discriminate|].
  assert (Hd : valorDoCampo (f_data f) <> []).
  { intros E. rewrite E in Hv. discriminate. }
  rewrite (atualizarListaDeHorarios_valor _ _ _ _ Harm Hel Hd Hp Hs).
  cbn [snd documento comDocumento comMensagem comOpcoes el_hora].
  eexists. exists (opcaoDoHorario l (valorDoCampo (f_data f)) (valorDoCampo (f_hora f))).
  split; [reflexivity|]. split; [apply in_map; exact Hin|].
  split; [reflexivity|]. exact Ho.
Qed.

(* ================================================================== *)
(** * A submission that is accepted *)
(* ================================================================== *)

Lemma primeiraFalha_nenhuma {plat : Plataforma} (f : Formulario) (b : bool) :
  primeiraFalha f b = None ->
  valorDoCampo (f_nome f) <> [] /\ valorDoCampo (f_telefone f) <> []
  /\ valorDoCampo (f_data f) <> [] /\ valorDoCampo (f_hora f) <> []
  /\ dataEstaDentroDoPeriodoPermitido (valorDoCampo (f_data f)) = true
  /\ ehDomingo (valorDoCampo (f_data f)) = false
  /\ b = false.
Proof.
  unfold primeiraFalha, camposFaltando. intros H.
  destruct (valorDoCampo (f_nome f)); [discriminate|].
  destruct (valorDoCampo (f_telefone f)); [discriminate|].
  destruct (valorDoCampo (f_data f)) eqn:Hd; [discriminate|].
  destruct (valorDoCampo (f_hora f)); [discriminate|].
  cbn [vazio orb] in H.
  destruct (dataEstaDentroDoPeriodoPermitido (u1 :: j1)); [|discriminate].
  destruct (ehDomingo (u1 :: j1)); [discriminate|].
  destruct b; [discriminate|].
  repeat split; discriminate.
Qed.

Lemma ocupadoEm_pedido (l : list Agendamento) (f : Formulario) :
  ocupadoEm (l ++ [pedido f]) f = true.
Proof.
  unfold ocupadoEm. rewrite existsb_app. cbn [existsb].
  unfold mesmoHorario at 2. cbn [pedido data hora].
  rewrite !jsstring_eqb_refl. cbn. apply orb_true_r.
Qed.

(** X10. A submission that passes the four checks is stored: the handler
    returns, the list read back from the storage is the list held before
    with the new record at its end, the one message shown is that of
    success, and the occupancy check for its date and hour is true from
    then on. *)
Theorem aoEnviarFormulario_salva {plat : Plataforma} (f : Formulario) (st : Estado)
        (l : list Agendamento) :
  armazena (localStorage st) l ->
  primeiraFalha f (ocupadoEm l f) = None ->
  let r := aoEnviarFormulario f st in
  fst r = Retorna tt
  /\ pegarListaDeAgendamentos (localStorage (snd r))
     = JArr (map registro l
             ++ [novoAgendamento (valorDoCampo (f_nome f)) (valorDoCampo (f_telefone f))
                   (valorDoCampo (f_servico f)) (valorDoCampo (f_data f))
                   (valorDoCampo (f_hora f))])
  /\ alertas (snd r) = alertas st ++ [AlertaSalvo]
  /\ horarioEstaOcupado (localStorage (snd r)) (valorDoCampo (f_data f))
       (valorDoCampo (f_hora f)) = Retorna true.
Proof.
  intros Harm Hf.
  destruct (aoEnviarFormulario_aceita f st l Harm Hf) as (H1 & H2 & H3).
  cbn zeta. repeat split; try assumption.
  - rewrite H2, map_app. reflexivity.
  - rewrite (horarioEstaOcupado_armazena _ _ _ _ H2).
    f_equal. exact (ocupadoEm_pedido l f).
Qed.

(** X11. Submitting the same form twice stores at most one appointment: on
    a storage that holds a list of appointments, the storage after two
    submissions of a form is the storage after one. *)
Theorem aoEnviarFormulario_duas_vezes {plat : Plataforma} (f : Formulario)
        (st : Estado) (l : list Agendamento) :
  armazena (localStorage st) l ->
  localStorage (submeter [f; f] st) = localStorage (submeter [f] st).
Proof.
  intros Harm. cbn [submeter].
  destruct (primeiraFalha f (ocupadoEm l f)) as [a|] eqn:Hf.
  - destruct (aoEnviarFormulario_recusa f st l a Harm Hf) as (_ & Hs & _).
    assert (Harm' : armazena (localStorage (snd (aoEnviarFormulario f st))) l).
    { unfold armazena. rewrite Hs. exact Harm. }
    destruct (aoEnviarFormulario_recusa f _ l a Harm' Hf) as (_ & Hs' & _).
    exact Hs'.
  - destruct (aoEnviarFormulario_aceita f st l Harm Hf) as (_ & Harm' & _).
    destruct (primeiraFalha_nenhuma f _ Hf) as (Hn & Ht & Hd & Hh & Hp & Hdom & _).
    assert (Hf' : primeiraFalha f (ocupadoEm (l ++ [pedido f]) f)
                  = Some AlertaHorarioOcupado).
    { rewrite ocupadoEm_pedido. unfold primeiraFalha, camposFaltando.
      rewrite (vazio_false _ Hn), (vazio_false _ Ht), (vazio_false _ Hd),
        (vazio_false _ Hh), Hp, Hdom. reflexivity. }
    destruct (aoEnviarFormulario_recusa f _ _ _ Harm' Hf') as (_ & Hs' & _).
    exact Hs'.
Qed.

(** X12. A submission touches no item of the storage but that of the
    appointments: in every state and for every form, the item of any other
    key is after the handler what it was before. *)
Theorem aoEnviarFormulario_outras_chaves {plat : Plataforma} (f : Formulario)
        (st : Estado) (k : jsstring) :
  k <> CHAVE_ARMAZENAMENTO ->
  getItem (localStorage (snd (aoEnviarFormulario f st))) k = getItem (localStorage st) k.
Proof.
  intros Hk. unfold aoEnviarFormulario. cbn zeta.
  destruct (_ || _); [reflexivity|].
  destruct (negb _); [reflexivity|].
  destruct (ehDomingo _); [reflexivity|].
  destruct (horarioEstaOcupado _ _ _) as [[|]|e]; [| |reflexivity].
  - pose proof (atualizarListaDeHorarios_conserva (valorDoCampo (f_data f))
                  (alert AlertaHorarioOcupado st)) as Hc.
    cbn zeta in Hc. destruct Hc as (H1 & _). rewrite H1. reflexivity.
  - destruct (Array_push _ _) as [listaAtual|e]; [|reflexivity].
    match goal with
    | |- context [atualizarListaDeHorarios ?d ?s] =>
        pose proof (atualizarListaDeHorarios_conserva d s) as Hc
    end.
    cbn zeta in Hc. destruct Hc as (H1 & _). rewrite H1.
    cbn [localStorage alert comStorage]. unfold salvarListaDeAgendamentos.
    apply getItem_setItem_outro. exact Hk.
Qed.

Lemma aoEnviarFormulario_aceita_valor {plat : Plataforma} (f : Formulario) (st : Estado)
      (l : list Agendamento) :
  armazena (localStorage st) l ->
  primeiraFalha f (ocupadoEm l f) = None ->
  aoEnviarFormulario f st
  = atualizarListaDeHorarios (valorDoCampo (f_data f))
      (alert AlertaSalvo
         (comStorage
            (salvarListaDeAgendamentos (JArr (map registro (l ++ [pedido f])))
               (localStorage st)) st)).
Proof.
  intros Harm Hf. unfold primeiraFalha, camposFaltando in Hf.
  unfold aoEnviarFormulario. cbn zeta.
  destruct (vazio (valorDoCampo (f_nome f)) || vazio (valorDoCampo (f_telefone f))
            || vazio (valorDoCampo (f_data f)) || vazio (valorDoCampo (f_hora f)));
    [discriminate|].
  destruct (negb (dataEstaDentroDoPeriodoPermitido (valorDoCampo (f_data f))));
    [discriminate|].
  destruct (ehDomingo (valorDoCampo (f_data f))); [discriminate|].
  rewrite (horarioEstaOcupado_armazena _ _ _ _ Harm).
  fold (ocupadoEm l f). destruct (ocupadoEm l f); [discriminate|].
  rewrite Harm. cbn [Array_push].
  rewrite map_app. reflexivity.
Qed.

(** X13. After a submission that is accepted the select shows the state of
    the day: on a page that has the select, its options are those of the
    date of the form for the list with the new appointment, and the option
    of the hour just booked, when the hour is one of the fixed hours, is
    disabled. *)
Theorem aoEnviarFormulario_atualiza_horarios {plat : Plataforma} (f : Formulario)
        (st : Estado) (l : list Agendamento) (ops0 : list Opcao) :
  armazena (localStorage st) l ->
  el_hora (documento st) = Some ops0 ->
  primeiraFalha f (ocupadoEm l f) = None ->
  let r := aoEnviarFormulario f st in
  let ops := map (opcaoDoHorario (l ++ [pedido f]) (valorDoCampo (f_data f)))
               LISTA_DE_HORARIOS_FIXOS in
  el_hora (documento (snd r)) = Some ops
  /\ (forall o, In o ops -> op_value o = valorDoCampo (f_hora f) ->
        op_disabled o = true)
  /\ (forall o, In o ops -> op_value o <> valorDoCampo (f_hora f) ->
        op_disabled o = existsb (mesmoHorario (valorDoCampo (f_data f)) (op_value o)) l).
Proof.
  intros Harm Hel Hf r ops. subst r ops.
  rewrite (aoEnviarFormulario_aceita_valor f st l Harm Hf).
  destruct (primeiraFalha_nenhuma f _ Hf) as (_ & _ & Hd & _ & Hp & Hdom & _).
  erewrite atualizarListaDeHorarios_valor; try eassumption.
  2:{ cbn. apply armazena_salvar. }
  cbn [snd documento comDocumento comMensagem comOpcoes el_hora].
  split; [reflexivity|]. split.
  - intros o Ho Hv. apply in_map_iff in Ho. destruct Ho as (h & <- & _).
    cbn [op_value opcaoDoHorario] in Hv. subst h.
    cbn [op_disabled opcaoDoHorario]. exact (ocupadoEm_pedido l f).
  - intros o Ho Hv. apply in_map_iff in Ho. destruct Ho as (h & <- & _).
    cbn [op_value op_disabled opcaoDoHorario] in *.
    rewrite existsb_app. cbn [existsb]. unfold mesmoHorario at 2.
    cbn [pedido data hora].
    destruct (jsstring_eqb (valorDoCampo (f_hora f)) h) eqn:E.
    + apply jsstring_eqb_eq in E. congruence.
    + rewrite andb_false_r. cbn. apply orb_false_r.
Qed.

(* ================================================================== *)
(** * What the handlers leave alone *)
(* ================================================================== *)

Lemma reagir_conserva {plat : Plataforma} (e : Evento) (st : Estado) :
  (forall f, e <> EvEnviar f) ->
  localStorage (snd (reagir e st)) = localStorage st
  /\ alertas (snd (reagir e st)) = alertas st.
Proof.
  intros He. destruct e as [f|valor|delta|dataISO]; cbn [reagir].
  - destruct (He f eq_refl).
  - destruct (atualizarListaDeHorarios_conserva valor st) as (H1 & H2 & _). auto.
  - destruct (mudarMesAtual_conserva delta st) as (H1 & H2). auto.
  - destruct (mostrarDetalhesDoDia_conserva dataISO st) as (H1 & H2 & _). auto.
Qed.

Lemma aoMudarStorage_conserva {plat : Plataforma} (chave : option jsstring) (st : Estado) :
  let st' := snd (aoMudarStorage chave st) in
  localStorage st' = localStorage st
  /\ alertas st' = alertas st
  /\ mesAtualExibido st' = mesAtualExibido st.
Proof.
  unfold aoMudarStorage. destruct chave as [k|]; [|cbn; auto].
  destruct (jsstring_eqb k CHAVE_ARMAZENAMENTO); [|cbn; auto].
  pose proof (mostrarCalendarioAdministrador_conserva st) as Hc. cbn zeta in Hc.
  destruct (mostrarCalendarioAdministrador st) as [[[]|e] st1]; cbn [snd] in *;
    [|exact Hc].
  destruct (el_day_details (documento st1)) as [caixa|]; [|exact Hc].
  destruct (cx_data caixa) as [[|c r]|]; try exact Hc.
  pose proof (mostrarDetalhesDoDia_conserva (c :: r) st1) as Hd. cbn zeta in Hd.
  destruct Hc as (A1 & A2 & A3), Hd as (B1 & B2 & B3).
  rewrite B1, B2, B3. auto.
Qed.

(** X14. Only the submission of the form writes: changing the date of the
    form, moving between months, opening a day, a click on a cell of the
    calendar and the listener of the storage event leave the storage and the
    alerts shown as they were, whatever the state. *)
Theorem so_o_envio_grava {plat : Plataforma} (st : Estado) :
  (forall e, (forall f, e <> EvEnviar f) ->
     localStorage (snd (reagir e st)) = localStorage st
     /\ alertas (snd (reagir e st)) = alertas st)
  /\ (forall chave,
        localStorage (snd (aoMudarStorage chave st)) = localStorage st
        /\ alertas (snd (aoMudarStorage chave st)) = alertas st)
  /\ (forall c,
        localStorage (snd (aoClicarNoDia c st)) = localStorage st
        /\ alertas (snd (aoClicarNoDia c st)) = alertas st).
Proof.
  split; [|split].
  - intros e He. apply reagir_conserva. exact He.
  - intros chave. destruct (aoMudarStorage_conserva chave st) as (H1 & H2 & _). auto.
  - intros [iso|iso d n]; cbn [aoClicarNoDia snd]; [auto|].
    destruct (mostrarDetalhesDoDia_conserva iso st) as (H1 & H2 & _). auto.
Qed.

(* ================================================================== *)
(** * The appointments of a page that is in use *)
(* ================================================================== *)

Lemma validado_pedido {plat : Plataforma} (f : Formulario) (b : bool) :
  primeiraFalha f b = None -> validado (pedido f).
Proof.
  intros H. destruct (primeiraFalha_nenhuma f b H) as (A & B & C & D & E & F & _).
  unfold validado. cbn [pedido nome telefone data hora]. auto 8.
Qed.

(** X15. Every appointment a page in use has stored passed the checks of
    the form: in every state reached from the empty storage, the storage
    holds a list of appointments without conflicts in which every
    appointment has a name, a phone, a date and an hour that are not empty,
    and a date that is in the allowed period and is not a Sunday. *)
Theorem alcancavel_validados {plat : Plataforma} (st : Estado) :
  alcancavel st ->
  exists l, armazena (localStorage st) l /\ semConflito l /\ Forall validado l.
Proof.
  induction 1 as [d|e st Hst IH|d st Hst IH].
  - exists []. split; [reflexivity|]. split; constructor.
  - destruct IH as (l & Harm & Hl & Hv).
    destruct e as [f|valor|delta|dataISO].
    + cbn [reagir].
      destruct (primeiraFalha f (ocupadoEm l f)) as [a|] eqn:Hf.
      * destruct (aoEnviarFormulario_recusa f st l a Harm Hf) as (_ & Hs & _).
        exists l. unfold armazena. rewrite Hs. auto.
      * destruct (aoEnviarFormulario_aceita f st l Harm Hf) as (_ & Hs & _).
        exists (l ++ [pedido f]). split; [exact Hs|]. split.
        -- apply semConflito_acrescenta; [exact Hl|].
           destruct (primeiraFalha_nenhuma f _ Hf) as (_ & _ & _ & _ & _ & _ & E).
           exact E.
        -- apply Forall_app. split; [exact Hv|].
           constructor; [|constructor]. exact (validado_pedido f _ Hf).
    + exists l. unfold armazena.
      rewrite (proj1 (reagir_conserva (EvMudarData valor) st ltac:(discriminate))). auto.
    + exists l. unfold armazena.
      rewrite (proj1 (reagir_conserva (EvMudarMes delta) st ltac:(discriminate))). auto.
    + exists l. unfold armazena.
      rewrite (proj1 (reagir_conserva (EvAbrirDia dataISO) st ltac:(discriminate))). auto.
  - exact IH.
Qed.

(* ================================================================== *)
(** * The number of days of a month *)
(* ================================================================== *)

Lemma diasNoMes_limites (y m : Z) : 28 <= diasNoMes y m <= 31.
Proof.
  unfold diasNoMes. ramificar; lia.
Qed.

(** Day 0 of a month is the last day of the month before. *)
Lemma MakeDay_dia_zero (y m : Z) :
  1 <= m <= 12 -> MakeDay y m 0 = MakeDay y (m - 1) (diasNoMes y m).
Proof.
  intros Hm. rewrite MakeDay_civil by exact Hm.
  destruct (Z.eq_dec m 12) as [->|Hn].
  - unfold MakeDay. change (12 / 12) with 1. change (12 mod 12) with 0.
    rewrite DayFromYear_seguinte. unfold DaysInYear, diasAntesDoMes, diasNoMes.
    destruct (anoBissexto y); mes_conhecido; lia.
  - unfold MakeDay.
    replace (m / 12) with 0 by divisoes.
    replace (m mod 12) with m by divisoes.
    replace (y + 0) with y by lia.
    unfold diasAntesDoMes, diasNoMes.
    assert (Hm' : 1 <= m <= 11) by lia. clear Hm Hn.
    assert (Hc : m = 1 \/ m = 2 \/ m = 3 \/ m = 4 \/ m = 5 \/ m = 6 \/ m = 7 \/ m = 8
                 \/ m = 9 \/ m = 10 \/ m = 11) by lia.
    destruct (anoBissexto y);
      repeat (destruct Hc as [Hc|Hc]; [subst m; mes_conhecido; lia|]);
      subst m; mes_conhecido; lia.
Qed.

Lemma getDate_dia_zero (y mes : Z) :
  0 <= y <= 9999 -> 0 <= mes <= 11 ->
  getDate (Date_de_componentes y (mes + 1) 0) = Some (diasNoMes y (mes + 1)).
Proof.
  intros Hy Hm. unfold Date_de_componentes.
  rewrite MakeDay_dia_zero by lia.
  pose proof (diasNoMes_limites y (mes + 1)) as Hd.
  pose proof (MakeDay_limites y (mes + 1) (diasNoMes y (mes + 1)) Hy ltac:(lia) ltac:(lia))
    as Hl.
  unfold TimeClip.
  destruct (Z.leb_spec (Z.abs (MakeDate (MakeDay y (mes + 1 - 1) (diasNoMes y (mes + 1))) 0))
              8640000000000000) as [_|Hgt].
  2:{ unfold MakeDate, msPerDay in Hgt. lia. }
  cbn [getDate option_map]. f_equal.
  apply (campos_da_data y (mes + 1) (diasNoMes y (mes + 1)) 0); unfold msPerDay; lia.
Qed.

(** X16. The number of days the calendar runs over is that of the month:
    for every month of a year from 100 to 9999, the day of the month of
    [new Date(year, month + 1, 0)] is the number of days of that month, 29
    for the February of a leap year. *)
Theorem totalDias_do_mes (y mes : Z) :
  100 <= y <= 9999 -> 0 <= mes <= 11 ->
  getDate (Date_de_componentes y (mes + 1) 0) = Some (diasNoMes y (mes + 1)).
Proof. intros Hy Hm. apply getDate_dia_zero; lia. Qed.

(* ================================================================== *)
(** * The calendar of the administration panel *)
(* ================================================================== *)

Lemma ehDomingo_civil {plat : Plataforma} (y m d : Z) :
  dataCivil y m d -> ehDomingo (dataISO_de y m d) = (diaDaSemanaZeller y m d =? 0).
Proof.
  intros Hc. pose proof (dataCivil_campos y m d Hc) as (Hy & Hm & Hd).
  rewrite ehDomingo_valor, Date_de_texto_dataISO by assumption.
  destruct Hc as (_ & _ & Hd').
  destruct (campos_da_data y m d 0 Hm Hd' ltac:(unfold msPerDay; lia))
    as (_ & _ & _ & Ew).
  rewrite Ew, MakeDay_Zeller by exact Hm. reflexivity.
Qed.

Lemma dataEstaDentroDoPeriodoPermitido_civil {plat : Plataforma} (y m d : Z) :
  dataCivil y m d ->
  dataEstaDentroDoPeriodoPermitido (dataISO_de y m d) = (y =? 2025) && (10 <=? m).
Proof.
  intros Hc. pose proof (dataCivil_campos y m d Hc) as (Hy & Hm & Hd).
  rewrite dataEstaDentroDoPeriodoPermitido_valor.
  rewrite Date_de_texto_dataISO by assumption.
  destruct Hc as (_ & _ & Hd').
  destruct (campos_da_data y m d 0 Hm Hd' ltac:(unfold msPerDay; lia))
    as (Ey & Em & _).
  rewrite Ey, Em.
  destruct (Z.eqb_spec y 2025); destruct (Z.leb_spec 9 (m - 1));
    destruct (Z.leb_spec (m - 1) 11); destruct (Z.leb_spec 10 m);
    cbn; try reflexivity; lia.
Qed.

Lemma padStart_doisDigitos (n : Z) :
  0 <= n <= 99 -> padStart 2 (textoDeInteiro n) = doisDigitos n.
Proof.
  intros Hn.
  assert (H : forallb (fun k => jsstring_eqb (padStart 2 (textoDeInteiro k)) (doisDigitos k))
                (map Z.of_nat (seq 0 100)) = true) by (vm_compute; reflexivity).
  rewrite forallb_forall in H. apply jsstring_eqb_eq. apply H.
  apply in_map_iff. exists (Z.to_nat n). split; [lia|]. apply in_seq. lia.
Qed.

Lemma filtrar_registros (l : list Agendamento) (dataISO : jsstring) :
  filtrar (fun it => d <- campo it (js "data") ;; Retorna (igualEstritoTexto d dataISO))
    (map registro l)
  = Retorna (map registro (filter (fun a => jsstring_eqb (data a) dataISO) l)).
Proof.
  induction l as [|a l IH]; [reflexivity|].
  cbn [map filtrar filter]. rewrite campo_registro_data. cbn [ligar igualEstritoTexto].
  rewrite IH. cbn [ligar].
  destruct (jsstring_eqb (data a) dataISO); reflexivity.
Qed.

Lemma celulaDoDia_valor {plat : Plataforma} (l : list Agendamento) (mes dia : Z) :
  9 <= mes <= 11 -> 1 <= dia <= diasNoMes ANO_PERMITIDO (mes + 1) ->
  celulaDoDia (JArr (map registro l)) ANO_PERMITIDO mes dia
  = Retorna (celulaEsperada l (mes + 1) dia).
Proof.
  intros Hm Hd. pose proof (diasNoMes_limites ANO_PERMITIDO (mes + 1)) as Hl.
  unfold celulaDoDia. cbv zeta.
  rewrite !padStart_doisDigitos by lia.
  change (textoDeInteiro ANO_PERMITIDO) with (quatroDigitos ANO_PERMITIDO).
  fold (dataISO_de ANO_PERMITIDO (mes + 1) dia).
  fold (ehDomingo (dataISO_de ANO_PERMITIDO (mes + 1) dia)).
  rewrite ehDomingo_civil
    by (unfold dataCivil, ANO_PERMITIDO in *; lia).
  unfold celulaEsperada. cbv zeta.
  destruct (diaDaSemanaZeller ANO_PERMITIDO (mes + 1) dia =? 0); [reflexivity|].
  cbn [Array_filter]. rewrite filtrar_registros. cbn [ligar].
  rewrite length_map. reflexivity.
Qed.

Lemma paraCada_map {A B} (f : A -> Resultado B) (g : A -> B) (l : list A) :
  (forall x, In x l -> f x = Retorna (g x)) -> paraCada f l = Retorna (map g l).
Proof.
  induction l as [|x l IH]; intros H; [reflexivity|].
  cbn [paraCada map]. rewrite (H x (or_introl eq_refl)). cbn [ligar].
  rewrite IH by (intros y Hy; apply H; right; exact Hy). reflexivity.
Qed.

Lemma diasAte_In (n x : Z) : In x (diasAte n) <-> 1 <= x <= n.
Proof.
  unfold diasAte. rewrite in_map_iff. split.
  - intros (k & <- & Hk). apply in_seq in Hk. lia.
  - intros Hx. exists (Z.to_nat x). split; [lia|]. apply in_seq. lia.
Qed.

Lemma mostrarCalendarioAdministrador_valor {plat : Plataforma} (st : Estado)
      (l : list Agendamento) (c0 : option Calendario) :
  armazena (localStorage st) l ->
  el_calendar (documento st) = Some c0 ->
  9 <= mesAtualExibido st <= 11 ->
  mostrarCalendarioAdministrador st
  = (Retorna tt,
     comDocumento (comCalendario (calendarioEsperado l (mesAtualExibido st))
                     (documento st)) st).
Proof.
  intros Harm Hel Hm. unfold mostrarCalendarioAdministrador. rewrite Hel. cbv zeta.
  rewrite getDate_dia_zero by (unfold ANO_PERMITIDO; lia).
  rewrite Harm.
  rewrite (paraCada_map _ (celulaEsperada l (mesAtualExibido st + 1))).
  - reflexivity.
  - intros dia Hd. apply diasAte_In in Hd. apply celulaDoDia_valor; assumption.
Qed.

(** X17. The calendar drawn for an allowed month on a storage that holds a
    list of appointments has one cell for each day of that month of 2025, in
    order (31, 30 and 31 cells): the cell of a Sunday (Zeller's congruence)
    is a placeholder, the cell of any other day carries the date written
    YYYY-MM-DD, the day and the number of appointments stored for that
    date. *)
Theorem mostrarCalendarioAdministrador_celulas {plat : Plataforma} (st : Estado)
        (l : list Agendamento) (c0 : option Calendario) :
  armazena (localStorage st) l ->
  el_calendar (documento st) = Some c0 ->
  9 <= mesAtualExibido st <= 11 ->
  let r := mostrarCalendarioAdministrador st in
  let m := mesAtualExibido st + 1 in
  fst r = Retorna tt
  /\ exists cal,
       el_calendar (documento (snd r)) = Some (Some cal)
       /\ cal_celulas cal
          = map (celulaEsperada l m) (diasAte (diasNoMes ANO_PERMITIDO m))
       /\ List.length (cal_celulas cal) = Z.to_nat (diasNoMes ANO_PERMITIDO m)
       /\ (forall d, 1 <= d <= diasNoMes ANO_PERMITIDO m ->
             nth_error (cal_celulas cal) (Z.to_nat (d - 1))
             = Some (celulaEsperada l m d)).
Proof.
  intros Harm Hel Hm r m. subst r m.
  rewrite (mostrarCalendarioAdministrador_valor st l c0 Harm Hel Hm).
  cbn [fst snd documento comDocumento comCalendario el_calendar].
  split; [reflexivity|]. eexists. split; [reflexivity|].
  cbn [cal_celulas calendarioEsperado]. split; [reflexivity|]. split.
  - unfold diasAte. rewrite !length_map, length_seq. reflexivity.
  - intros d Hd. unfold diasAte. rewrite !nth_error_map.
    rewrite nth_error_seq.
    destruct (Nat.ltb_spec (Z.to_nat (d - 1)) (Z.to_nat (diasNoMes ANO_PERMITIDO
                (mesAtualExibido st + 1)))) as [_|Hge]; [|lia].
    cbn [option_map]. do 2 f_equal. lia.
Qed.

(* ================================================================== *)
(** * The details of a day *)
(* ================================================================== *)

Lemma inserirOrdenado_map {A B} (f : A -> B) (cmp : B -> B -> Z) (x : A) (l : list A) :
  inserirOrdenado cmp (f x) (map f l)
  = map f (inserirOrdenado (fun a b => cmp (f a) (f b)) x l).
Proof.
  induction l as [|y l IH]; [reflexivity|].
  cbn [map inserirOrdenado]. destruct (cmp (f x) (f y) <=? 0); [reflexivity|].
  rewrite IH. reflexivity.
Qed.

Lemma Array_sort_map {A B} (f : A -> B) (cmp : B -> B -> Z) (l : list A) :
  Array_sort cmp (map f l) = map f (Array_sort (fun a b => cmp (f a) (f b)) l).
Proof.
  induction l as [|x l IH]; [reflexivity|].
  cbn [map Array_sort]. rewrite IH. apply inserirOrdenado_map.
Qed.

Lemma listaDoDia_armazena (ls : Storage) (l : list Agendamento) (dataISO : jsstring) :
  armazena ls l ->
  listaDoDia ls dataISO = Retorna (map registro (agendamentosOrdenados l dataISO)).
Proof.
  intros Harm. unfold listaDoDia.
  rewrite (agendamentosDoDia_armazena _ _ _ Harm). cbn [ligar].
  rewrite Array_sort_map. reflexivity.
Qed.

Lemma mostrarDetalhesDoDia_valor (st : Estado) (l : list Agendamento)
      (caixa : CaixaDeDetalhes) (dataISO : jsstring) :
  armazena (localStorage st) l ->
  el_day_details (documento st) = Some caixa ->
  mostrarDetalhesDoDia dataISO st
  = (Retorna tt,
     comDocumento (comDetalhes (caixaEsperada l dataISO) (documento st)) st).
Proof.
  intros Harm Hel. unfold mostrarDetalhesDoDia. rewrite Hel.
  rewrite (listaDoDia_armazena _ _ _ Harm).
  unfold caixaEsperada, detalhesEsperados.
  destruct (agendamentosOrdenados l dataISO) as [|a r]; [reflexivity|].
  cbn [map]. rewrite map_map. reflexivity.
Qed.



(* ================================================================== *)
(** * The calendar and the details together *)
(* ================================================================== *)



(* ================================================================== *)
(** * The month displayed *)
(* ================================================================== *)

Lemma aoEnviarFormulario_mes {plat : Plataforma} (f : Formulario) (st : Estado) :
  mesAtualExibido (snd (aoEnviarFormulario f st)) = mesAtualExibido st.
Proof.
  unfold aoEnviarFormulario. cbn zeta.
  destruct (_ || _); [reflexivity|].
  destruct (negb _); [reflexivity|].
  destruct (ehDomingo _); [reflexivity|].
  destruct (horarioEstaOcupado _ _ _) as [[|]|e]; [| |reflexivity].
  - match goal with
    | |- context [atualizarListaDeHorarios ?d ?s] =>
        destruct (atualizarListaDeHorarios_conserva d s) as (_ & _ & H)
    end. rewrite H. reflexivity.
  - destruct (Array_push _ _) as [listaAtual|e]; [|reflexivity].
    match goal with
    | |- context [atualizarListaDeHorarios ?d ?s] =>
        destruct (atualizarListaDeHorarios_conserva d s) as (_ & _ & H)
    end. rewrite H. reflexivity.
Qed.

(** X20. The month displayed is always an allowed month: in every state
    reached from the loading of the page, by any submissions, changes of
    date, calls of [mudarMesAtual] with any number and openings of days,
    [mesAtualExibido] is 9, 10 or 11. *)
Theorem alcancavel_mes_permitido {plat : Plataforma} (st : Estado) :
  alcancavel st -> In (mesAtualExibido st) MESES_PERMITIDOS.
Proof.
  induction 1 as [d|e st Hst IH|d st Hst IH].
  - cbn. auto.
  - destruct e as [f|valor|delta|dataISO]; cbn [reagir].
    + rewrite aoEnviarFormulario_mes. exact IH.
    + destruct (atualizarListaDeHorarios_conserva valor st) as (_ & _ & H).
      rewrite H. exact IH.
    + rewrite mudarMesAtual_mes.
      destruct (includesNumero MESES_PERMITIDOS (mesAtualExibido st + delta)) eqn:E;
        [|exact IH].
      rewrite includesNumero_MESES_PERMITIDOS in E.
      apply andb_prop in E. destruct E as [E1 E2].
      apply Z.leb_le in E1, E2. unfold MESES_PERMITIDOS. cbn [In]. lia.
    + destruct (mostrarDetalhesDoDia_conserva dataISO st) as (_ & _ & H).
      rewrite H. exact IH.
  - cbn. auto.
Qed.

Lemma MESES_PERMITIDOS_limites (m : Z) : In m MESES_PERMITIDOS <-> 9 <= m <= 11.
Proof. unfold MESES_PERMITIDOS. cbn [In]. lia. Qed.

(** X21. [mudarMesAtual] draws the calendar of the month it moves to: on a
    page that has the calendar and a storage that holds a list of
    appointments, when the sum is an allowed month the call returns and the
    calendar shown is that of the new month, one cell for each of its days;
    the label of the month, when the page has one, is set from the same
    date as the title. *)
Theorem mudarMesAtual_redesenha {plat : Plataforma} (delta : Z) (st : Estado)
        (l : list Agendamento) (c0 : option Calendario) :
  armazena (localStorage st) l ->
  el_calendar (documento st) = Some c0 ->
  In (mesAtualExibido st + delta) MESES_PERMITIDOS ->
  let novo := mesAtualExibido st + delta in
  let r := mudarMesAtual delta st in
  fst r = Retorna tt
  /\ mesAtualExibido (snd r) = novo
  /\ el_calendar (documento (snd r)) = Some (Some (calendarioEsperado l novo))
  /\ List.length (cal_celulas (calendarioEsperado l novo))
     = Z.to_nat (diasNoMes ANO_PERMITIDO (novo + 1))
  /\ (forall t, el_nome_do_mes (documento st) = Some t ->
        el_nome_do_mes (documento (snd r))
        = Some (Some (Date_de_componentes ANO_PERMITIDO novo 1))).
Proof.
  intros Harm Hel Hin novo r. subst novo r.
  pose proof (proj1 (MESES_PERMITIDOS_limites _) Hin) as Hm.
  unfold mudarMesAtual. cbv zeta.
  rewrite includesNumero_MESES_PERMITIDOS.
  replace ((9 <=? mesAtualExibido st + delta) && (mesAtualExibido st + delta <=? 11))
    with true by (symmetry; apply andb_true_intro; split; apply Z.leb_le; lia).
  rewrite (mostrarCalendarioAdministrador_valor _ l c0); try assumption.
  cbn [fst snd documento comDocumento comCalendario comMes el_calendar el_nome_do_mes
       mesAtualExibido cal_titulo calendarioEsperado cal_celulas].
  repeat split.
  - unfold diasAte. rewrite !length_map, length_seq. reflexivity.
  - intros t ->. reflexivity.
Qed.

(* ================================================================== *)
(** * Drawing again *)
(* ================================================================== *)

(** X22. Drawing is idempotent: calling [atualizarListaDeHorarios],
    [mostrarCalendarioAdministrador] or [mostrarDetalhesDoDia] a second time
    with the same argument gives the outcome and the page of the first
    call, in every state, whether the call returns or throws. *)
Theorem desenhar_de_novo {plat : Plataforma} (st : Estado) :
  (forall d, atualizarListaDeHorarios d (snd (atualizarListaDeHorarios d st))
             = atualizarListaDeHorarios d st)
  /\ mostrarCalendarioAdministrador (snd (mostrarCalendarioAdministrador st))
     = mostrarCalendarioAdministrador st
  /\ (forall d, mostrarDetalhesDoDia d (snd (mostrarDetalhesDoDia d st))
                = mostrarDetalhesDoDia d st).
Proof.
  destruct st as [ls mes [eh em ec en ed] al].
  split; [|split].
  - intros d. unfold atualizarListaDeHorarios.
    cbn [documento el_hora localStorage].
    destruct eh as [ops|]; [|reflexivity].
    destruct d as [|c r].
    { destruct em; reflexivity. }
    destruct (negb (dataEstaDentroDoPeriodoPermitido (c :: r))).
    { destruct em; reflexivity. }
    destruct (ehDomingo (c :: r)).
    { destruct em; reflexivity. }
    destruct (agendamentosDoDia ls (c :: r)) as [doDia|e] eqn:Ha;
      cbn [snd documento localStorage comDocumento comMensagem comOpcoes el_hora];
      rewrite Ha; [destruct em|]; reflexivity.
  - unfold mostrarCalendarioAdministrador.
    cbn [documento el_calendar localStorage mesAtualExibido].
    destruct ec as [c0|]; [|reflexivity]. cbv zeta.
    destruct (paraCada _ _) as [celulas|e] eqn:Hc;
      cbn [snd documento localStorage mesAtualExibido comDocumento comCalendario
           el_calendar];
      rewrite Hc; [destruct en|]; reflexivity.
  - intros d. unfold mostrarDetalhesDoDia.
    cbn [documento el_day_details localStorage].
    destruct ed as [caixa|]; [|reflexivity].
    destruct (listaDoDia ls d) as [lista|e] eqn:Hl;
      cbn [snd documento localStorage comDocumento comDetalhes el_day_details];
      rewrite Hl; reflexivity.
Qed.

(* ================================================================== *)
(** * The listener of the storage event *)
(* ================================================================== *)

(** X23. The listener of the storage event draws the administration panel
    again for the storage as it is: for any other key, or when the storage
    was cleared, it does nothing; for the key of the appointments, on a
    storage that holds a list of appointments, it returns, the calendar is
    that of the month displayed, and the details are those of the day that
    was open, when one was, and are left as they were otherwise. *)
Theorem aoMudarStorage_redesenha {plat : Plataforma} (chave : option jsstring)
        (st : Estado) (l : list Agendamento) (c0 : option Calendario)
        (caixa : CaixaDeDetalhes) :
  armazena (localStorage st) l ->
  el_calendar (documento st) = Some c0 ->
  el_day_details (documento st) = Some caixa ->
  9 <= mesAtualExibido st <= 11 ->
  let r := aoMudarStorage chave st in
  (chave <> Some CHAVE_ARMAZENAMENTO -> r = (Retorna tt, st))
  /\ (chave = Some CHAVE_ARMAZENAMENTO ->
        fst r = Retorna tt
        /\ el_calendar (documento (snd r))
           = Some (Some (calendarioEsperado l (mesAtualExibido st)))
        /\ el_day_details (documento (snd r))
           = Some (match cx_data caixa with
                   | Some (c :: s) => caixaEsperada l (c :: s)
                   | _ => caixa
                   end)).
Proof.
  intros Harm Hel Hdet Hm r. subst r. split.
  - intros Hk. unfold aoMudarStorage. destruct chave as [k|]; [|reflexivity].
    destruct (jsstring_eqb k CHAVE_ARMAZENAMENTO) eqn:E; [|reflexivity].
    apply jsstring_eqb_eq in E. congruence.
  - intros ->. unfold aoMudarStorage. rewrite jsstring_eqb_refl.
    rewrite (mostrarCalendarioAdministrador_valor st l c0 Harm Hel Hm).
    set (st1 := comDocumento _ st).
    assert (Harm1 : armazena (localStorage st1) l) by exact Harm.
    assert (Hdet1 : el_day_details (documento st1) = Some caixa) by exact Hdet.
    rewrite Hdet1.
    destruct (cx_data caixa) as [[|c s]|].
    + split; [reflexivity|]. split; [reflexivity|exact Hdet].
    + rewrite (mostrarDetalhesDoDia_valor st1 l caixa _ Harm1 Hdet1).
      split; [reflexivity|]. split; reflexivity.
    + split; [reflexivity|]. split; [reflexivity|exact Hdet].
Qed.

(* ================================================================== *)
(** * The limits of the date field *)
(* ================================================================== *)

(** X24. The limits [inicializarFormularioCliente] gives the date field are
    the first and the last day of the allowed period: they are the dates 1
    October 2025 and 31 December 2025 written YYYY-MM-DD, and a date of the
    calendar passes [dataEstaDentroDoPeriodoPermitido] exactly when it is
    not before the first and not after the second. *)
Theorem limites_do_campo_data {plat : Plataforma} :
  dataMinima = dataISO_de 2025 10 1
  /\ dataMaxima = dataISO_de 2025 12 31
  /\ (forall y m d, dataCivil y m d ->
        (dataEstaDentroDoPeriodoPermitido (dataISO_de y m d) = true
         <-> naoDepois (2025, 10, 1) (y, m, d) /\ naoDepois (y, m, d) (2025, 12, 31))).
Proof.
  split; [reflexivity|]. split; [reflexivity|].
  intros y m d Hc. rewrite dataEstaDentroDoPeriodoPermitido_civil by exact Hc.
  pose proof (dataCivil_campos y m d Hc) as (Hy & Hm & Hd).
  unfold naoDepois. rewrite andb_true_iff, Z.eqb_eq, Z.leb_le. lia.
Qed.

(* ================================================================== *)
(** * A stored value that is not an array *)
(* ================================================================== *)

Lemma Array_filter_nao_array (v : JSVal) (p : JSVal -> Resultado bool) :
  (forall l, v <> JArr l) -> Array_filter v p = Lanca TypeError.
Proof. intros H. destruct v; try reflexivity. destruct (H itens eq_refl). Qed.

Lemma primeiro_dia_nao_e_domingo {plat : Plataforma} (mes : Z) :
  9 <= mes <= 11 ->
  igualEstritoNumero
    (getDay (Date_de_texto
       ((textoDeInteiro ANO_PERMITIDO ++ c_menos :: padStart 2 (textoDeInteiro (mes + 1))
           ++ c_menos :: padStart 2 (textoDeInteiro 1)) ++ meiaNoite))) 0 = false.
Proof.
  intros Hm.
  assert (Hc : mes = 9 \/ mes = 10 \/ mes = 11) by lia.
  destruct Hc as [E | [E | E]]; rewrite E; vm_compute; reflexivity.
Qed.

(** X25. When the item of the storage is JSON text for a value that is not
    an array, every function that reads the list throws a TypeError and
    nothing is written: the occupancy check, the select of hours for a date
    that passes the date checks (the select is left empty), the calendar of
    an allowed month and the details of a day. *)
Theorem lista_que_nao_e_array {plat : Plataforma} (st : Estado) :
  (forall l, pegarListaDeAgendamentos (localStorage st) <> JArr l) ->
  (forall d h, horarioEstaOcupado (localStorage st) d h = Lanca TypeError)
  /\ (forall d ops0, el_hora (documento st) = Some ops0 -> d <> [] ->
        dataEstaDentroDoPeriodoPermitido d = true -> ehDomingo d = false ->
        atualizarListaDeHorarios d st
        = (Lanca TypeError, comDocumento (comOpcoes [] (documento st)) st))
  /\ (forall c0, el_calendar (documento st) = Some c0 ->
        9 <= mesAtualExibido st <= 11 ->
        mostrarCalendarioAdministrador st = (Lanca TypeError, st))
  /\ (forall d caixa, el_day_details (documento st) = Some caixa ->
        mostrarDetalhesDoDia d st = (Lanca TypeError, st)).
Proof.
  intros Hv. repeat split.
  - intros d h. unfold horarioEstaOcupado. cbv zeta.
    destruct (pegarListaDeAgendamentos (localStorage st)); try reflexivity.
    destruct (Hv itens eq_refl).
  - intros d ops0 Hel Hd Hp Hs. unfold atualizarListaDeHorarios. rewrite Hel.
    destruct d as [|c r]; [congruence|]. rewrite Hp, Hs. cbn [negb].
    unfold agendamentosDoDia. rewrite Array_filter_nao_array by exact Hv. reflexivity.
  - intros c0 Hel Hm. unfold mostrarCalendarioAdministrador. rewrite Hel. cbv zeta.
    rewrite getDate_dia_zero by (unfold ANO_PERMITIDO; lia).
    pose proof (diasNoMes_limites ANO_PERMITIDO (mesAtualExibido st + 1)) as Hl.
    unfold diasAte.
    destruct (Z.to_nat (diasNoMes ANO_PERMITIDO (mesAtualExibido st + 1))) as [|n] eqn:E;
      [lia|].
    cbn [seq map paraCada]. unfold celulaDoDia at 1. cbv zeta.
    change (Z.of_nat 1) with 1.
    rewrite (primeiro_dia_nao_e_domingo _ Hm).
    rewrite Array_filter_nao_array by exact Hv. reflexivity.
  - intros d caixa Hel. unfold mostrarDetalhesDoDia. rewrite Hel.
    unfold listaDoDia, agendamentosDoDia.
    rewrite Array_filter_nao_array by exact Hv. reflexivity.
Qed.

(* ================================================================== *)
(** * Reading the list *)
(* ================================================================== *)

(** X26. [pegarListaDeAgendamentos] gives [JSON.parse]'s value for an item
    that is JSON text and the empty list in every other case: when the key
    has no item, when the item is the empty string and when [JSON.parse]
    throws on the item. *)
Theorem pegarListaDeAgendamentos_casos (ls : Storage) :
  (getItem ls CHAVE_ARMAZENAMENTO = None -> pegarListaDeAgendamentos ls = JArr [])
  /\ (getItem ls CHAVE_ARMAZENAMENTO = Some [] -> pegarListaDeAgendamentos ls = JArr [])
  /\ (forall s e, getItem ls CHAVE_ARMAZENAMENTO = Some s ->
        JSON_parse s = Lanca e -> pegarListaDeAgendamentos ls = JArr [])
  /\ (forall s v, getItem ls CHAVE_ARMAZENAMENTO = Some s ->
        JSON_parse s = Retorna v -> pegarListaDeAgendamentos ls = v).
Proof.
  split; [apply pegarListaDeAgendamentos_ausente|].
  split; [intros H; unfold pegarListaDeAgendamentos; rewrite H; reflexivity|].
  split; [intros s e H1 H2; apply (pegarListaDeAgendamentos_malformado ls s e H1 H2)|].
  intros s v H1 H2. unfold pegarListaDeAgendamentos. rewrite H1.
  destruct s as [|c r]; [discriminate H2|]. cbn [ouTexto]. rewrite H2. reflexivity.
Qed.

(* ================================================================== *)
(** * Messages and appointments *)
(* ================================================================== *)

Lemma submeter_app {plat : Plataforma} (fs gs : list Formulario) (st : Estado) :
  submeter (fs ++ gs) st = submeter gs (submeter fs st).
Proof.
  revert st. induction fs as [|f fs IH]; intros st; [reflexivity|].
  cbn [app submeter]. apply IH.
Qed.

Lemma submeter_alertas {plat : Plataforma} (fs : list Formulario) :
  forall (st : Estado) (l : list Agendamento),
    armazena (localStorage st) l ->
    exists l' novos,
      armazena (localStorage (submeter fs st)) (l ++ l')
      /\ alertas (submeter fs st) = alertas st ++ novos
      /\ List.length novos = List.length fs
      /\ List.length l' = List.length (filter ehAlertaSalvo novos).
Proof.
  induction fs as [|f fs IH]; intros st l Harm.
  - exists [], []. cbn [submeter]. rewrite !app_nil_r. auto.
  - cbn [submeter].
    destruct (primeiraFalha f (ocupadoEm l f)) as [a|] eqn:Hf.
    + destruct (aoEnviarFormulario_recusa f st l a Harm Hf) as (_ & Hs & Ha).
      assert (Harm' : armazena (localStorage (snd (aoEnviarFormulario f st))) l).
      { unfold armazena. rewrite Hs. exact Harm. }
      destruct (IH _ _ Harm') as (l' & novos & H1 & H2 & H3 & H4).
      exists l', (a :: novos). split; [exact H1|]. split.
      { rewrite H2, Ha, <- app_assoc. reflexivity. }
      split; [cbn; lia|].
      cbn [filter]. destruct a; cbn [ehAlertaSalvo]; try exact H4.
      destruct (primeiraFalha_nao_salvo f _ Hf).
    + destruct (aoEnviarFormulario_aceita f st l Harm Hf) as (_ & Hs & Ha).
      destruct (IH _ _ Hs) as (l' & novos & H1 & H2 & H3 & H4).
      exists (pedido f :: l'), (AlertaSalvo :: novos). split.
      { rewrite <- app_assoc in H1. exact H1. }
      split.
      { rewrite H2, Ha, <- app_assoc. reflexivity. }
      split; cbn; lia.
Qed.

(** X27. Every submission shows one message, and the appointments stored
    are as many as the messages of success: after any sequence of
    submissions from the empty storage, the alerts shown are as many as the
    submissions, and the stored list has one appointment for each alert
    saying the appointment was saved. *)
Theorem um_alerta_por_envio {plat : Plataforma} (d : Documento) (fs : list Formulario) :
  let st := submeter fs (estadoInicial d) in
  List.length (alertas st) = List.length fs
  /\ exists l, armazena (localStorage st) l
       /\ List.length l = List.length (filter ehAlertaSalvo (alertas st)).
Proof.
  destruct (submeter_alertas fs (estadoInicial d) [] armazena_vazio)
    as (l' & novos & H1 & H2 & H3 & H4).
  cbn zeta. rewrite H2. cbn [alertas estadoInicial app].
  split; [exact H3|]. exists l'. split; [exact H1|exact H4].
Qed.
(** X28. Two submissions that pass the checks and differ in the string of
    the date or of the hour are both stored, in the order they were made:
    the occupancy check compares the strings, so two ways of writing one
    date count as two dates. *)
Theorem dois_envios_distintos {plat : Plataforma} (f g : Formulario) (st : Estado)
        (l : list Agendamento) :
  armazena (localStorage st) l ->
  primeiraFalha f (ocupadoEm l f) = None ->
  primeiraFalha g (ocupadoEm l g) = None ->
  (valorDoCampo (f_data f), valorDoCampo (f_hora f))
  <> (valorDoCampo (f_data g), valorDoCampo (f_hora g)) ->
  armazena (localStorage (submeter [f; g] st)) (l ++ [pedido f; pedido g]).
Proof.
  intros Harm Hf Hg Hdif. cbn [submeter].
  destruct (aoEnviarFormulario_aceita f st l Harm Hf) as (_ & Harm' & _).
  assert (Hg' : primeiraFalha g (ocupadoEm (l ++ [pedido f]) g) = None).
  { destruct (primeiraFalha_nenhuma g _ Hg) as (_ & _ & _ & _ & _ & _ & Ho).
    rewrite Ho in Hg.
    replace (ocupadoEm (l ++ [pedido f]) g) with false; [exact Hg|].
    unfold ocupadoEm in *. rewrite existsb_app, Ho. cbn [existsb orb].
    unfold mesmoHorario. cbn [pedido data hora].
    destruct (jsstring_eqb (valorDoCampo (f_data f)) (valorDoCampo (f_data g))) eqn:E1;
      [|reflexivity].
    destruct (jsstring_eqb (valorDoCampo (f_hora f)) (valorDoCampo (f_hora g))) eqn:E2;
      [|reflexivity].
    apply jsstring_eqb_eq in E1, E2. rewrite E1, E2 in Hdif. congruence. }
  destruct (aoEnviarFormulario_aceita g _ _ Harm' Hg') as (_ & Harm'' & _).
  rewrite <- app_assoc in Harm''. exact Harm''.
Qed.
(* ================================================================== *)
(** * From the form to the administration panel *)
(* ================================================================== *)

Lemma agendamentosEm_acrescenta (l : list Agendamento) (a : Agendamento) :
  agendamentosEm (l ++ [a]) (data a) = S (agendamentosEm l (data a)).
Proof.
  unfold agendamentosEm. rewrite filter_app, length_app. cbn [filter].
  rewrite jsstring_eqb_refl. cbn [List.length]. lia.
Qed.


(** X30. An appointment that was accepted is counted in the calendar: when
    the date of the form is a date of the calendar written YYYY-MM-DD, it is
    a date of October, November or December 2025, and on a page that shares
    the storage and displays that month the cell of that day is not a
    placeholder and counts one appointment more than there were for that
    date. *)
Theorem agendamento_aceito_no_calendario {plat : Plataforma} (f : Formulario)
        (st adm : Estado) (l : list Agendamento) (c0 : option Calendario) (y m d : Z) :
  armazena (localStorage st) l ->
  primeiraFalha f (ocupadoEm l f) = None ->
  dataCivil y m d ->
  valorDoCampo (f_data f) = dataISO_de y m d ->
  localStorage adm = localStorage (snd (aoEnviarFormulario f st)) ->
  el_calendar (documento adm) = Some c0 ->
  mesAtualExibido adm = m - 1 ->
  y = 2025 /\ 10 <= m <= 12
  /\ fst (mostrarCalendarioAdministrador adm) = Retorna tt
  /\ exists cal,
       el_calendar (documento (snd (mostrarCalendarioAdministrador adm)))
       = Some (Some cal)
       /\ nth_error (cal_celulas cal) (Z.to_nat (d - 1))
          = Some (CelulaDia (dataISO_de y m d) d
                    (S (agendamentosEm l (dataISO_de y m d)))).
Proof.
  intros Harm Hf Hc Hd Hls Hel Hmes.
  destruct (aoEnviarFormulario_aceita f st l Harm Hf) as (_ & Harm' & _).
  rewrite <- Hls in Harm'.
  destruct (primeiraFalha_nenhuma f _ Hf) as (_ & _ & _ & _ & Hp & Hs & _).
  rewrite Hd in Hp, Hs.
  rewrite dataEstaDentroDoPeriodoPermitido_civil in Hp by exact Hc.
  rewrite ehDomingo_civil in Hs by exact Hc.
  apply andb_prop in Hp. destruct Hp as [Hy Hm].
  apply Z.eqb_eq in Hy. apply Z.leb_le in Hm. subst y.
  pose proof (dataCivil_campos _ _ _ Hc) as (_ & Hm' & _).
  destruct Hc as (_ & _ & Hdia).
  split; [reflexivity|]. split; [lia|].
  assert (Hmes' : 9 <= mesAtualExibido adm <= 11) by lia.
  rewrite (mostrarCalendarioAdministrador_valor adm _ c0 Harm' Hel Hmes').
  cbn [fst snd documento comDocumento comCalendario el_calendar].
  split; [reflexivity|]. eexists. split; [reflexivity|].
  cbn [cal_celulas calendarioEsperado]. rewrite Hmes.
  replace (m - 1 + 1) with m by lia.
  unfold diasAte. rewrite !nth_error_map, nth_error_seq.
  destruct (Nat.ltb_spec (Z.to_nat (d - 1)) (Z.to_nat (diasNoMes ANO_PERMITIDO m)))
    as [_|Hge]; [|unfold ANO_PERMITIDO in *; lia].
  cbn [option_map]. replace (Z.of_nat (1 + Z.to_nat (d - 1))) with d by lia.
  unfold celulaEsperada. cbv zeta. change ANO_PERMITIDO with 2025.
  rewrite Hs. rewrite <- Hd.
  change (valorDoCampo (f_data f)) with (data (pedido f)).
  rewrite agendamentosEm_acrescenta. reflexivity.
Qed.

(* ================================================================== *)
(** * Worked examples *)
(* ================================================================== *)

#[local] Existing Instance plataformaDeExemplo.

(** The scenarios of the specification: a first appointment is stored; a
    second one for the same date and hour, a Sunday and a date outside the
    period are turned down and leave the storage as it was. *)
Example cenario_primeiro_agendamento :
  let r := aoEnviarFormulario formAna (estadoInicial paginaCliente) in
  fst r = Retorna tt
  /\ pegarListaDeAgendamentos (localStorage (snd r)) = JArr [registro agAna]
  /\ alertas (snd r) = [AlertaSalvo].
Proof. vm_compute. repeat split. Qed.

Example cenario_recusas :
  let st := snd (aoEnviarFormulario formAna (estadoInicial paginaCliente)) in
  (let r := aoEnviarFormulario formBia st in
   fst r = Retorna tt
   /\ localStorage (snd r) = localStorage st
   /\ alertas (snd r) = [AlertaSalvo; AlertaHorarioOcupado])
  /\ aoEnviarFormulario formDomingo st = (Retorna tt, alert AlertaDomingo st)
  /\ aoEnviarFormulario formJaneiro st = (Retorna tt, alert AlertaForaDoPeriodo st).
Proof. vm_compute. repeat split. Qed.

(** Records stored at 17:00, 09:00 and 08:00, in that order, are shown at
    08:00 (not one of the fixed hours), 09:00 and 17:00. *)
Example cenario_ordem_do_dia :
  let st := submeter [formCaio; formAna; formDuda] (estadoInicial paginaAdm) in
  listaDoDia (localStorage st) (js "2025-10-06")
  = Retorna [registro agDuda; registro agAna; registro agCaio].
Proof. vm_compute. reflexivity. Qed.

(** The platform functions on known values. *)

Example codigos_dos_caracteres :
  map N_of_ascii
      ["009"; "010"; "013"; " "; "034"; "092"; "/"; "["; "]"; "{"; "}"; ":"; ",";
       "-"; "+"; "."; "0"; "9"; "b"; "e"; "E"; "f"; "n"; "r"; "t"; "u"; "T"]%char
  = [c_tab; c_lf; c_cr; c_espaco; c_aspas; c_barra_invertida; c_barra;
     c_abre_colchete; c_fecha_colchete; c_abre_chave; c_fecha_chave; c_dois_pontos;
     c_virgula; c_menos; c_mais; c_ponto; c_zero; c_nove; c_b; c_e; c_E; c_f; c_n;
     c_r; c_t; c_u; c_T].
Proof. reflexivity. Qed.

Example JSON_parse_valores :
  JSON_parse (js " [1, -2.5e+3, true, null, {}] ")
  = Retorna (JArr [JNum (js "1"); JNum (js "-2.5e+3"); JBool true; JNull; JObj []])
  /\ JSON_parse (js "[1,]") = Lanca SyntaxError
  /\ JSON_parse (js "01") = Lanca SyntaxError
  /\ JSON_parse (js "[[[[") = Lanca SyntaxError
  /\ JSON_parse (js "nulo") = Lanca SyntaxError
  /\ JSON_parse [] = Lanca SyntaxError.
Proof. vm_compute. repeat split. Qed.

(** An object keeps one property per key, the array indices first. *)
Example JSON_parse_objeto :
  JSON_parse (c_abre_chave :: textoCitado (js "b") ++ js ":1,"
              ++ textoCitado (js "7") ++ js ":2,"
              ++ textoCitado (js "b") ++ js ":3}")
  = Retorna (JObj [(js "7", JNum (js "2")); (js "b", JNum (js "3"))]).
Proof. vm_compute. reflexivity. Qed.

(** A quote, a backslash, a line feed, a control character and a lone
    surrogate are escaped; a surrogate pair is written as it is. *)
Example JSON_stringify_escapes :
  JSON_stringify (JStr [97; c_aspas; c_barra_invertida; c_lf; 1; 55357; 56832; 56832])%N
  = c_aspas :: 97%N
      :: c_barra_invertida :: c_aspas
      :: c_barra_invertida :: c_barra_invertida
      :: c_barra_invertida :: c_n
      :: js "\u0001" ++ 55357%N :: 56832%N :: js "\ude00" ++ [c_aspas].
Proof. vm_compute. reflexivity. Qed.

(** 5 October 2025 is a Sunday, 1 January 1970 a Thursday, 29 February 2000 a
    Tuesday; a string with a 13th month is left to the platform. *)
Example Date_de_texto_valores :
  (let d := Date_de_texto (js "2025-10-05T00:00:00") in
   (getFullYear d, getMonth d, getDate d, getDay d) = (Some 2025, Some 9, Some 5, Some 0))
  /\ (let d := Date_de_texto (js "1970-01-01T00:00:00") in
      (d, getDay d) = (Some 0, Some 4))
  /\ (let d := Date_de_texto (js "2000-02-29T00:00:00") in
      (getMonth d, getDate d, getDay d) = (Some 1, Some 29, Some 2))
  /\ Date_de_texto (js "2025-13-01T00:00:00")
     = dataPorHeuristica (js "2025-13-01T00:00:00").
Proof. vm_compute. repeat split. Qed.

(** The days of October, November and December 2025, as the calendar asks
    for them. *)
Example dias_dos_meses_permitidos :
  map (fun mes => getDate (Date_de_componentes ANO_PERMITIDO (mes + 1) 0)) MESES_PERMITIDOS
  = [Some 31; Some 30; Some 31].
Proof. vm_compute. reflexivity. Qed.

(** The claims at a concrete input. *)

Lemma dataEstaDentroDoPeriodoPermitido_periodo_exemplo :
  dataCivil 2025 10 6
  /\ dataEstaDentroDoPeriodoPermitido (dataISO_de 2025 10 6) = true.
Proof.
  assert (H : dataCivil 2025 10 6) by (unfold dataCivil; cbn; lia).
  split; [exact H|].
  rewrite (proj1 dataEstaDentroDoPeriodoPermitido_periodo 2025 10 6 H).
  reflexivity.
Defined.

Lemma ehDomingo_todo_domingo_exemplo :
  dataCivil 2025 10 5 /\ ehDomingo (dataISO_de 2025 10 5) = true.
Proof.
  assert (H : dataCivil 2025 10 5) by (unfold dataCivil; cbn; lia).
  split; [exact H|].
  rewrite (proj1 ehDomingo_todo_domingo 2025 10 5 H).
  reflexivity.
Defined.

Lemma aoEnviarFormulario_verificacoes_exemplo :
  let st := snd (aoEnviarFormulario formAna (estadoInicial paginaCliente)) in
  armazena (localStorage st) [agAna]
  /\ primeiraFalha formBia (ocupadoEm [agAna] formBia) = Some AlertaHorarioOcupado
  /\ (let r := aoEnviarFormulario formBia st in
      fst r = Retorna tt
      /\ localStorage (snd r) = localStorage st
      /\ alertas (snd r) = alertas st ++ [AlertaHorarioOcupado]).
Proof.
  intros st.
  assert (H1 : armazena (localStorage st) [agAna]) by (vm_compute; reflexivity).
  assert (H2 : primeiraFalha formBia (ocupadoEm [agAna] formBia)
               = Some AlertaHorarioOcupado) by (vm_compute; reflexivity).
  split; [exact H1|]. split; [exact H2|].
  apply (proj1 (proj2 (aoEnviarFormulario_verificacoes st formBia))
           [agAna] AlertaHorarioOcupado H1 H2).
Defined.

Lemma mudarMesAtual_adjacente_exemplo :
  (1 = 1 \/ 1 = -1)
  /\ In (9 + 1) MESES_PERMITIDOS
  /\ mesAtualExibido (snd (mudarMesAtual 1 (estadoInicial paginaAdm))) = 10.
Proof.
  assert (H1 : 1 = 1 \/ 1 = -1) by (left; reflexivity).
  assert (H2 : In (9 + 1) MESES_PERMITIDOS) by (cbn; auto).
  split; [exact H1|]. split; [exact H2|].
  apply (proj1 (proj1 mudarMesAtual_adjacente 1 (estadoInicial paginaAdm) H1)).
  exact H2.
Defined.


Lemma regravar_lista_salva_exemplo :
  let ls := [(CHAVE_ARMAZENAMENTO, JSON_stringify (JArr (map registro [agAna; agCaio])))] in
  getItem ls CHAVE_ARMAZENAMENTO
  = Some (JSON_stringify (JArr (map registro [agAna; agCaio])))
  /\ regravar ls = ls.
Proof.
  intros ls.
  assert (H : getItem ls CHAVE_ARMAZENAMENTO
              = Some (JSON_stringify (JArr (map registro [agAna; agCaio]))))
    by reflexivity.
  split; [exact H|].
  apply (regravar_lista_salva ls [agAna; agCaio] H).
Defined.


(** C8 as stated fails: a stored text that is not JSON is replaced by the
    text of the empty list, and an empty storage gets that text, whatever
    the platform writes for numbers. *)
Lemma regravar_altera_conteudo :
  (~ exists plat : Plataforma,
       @regravar plat [(CHAVE_ARMAZENAMENTO, js "abc")]
       = [(CHAVE_ARMAZENAMENTO, js "abc")])
  /\ (~ exists plat : Plataforma, @regravar plat [] = []).
Proof.
  split; intros (plat & H); vm_compute in H; discriminate H.
Qed.

(** The further properties at a concrete input. *)

Lemma salvarListaDeAgendamentos_substitui_exemplo :
  js "tema" <> CHAVE_ARMAZENAMENTO
  /\ getItem (salvarListaDeAgendamentos (JArr []) [(js "tema", js "escuro")]) (js "tema")
     = getItem [(js "tema", js "escuro")] (js "tema").
Proof.
  assert (H : js "tema" <> CHAVE_ARMAZENAMENTO) by discriminate.
  split; [exact H|].
  apply (proj2 (proj2 (salvarListaDeAgendamentos_substitui (JArr []) (JArr [])
                         [(js "tema", js "escuro")])) (js "tema") H).
Defined.

Lemma horarioEstaOcupado_exato_exemplo :
  armazena (localStorage clienteComAna) [agAna]
  /\ exists b,
       horarioEstaOcupado (localStorage clienteComAna) (js "2025-10-06") (js "09:00")
       = Retorna b
       /\ (b = true <->
           exists a, In a [agAna] /\ data a = js "2025-10-06" /\ hora a = js "09:00").
Proof.
  assert (H : armazena (localStorage clienteComAna) [agAna]) by (vm_compute; reflexivity).
  split; [exact H|].
  apply (horarioEstaOcupado_exato (localStorage clienteComAna) [agAna]
           (js "2025-10-06") (js "09:00") H).
Defined.

Lemma horarioEstaOcupado_sem_null_exemplo :
  let ls := [(CHAVE_ARMAZENAMENTO, js "[1,[],{},true]")] in
  let l := [JNum (js "1"); JArr []; JObj []; JBool true] in
  pegarListaDeAgendamentos ls = JArr l
  /\ Forall (fun v => v <> JNull) l
  /\ horarioEstaOcupado ls (js "2025-10-06") (js "09:00") = Retorna false.
Proof.
  intros ls l.
  assert (H1 : pegarListaDeAgendamentos ls = JArr l) by (vm_compute; reflexivity).
  assert (H2 : Forall (fun v => v <> JNull) l) by (repeat constructor; discriminate).
  split; [exact H1|]. split; [exact H2|].
  rewrite (horarioEstaOcupado_sem_null ls l (js "2025-10-06") (js "09:00") H1 H2).
  reflexivity.
Defined.

Lemma horarioEstaOcupado_null_exemplo :
  let ls := [(CHAVE_ARMAZENAMENTO, js "[{},null]")] in
  pegarListaDeAgendamentos ls = JArr ([JObj []] ++ JNull :: [])
  /\ Forall (fun v => v <> JNull) [JObj []]
  /\ horarioEstaOcupado ls (js "2025-10-06") (js "09:00") = Lanca TypeError.
Proof.
  intros ls.
  assert (H1 : pegarListaDeAgendamentos ls = JArr ([JObj []] ++ JNull :: []))
    by (vm_compute; reflexivity).
  assert (H2 : Forall (fun v => v <> JNull) [JObj []])
    by (repeat constructor; discriminate).
  split; [exact H1|]. split; [exact H2|].
  rewrite (horarioEstaOcupado_null ls [JObj []] [] (js "2025-10-06") (js "09:00") H1 H2).
  reflexivity.
Defined.


Lemma atualizarListaDeHorarios_aviso_exemplo :
  let d := js "2025-10-05" in
  let st := comStorage [(CHAVE_ARMAZENAMENTO, js "{}")] (estadoInicial paginaCliente) in
  el_hora (documento st) = Some []
  /\ (d = [] \/ dataEstaDentroDoPeriodoPermitido d = false \/ ehDomingo d = true)
  /\ fst (atualizarListaDeHorarios d st) = Retorna tt
  /\ el_hora (documento (snd (atualizarListaDeHorarios d st)))
     = Some [opcaoDeAviso TextoDomingo].
Proof.
  intros d st.
  assert (H1 : el_hora (documento st) = Some []) by reflexivity.
  assert (H2 : d = [] \/ dataEstaDentroDoPeriodoPermitido d = false \/ ehDomingo d = true)
    by (right; right; vm_compute; reflexivity).
  split; [exact H1|]. split; [exact H2|].
  destruct (atualizarListaDeHorarios_aviso d st [] H1 H2) as (A & B).
  split; [exact A|]. rewrite B. reflexivity.
Defined.

Lemma opcao_habilitada_e_aceita_exemplo :
  let st := estadoInicial paginaCliente in
  let ops := map (opcaoDoHorario [] (js "2025-10-06")) LISTA_DE_HORARIOS_FIXOS in
  let o := opcaoDoHorario [] (js "2025-10-06") (js "09:00") in
  armazena (localStorage st) []
  /\ el_hora (documento (snd (atualizarListaDeHorarios (valorDoCampo (f_data formAna)) st)))
     = Some ops
  /\ In o ops /\ op_disabled o = false
  /\ valorDoCampo (f_hora formAna) = op_value o
  /\ valorDoCampo (f_nome formAna) <> [] /\ valorDoCampo (f_telefone formAna) <> []
  /\ fst (aoEnviarFormulario formAna st) = Retorna tt
  /\ armazena (localStorage (snd (aoEnviarFormulario formAna st))) ([] ++ [pedido formAna]).
Proof.
  intros st ops o.
  assert (H1 : armazena (localStorage st) []) by reflexivity.
  assert (H2 : el_hora (documento (snd (atualizarListaDeHorarios
                 (valorDoCampo (f_data formAna)) st))) = Some ops)
    by (vm_compute; reflexivity).
  assert (H3 : In o ops) by (left; reflexivity).
  assert (H4 : op_disabled o = false) by reflexivity.
  assert (H5 : valorDoCampo (f_hora formAna) = op_value o) by reflexivity.
  assert (H6 : valorDoCampo (f_nome formAna) <> []) by discriminate.
  assert (H7 : valorDoCampo (f_telefone formAna) <> []) by discriminate.
  repeat (split; [assumption|]).
  destruct (opcao_habilitada_e_aceita st [] formAna ops o H1 H2 H3 H4 H5 H6 H7)
    as (A & B & _).
  split; [exact A|exact B].
Defined.

Lemma horario_aceito_e_oferecido_exemplo :
  let st := estadoInicial paginaCliente in
  armazena (localStorage st) []
  /\ el_hora (documento st) = Some []
  /\ primeiraFalha formAna (ocupadoEm [] formAna) = None
  /\ In (valorDoCampo (f_hora formAna)) LISTA_DE_HORARIOS_FIXOS
  /\ exists ops o,
       el_hora (documento (snd (atualizarListaDeHorarios
                                  (valorDoCampo (f_data formAna)) st))) = Some ops
       /\ In o ops /\ op_value o = valorDoCampo (f_hora formAna)
       /\ op_disabled o = false.
Proof.
  intros st.
  assert (H1 : armazena (localStorage st) []) by reflexivity.
  assert (H2 : el_hora (documento st) = Some []) by reflexivity.
  assert (H3 : primeiraFalha formAna (ocupadoEm [] formAna) = None)
    by (vm_compute; reflexivity).
  assert (H4 : In (valorDoCampo (f_hora formAna)) LISTA_DE_HORARIOS_FIXOS)
    by (left; reflexivity).
  repeat (split; [assumption|]).
  apply (horario_aceito_e_oferecido st [] formAna [] H1 H2 H3 H4).
Defined.

Lemma aoEnviarFormulario_salva_exemplo :
  let st := estadoInicial paginaCliente in
  armazena (localStorage st) []
  /\ primeiraFalha formAna (ocupadoEm [] formAna) = None
  /\ pegarListaDeAgendamentos (localStorage (snd (aoEnviarFormulario formAna st)))
     = JArr [registro agAna]
  /\ alertas (snd (aoEnviarFormulario formAna st)) = [AlertaSalvo].
Proof.
  intros st.
  assert (H1 : armazena (localStorage st) []) by reflexivity.
  assert (H2 : primeiraFalha formAna (ocupadoEm [] formAna) = None)
    by (vm_compute; reflexivity).
  split; [exact H1|]. split; [exact H2|].
  destruct (aoEnviarFormulario_salva formAna st [] H1 H2) as (_ & A & B & _).
  split; [exact A|exact B].
Defined.

Lemma aoEnviarFormulario_duas_vezes_exemplo :
  let st := estadoInicial paginaCliente in
  armazena (localStorage st) []
  /\ localStorage (submeter [formAna; formAna] st) = localStorage (submeter [formAna] st).
Proof.
  intros st.
  assert (H1 : armazena (localStorage st) []) by reflexivity.
  split; [exact H1|].
  apply (aoEnviarFormulario_duas_vezes formAna st [] H1).
Defined.

Lemma aoEnviarFormulario_outras_chaves_exemplo :
  let st := comStorage [(js "tema", js "escuro")] (estadoInicial paginaCliente) in
  js "tema" <> CHAVE_ARMAZENAMENTO
  /\ getItem (localStorage (snd (aoEnviarFormulario formAna st))) (js "tema")
     = Some (js "escuro").
Proof.
  intros st.
  assert (H : js "tema" <> CHAVE_ARMAZENAMENTO) by discriminate.
  split; [exact H|].
  rewrite (aoEnviarFormulario_outras_chaves formAna st (js "tema") H). reflexivity.
Defined.

Lemma aoEnviarFormulario_atualiza_horarios_exemplo :
  let st := estadoInicial paginaCliente in
  armazena (localStorage st) []
  /\ el_hora (documento st) = Some []
  /\ primeiraFalha formAna (ocupadoEm [] formAna) = None
  /\ el_hora (documento (snd (aoEnviarFormulario formAna st)))
     = Some (map (opcaoDoHorario ([] ++ [pedido formAna]) (valorDoCampo (f_data formAna)))
               LISTA_DE_HORARIOS_FIXOS).
Proof.
  intros st.
  assert (H1 : armazena (localStorage st) []) by reflexivity.
  assert (H2 : el_hora (documento st) = Some []) by reflexivity.
  assert (H3 : primeiraFalha formAna (ocupadoEm [] formAna) = None)
    by (vm_compute; reflexivity).
  repeat (split; [assumption|]).
  apply (proj1 (aoEnviarFormulario_atualiza_horarios formAna st [] [] H1 H2 H3)).
Defined.

Lemma so_o_envio_grava_exemplo :
  (forall f, EvMudarMes 1 <> EvEnviar f)
  /\ localStorage (snd (reagir (EvMudarMes 1) admComAna)) = localStorage admComAna.
Proof.
  assert (H : forall f, EvMudarMes 1 <> EvEnviar f) by discriminate.
  split; [exact H|].
  apply (proj1 (proj1 (so_o_envio_grava admComAna) (EvMudarMes 1) H)).
Defined.

Lemma alcancavel_validados_exemplo :
  alcancavel clienteComAna
  /\ exists l, armazena (localStorage clienteComAna) l /\ semConflito l
               /\ Forall validado l.
Proof.
  assert (H : alcancavel clienteComAna)
    by exact (alcancavel_passo (EvEnviar formAna) _ (alcancavel_inicial paginaCliente)).
  split; [exact H|].
  apply (alcancavel_validados clienteComAna H).
Defined.

Lemma totalDias_do_mes_exemplo :
  100 <= 2024 <= 9999 /\ 0 <= 1 <= 11
  /\ getDate (Date_de_componentes 2024 (1 + 1) 0) = Some 29.
Proof.
  assert (H1 : 100 <= 2024 <= 9999) by lia.
  assert (H2 : 0 <= 1 <= 11) by lia.
  split; [exact H1|]. split; [exact H2|].
  rewrite (totalDias_do_mes 2024 1 H1 H2). reflexivity.
Defined.

Lemma mostrarCalendarioAdministrador_celulas_exemplo :
  armazena (localStorage admComAna) [agAna]
  /\ el_calendar (documento admComAna) = Some None
  /\ 9 <= mesAtualExibido admComAna <= 11
  /\ fst (mostrarCalendarioAdministrador admComAna) = Retorna tt
  /\ exists cal,
       el_calendar (documento (snd (mostrarCalendarioAdministrador admComAna)))
       = Some (Some cal)
       /\ List.length (cal_celulas cal) = 31%nat
       /\ nth_error (cal_celulas cal) 4 = Some (CelulaPlaceholder (js "2025-10-05"))
       /\ nth_error (cal_celulas cal) 5 = Some (CelulaDia (js "2025-10-06") 6 1).
Proof.
  assert (H1 : armazena (localStorage admComAna) [agAna]) by (vm_compute; reflexivity).
  assert (H2 : el_calendar (documento admComAna) = Some None) by reflexivity.
  assert (H3 : 9 <= mesAtualExibido admComAna <= 11) by (cbn; lia).
  repeat (split; [assumption|]).
  destruct (mostrarCalendarioAdministrador_celulas admComAna [agAna] None H1 H2 H3)
    as (A & cal & B & C & D & E).
  split; [exact A|]. exists cal. split; [exact B|]. split; [rewrite D; reflexivity|].
  assert (H5 : 1 <= 5 <= diasNoMes ANO_PERMITIDO (mesAtualExibido admComAna + 1))
    by (cbn; lia).
  assert (H6 : 1 <= 6 <= diasNoMes ANO_PERMITIDO (mesAtualExibido admComAna + 1))
    by (cbn; lia).
  split; [exact (E 5 H5)|exact (E 6 H6)].
Defined.



Lemma alcancavel_mes_permitido_exemplo :
  let st := snd (reagir (EvMudarMes 2) (estadoInicial paginaAdm)) in
  alcancavel st /\ In (mesAtualExibido st) MESES_PERMITIDOS /\ mesAtualExibido st = 11.
Proof.
  intros st.
  assert (H : alcancavel st)
    by exact (alcancavel_passo (EvMudarMes 2) _ (alcancavel_inicial paginaAdm)).
  split; [exact H|]. split; [apply (alcancavel_mes_permitido st H)|reflexivity].
Defined.

Lemma mudarMesAtual_redesenha_exemplo :
  armazena (localStorage admComAna) [agAna]
  /\ el_calendar (documento admComAna) = Some None
  /\ In (mesAtualExibido admComAna + 1) MESES_PERMITIDOS
  /\ fst (mudarMesAtual 1 admComAna) = Retorna tt
  /\ el_calendar (documento (snd (mudarMesAtual 1 admComAna)))
     = Some (Some (calendarioEsperado [agAna] 10))
  /\ List.length (cal_celulas (calendarioEsperado [agAna] 10)) = 30%nat.
Proof.
  assert (H1 : armazena (localStorage admComAna) [agAna]) by (vm_compute; reflexivity).
  assert (H2 : el_calendar (documento admComAna) = Some None) by reflexivity.
  assert (H3 : In (mesAtualExibido admComAna + 1) MESES_PERMITIDOS)
    by (right; left; reflexivity).
  repeat (split; [assumption|]).
  destruct (mudarMesAtual_redesenha 1 admComAna [agAna] None H1 H2 H3)
    as (A & _ & B & _).
  split; [exact A|]. split; [exact B|reflexivity].
Defined.

Lemma aoMudarStorage_redesenha_exemplo :
  let caixa := caixaEsperada [] (js "2025-10-06") in
  let st := snd (mostrarDetalhesDoDia (js "2025-10-06") (estadoInicial paginaAdm)) in
  let st' := comStorage (localStorage clienteComAna) st in
  armazena (localStorage st') [agAna]
  /\ el_calendar (documento st') = Some None
  /\ el_day_details (documento st') = Some caixa
  /\ 9 <= mesAtualExibido st' <= 11
  /\ fst (aoMudarStorage (Some CHAVE_ARMAZENAMENTO) st') = Retorna tt
  /\ el_day_details (documento (snd (aoMudarStorage (Some CHAVE_ARMAZENAMENTO) st')))
     = Some (caixaEsperada [agAna] (js "2025-10-06")).
Proof.
  intros caixa st st'.
  assert (H1 : armazena (localStorage st') [agAna]) by (vm_compute; reflexivity).
  assert (H2 : el_calendar (documento st') = Some None) by reflexivity.
  assert (H3 : el_day_details (documento st') = Some caixa) by reflexivity.
  assert (H4 : 9 <= mesAtualExibido st' <= 11) by (cbn; lia).
  repeat (split; [assumption|]).
  destruct (proj2 (aoMudarStorage_redesenha (Some CHAVE_ARMAZENAMENTO) st' [agAna] None
                     caixa H1 H2 H3 H4) eq_refl) as (A & _ & B).
  split; [exact A|exact B].
Defined.

Lemma limites_do_campo_data_exemplo :
  dataCivil 2025 12 31
  /\ dataEstaDentroDoPeriodoPermitido (dataISO_de 2025 12 31) = true.
Proof.
  assert (H : dataCivil 2025 12 31) by (unfold dataCivil; cbn; lia).
  split; [exact H|].
  apply (proj2 (proj2 (proj2 limites_do_campo_data) 2025 12 31 H)).
  unfold naoDepois. lia.
Defined.

Lemma lista_que_nao_e_array_exemplo :
  (forall l, pegarListaDeAgendamentos (localStorage estadoComObjeto) <> JArr l)
  /\ horarioEstaOcupado (localStorage estadoComObjeto) (js "2025-10-06") (js "09:00")
     = Lanca TypeError
  /\ mostrarCalendarioAdministrador estadoComObjeto = (Lanca TypeError, estadoComObjeto).
Proof.
  assert (H : forall l, pegarListaDeAgendamentos (localStorage estadoComObjeto) <> JArr l)
    by (intros l; vm_compute; discriminate).
  split; [exact H|].
  destruct (lista_que_nao_e_array estadoComObjeto H) as (A & _ & B & _).
  split; [apply A|]. apply (B None eq_refl). cbn. lia.
Defined.

Lemma pegarListaDeAgendamentos_casos_exemplo :
  getItem [(CHAVE_ARMAZENAMENTO, js "[1,]")] CHAVE_ARMAZENAMENTO = Some (js "[1,]")
  /\ JSON_parse (js "[1,]") = Lanca SyntaxError
  /\ pegarListaDeAgendamentos [(CHAVE_ARMAZENAMENTO, js "[1,]")] = JArr [].
Proof.
  assert (H1 : getItem [(CHAVE_ARMAZENAMENTO, js "[1,]")] CHAVE_ARMAZENAMENTO
               = Some (js "[1,]")) by reflexivity.
  assert (H2 : JSON_parse (js "[1,]") = Lanca SyntaxError) by (vm_compute; reflexivity).
  split; [exact H1|]. split; [exact H2|].
  apply (proj1 (proj2 (proj2 (pegarListaDeAgendamentos_casos _))) _ _ H1 H2).
Defined.

(** 6 October 2025 written in two ways, booked twice at 09:00. *)
Lemma dois_envios_distintos_exemplo :
  let st := estadoInicial paginaCliente in
  armazena (localStorage st) []
  /\ primeiraFalha formAna (ocupadoEm [] formAna) = None
  /\ primeiraFalha formBiaAnoLongo (ocupadoEm [] formBiaAnoLongo) = None
  /\ (valorDoCampo (f_data formAna), valorDoCampo (f_hora formAna))
     <> (valorDoCampo (f_data formBiaAnoLongo), valorDoCampo (f_hora formBiaAnoLongo))
  /\ Date_de_texto (valorDoCampo (f_data formAna) ++ meiaNoite)
     = Date_de_texto (valorDoCampo (f_data formBiaAnoLongo) ++ meiaNoite)
  /\ armazena (localStorage (submeter [formAna; formBiaAnoLongo] st))
       ([] ++ [pedido formAna; pedido formBiaAnoLongo]).
Proof.
  intros st.
  assert (H1 : armazena (localStorage st) []) by reflexivity.
  assert (H2 : primeiraFalha formAna (ocupadoEm [] formAna) = None)
    by (vm_compute; reflexivity).
  assert (H3 : primeiraFalha formBiaAnoLongo (ocupadoEm [] formBiaAnoLongo) = None)
    by (vm_compute; reflexivity).
  assert (H4 : (valorDoCampo (f_data formAna), valorDoCampo (f_hora formAna))
               <> (valorDoCampo (f_data formBiaAnoLongo),
                   valorDoCampo (f_hora formBiaAnoLongo))) by discriminate.
  repeat (split; [assumption|]).
  split; [vm_compute; reflexivity|].
  apply (dois_envios_distintos formAna formBiaAnoLongo st [] H1 H2 H3 H4).
Defined.


Lemma agendamento_aceito_no_calendario_exemplo :
  let st := estadoInicial paginaCliente in
  armazena (localStorage st) []
  /\ primeiraFalha formAna (ocupadoEm [] formAna) = None
  /\ dataCivil 2025 10 6
  /\ valorDoCampo (f_data formAna) = dataISO_de 2025 10 6
  /\ localStorage admComAna = localStorage (snd (aoEnviarFormulario formAna st))
  /\ el_calendar (documento admComAna) = Some None
  /\ mesAtualExibido admComAna = 10 - 1
  /\ exists cal,
       el_calendar (documento (snd (mostrarCalendarioAdministrador admComAna)))
       = Some (Some cal)
       /\ nth_error (cal_celulas cal) 5 = Some (CelulaDia (js "2025-10-06") 6 1).
Proof.
  intros st.
  assert (H1 : armazena (localStorage st) []) by reflexivity.
  assert (H2 : primeiraFalha formAna (ocupadoEm [] formAna) = None)
    by (vm_compute; reflexivity).
  assert (H3 : dataCivil 2025 10 6) by (unfold dataCivil; cbn; lia).
  assert (H4 : valorDoCampo (f_data formAna) = dataISO_de 2025 10 6) by reflexivity.
  assert (H5 : localStorage admComAna
               = localStorage (snd (aoEnviarFormulario formAna st))) by reflexivity.
  assert (H6 : el_calendar (documento admComAna) = Some None) by reflexivity.
  assert (H7 : mesAtualExibido admComAna = 10 - 1) by reflexivity.
  repeat (split; [assumption|]).
  destruct (agendamento_aceito_no_calendario formAna st admComAna [] None 2025 10 6
              H1 H2 H3 H4 H5 H6 H7) as (_ & _ & _ & cal & A & B).
  exists cal. split; [exact A|exact B].
Defined.
